(** * allrank/training/train_utils.py: the training loop and its evaluators

    A shallow embedding of [loss_batch], [metric_on_batch], [metric_on_epoch],
    [compute_metrics], [get_current_lr], [compute_test] and [fit].

    - Python floats and tensor entries are IEEE binary64 values ([PrimFloat]);
      torch's default single precision is not distinguished. Sums ([np.sum],
      [np.mean], [torch.mean]) add from left to right: the pairwise and
      blocked summation of the libraries, which can differ from it in the
      last bits on long arrays, is not modelled. The general statements use
      of the arithmetic only the classification of a value as NaN and the
      order of the operations; concrete runs are evaluated in binary64.
    - A data loader yields the same batches each time it is iterated.
    - Dictionaries are [gmap]s; [config.metrics], whose iteration order
      drives file creation, is an association list in insertion order.
    - The model, the optimizer, the scheduler, the early-stopping object, the
      loss and the metric registry are collaborators: fields of the class
      [Collaborators].
    - Mutable objects (model, optimizer, scheduler), the file system and the
      observable calls live in a [world]; effectful code is written in a
      state-and-exception monad over it.
    - Opening and writing a file always succeed: an output directory that is
      missing or not writable, for which Python raises OSError, is outside
      the model. What is stated of a failure speaks of the lookups that the
      code makes; what is stated of the files after a run supposes that they
      could be written. *)

From Stdlib Require Import ZArith List String Ascii Bool Lia Floats Uint63 DecimalString.
From Stdlib Require DecimalFacts DecimalNat DecimalZ.
From stdpp Require Import base strings gmap list.
Import ListNotations.

Local Open Scope string_scope.
Local Open Scope Z_scope.

(** ** Python values and strings *)

Module Py.

(** The values a configuration scalar such as [gradient_clipping_norm] or
    [early_stopping_patience] can hold. *)
Inductive pyval :=
| PyNone
| PyInt (z : Z)
| PyFloat (f : float).

(** Python truth value: [None], [0], [0.0] and [-0.0] are false, every
    other number (NaN included) is true. *)
Definition truthy (v : pyval) : bool :=
  match v with
  | PyNone => false
  | PyInt z => negb (z =? 0)
  | PyFloat f => negb (PrimFloat.eqb f 0%float)
  end.

(** [v > 0] for a number, false for [None]. *)
Definition positive (v : pyval) : bool :=
  match v with
  | PyNone => false
  | PyInt z => 0 <? z
  | PyFloat f => PrimFloat.ltb 0%float f
  end.

(** The exceptions that the code can raise on its own. *)
Inductive exn :=
| ValueError        (* not enough values to unpack *)
| RuntimeError      (* torch.cat of an empty list *)
| KeyError (k : string)
| IndexError
| AttributeError (name : string)
| NameError (var : string).

(** [str(n)] for an int, and for a non-negative one. *)
Definition str_int (z : Z) : string := NilZero.string_of_int (Z.to_int z).
Definition str_nat (n : nat) : string := NilZero.string_of_uint (Nat.to_uint n).

(** [p in s] for strings. *)
Fixpoint str_contains (p s : string) : bool :=
  String.prefix p s ||
  match s with
  | EmptyString => false
  | String _ s' => str_contains p s'
  end.

(** [s.endswith("/")] *)
Fixpoint ends_with_slash (s : string) : bool :=
  match s with
  | EmptyString => false
  | String c EmptyString => Ascii.eqb c "/"
  | String _ s' => ends_with_slash s'
  end.

(** [os.path.join(a, b)] (POSIX). *)
Definition os_path_join (a b : string) : string :=
  if String.prefix "/" b then b
  else match a with
       | EmptyString => b
       | _ => if ends_with_slash a then a ++ b else a ++ "/" ++ b
       end.

Arguments os_path_join : simpl never.

(** ["{metric_name}_{at}".format(metric_name=metric_name, at=at)] *)
Definition format_metric (metric_name : string) (at_ : Z) : string :=
  metric_name ++ "_" ++ str_int at_.

End Py.
Export Py.

(** ** Tensors and numpy arrays *)

Module Tensor.

Abbreviation tensor1 := (list float).
Abbreviation tensor2 := (list (list float)).
Abbreviation tensor3 := (list (list (list float))).

(** The conversion of an int to a float (for counts below [2^63]). *)
Definition of_nat (n : nat) : float :=
  PrimFloat.of_uint63 (Uint63.of_Z (Z.of_nat n)).

(** [np.sum] of a float array, added from left to right. *)
Definition np_sum (l : tensor1) : float :=
  fold_left PrimFloat.add l 0%float.

(** [np.sum] of an int array. *)
Definition np_sum_int (l : list nat) : nat := fold_left Nat.add l 0%nat.

(** [np.multiply(losses, nums)]: elementwise, the ints converted. *)
Fixpoint np_multiply (ls : tensor1) (ns : list nat) : tensor1 :=
  match ls, ns with
  | l :: ls', n :: ns' => PrimFloat.mul l (of_nat n) :: np_multiply ls' ns'
  | _, _ => []
  end.

(** Arithmetic mean of all entries; NaN ([0/0]) on no entries. *)
Definition mean (l : tensor1) : float :=
  PrimFloat.div (np_sum l) (of_nat (length l)).

(** [np.mean] of a list of arrays: the mean over all their entries. *)
Definition np_mean (arrays : tensor2) : float := mean (concat arrays).

(** A 2-d tensor is the list of its rows; its width is that of its first
    row (a tensor without rows has no width here). *)
Definition ncols (t : tensor2) : nat := length (hd [] t).

(** [t[:, j]] *)
Definition column (t : tensor2) (j : nat) : tensor1 :=
  map (fun row => nth j row nan) t.

(** [t.T] *)
Definition transpose (t : tensor2) : tensor2 :=
  map (column t) (seq 0 (ncols t)).

(** [torch.mean(t, dim=0)]: one mean per column. *)
Definition torch_mean_dim0 (t : tensor2) : tensor1 :=
  map mean (transpose t).

(** [t[torch.isnan(t)] = 0] *)
Definition nan_to_zero (t : tensor3) : tensor3 :=
  map (map (map (fun v => if PrimFloat.is_nan v then 0%float else v))) t.

End Tensor.
Export Tensor.

(** ** Data and collaborators *)

(** One batch of a data loader: [xb] is [batch, slate_length, features],
    [yb] and [indices] are [batch, slate_length]. *)
Record batch := {
  b_x : tensor3;
  b_y : tensor2;
  b_idx : list (list Z)
}.

(** A data loader: the batches it yields when iterated (the same ones at
    every iteration), and the per-query arrays of [dl.dataset]. *)
Record loader := {
  batches : list batch;
  X_by_qid : tensor3;
  y_by_qid : tensor2
}.

(** What [fit] reads from [config]: [config.metrics] maps a metric name to
    its cutoffs, [config.val_metric] names the monitored validation metric. *)
Record config := {
  metrics : list (string * list Z);
  val_metric : string
}.

(** A metric of [allrank.models.metrics]: scores, labels and cutoffs to one
    row per example and one column per cutoff. *)
Abbreviation metric_fn := (tensor2 -> tensor2 -> list Z -> tensor2).

Class Collaborators := {
  (** the [nn.Module] object with all it carries: parameters, accumulated
      gradients, train/eval flag *)
  Model : Type;
  Optimizer : Type;
  Scheduler : Type;
  EarlyStop : Type;
  (** [allrank.data.dataset_loading.PADDED_Y_VALUE] *)
  PADDED_Y_VALUE : float;
  (** [model(xb, mask, indices)] and [model.score(xb, mask, indices)] *)
  model_call : Model -> tensor3 -> list (list bool) -> list (list Z) -> tensor2;
  model_score : Model -> tensor3 -> list (list bool) -> option (list (list Z)) -> tensor2;
  model_train : Model -> Model;
  model_eval : Model -> Model;
  get_num_params : Model -> Z;
  (** [loss_func(scores, yb).item()], and what [loss.backward()] of that
      batch's loss does to the model's gradients *)
  loss_func : tensor2 -> tensor2 -> float;
  loss_backward : Model -> batch -> Model;
  clip_grad_norm_ : Model -> pyval -> Model;
  opt_step : Optimizer -> Model -> Optimizer * Model;
  opt_zero_grad : Optimizer -> Model -> Model;
  (** the ["lr"] entry of each of [optimizer.param_groups] *)
  opt_param_group_lrs : Optimizer -> list float;
  (** [type(scheduler) == torch.optim.lr_scheduler.ReduceLROnPlateau] *)
  sched_is_plateau : Scheduler -> bool;
  (** [scheduler.step] with its arguments: it may change the optimizer's
      learning rate *)
  sched_step : Scheduler -> option float -> Optimizer -> Scheduler * Optimizer;
  (** [getattr(metrics_module, name)] *)
  metrics_module : string -> option metric_fn;
  (** [EarlyStop(patience)], [.step(value, epoch)], [.stop_training(epoch)],
      [.best_epoch], [.best_value] *)
  es_new : pyval -> EarlyStop;
  es_step : EarlyStop -> option float -> nat -> EarlyStop;
  es_stop_training : EarlyStop -> nat -> bool;
  es_best_epoch : EarlyStop -> pyval;
  es_best_value : EarlyStop -> pyval
}.

(** Modelled from the spec: the class [EarlyStop] of
    [allrank/training/early_stop.py], whose source is not available here.
    The spec's controller: [best_value] starts unset; [step] records a
    value that is the first one or strictly better (higher) than the best,
    and leaves the state alone on a missing value; [stop_training] holds iff
    [epoch - best_epoch >= patience], a patience of zero or unset never
    stopping. [best_epoch] counts from epoch 0 while no value was recorded. *)
Module SpecEarlyStop.

Record t := {
  patience : pyval;
  best_value : option float;
  best_epoch : nat
}.

Definition new (p : pyval) : t :=
  {| patience := p; best_value := None; best_epoch := 0 |}.

Definition step (s : t) (current_value : option float) (epoch : nat) : t :=
  match current_value with
  | None => s
  | Some v =>
      match best_value s with
      | None => {| patience := patience s; best_value := Some v; best_epoch := epoch |}
      | Some b =>
          if PrimFloat.ltb b v
          then {| patience := patience s; best_value := Some v; best_epoch := epoch |}
          else s
      end
  end.

Definition stop_training (s : t) (epoch : nat) : bool :=
  match patience s with
  | PyInt p => (0 <? p) && (p <=? Z.of_nat epoch - Z.of_nat (best_epoch s))
  | _ => false
  end.

Definition best_value_py (s : t) : pyval :=
  match best_value s with Some v => PyFloat v | None => PyNone end.

End SpecEarlyStop.

(** ** Effects: the world, and the monad of code that runs in it *)

Inductive result (A : Type) :=
| Ok (a : A)
| Raise (e : exn).
Arguments Ok {A} a.
Arguments Raise {A} e.

Section TrainUtils.
Context `{C : Collaborators}.

(** What a file holds: the lines written to it (each the [str] of a number
    and a newline), or a pickled state dict. *)
Inductive item :=
| Line (v : float)
| StateDict (m : Model).

Inductive log_msg :=
| LogNumParams (n : Z)
| LogLr (lr : option float)
| LogSummary (epoch : nat) (train_loss val_loss : float)
    (train_metrics val_metrics : gmap string float)
| LogEarlyStop (epoch : nat) (metric : string) (best_epoch best_value : pyval)
    (current : option float).

(** The calls on collaborators that an observer of a run can see, in order.
    Of the calls of [model.score], those of the per-query evaluator are
    recorded, with the feature tensor they pass. *)
Inductive event :=
| EvLog (msg : log_msg)
| EvTensorboardOpen (path : string)
| EvTensorboardSave (d : gmap (string * string) pyval) (epoch : nat)
| EvTensorboardClose
| EvModelTrain
| EvModelEval
| EvBackward
| EvClipGradNorm (max_norm : pyval)
| EvOptStep
| EvZeroGrad
| EvSchedulerStep (arg : option float)
| EvEarlyStopStep (value : option float) (epoch : nat)
| EvScoreQuery (x : tensor3)
| EvTorchSave (path : string).

Record world := {
  w_model : Model;
  w_optimizer : Optimizer;
  w_scheduler : option Scheduler;
  w_fs : gmap string (list item);
  w_trace : list event
}.

Definition M (A : Type) : Type := world -> result A * world.

Definition ret {A} (a : A) : M A := fun w => (Ok a, w).

Definition raise {A} (e : exn) : M A := fun w => (Raise e, w).

Definition bind {A B} (m : M A) (k : A -> M B) : M B :=
  fun w =>
    match m w with
    | (Ok a, w') => k a w'
    | (Raise e, w') => (Raise e, w')
    end.

Definition lift {A} (r : result A) : M A := fun w => (r, w).

#[global] Instance M_ret : MRet M := @ret.
#[global] Instance M_bind : MBind M := fun A B k m => bind m k.

Definition emit (ev : event) : M unit :=
  fun w => (Ok tt, {| w_model := w_model w; w_optimizer := w_optimizer w;
                      w_scheduler := w_scheduler w; w_fs := w_fs w;
                      w_trace := (w_trace w ++ [ev])%list |}).

Definition get_model : M Model := fun w => (Ok (w_model w), w).

Definition set_model (m : Model) : M unit :=
  fun w => (Ok tt, {| w_model := m; w_optimizer := w_optimizer w;
                      w_scheduler := w_scheduler w; w_fs := w_fs w;
                      w_trace := w_trace w |}).

Definition get_optimizer : M Optimizer := fun w => (Ok (w_optimizer w), w).

Definition set_optimizer (o : Optimizer) : M unit :=
  fun w => (Ok tt, {| w_model := w_model w; w_optimizer := o;
                      w_scheduler := w_scheduler w; w_fs := w_fs w;
                      w_trace := w_trace w |}).

Definition get_scheduler : M (option Scheduler) := fun w => (Ok (w_scheduler w), w).

Definition set_scheduler (s : Scheduler) : M unit :=
  fun w => (Ok tt, {| w_model := w_model w; w_optimizer := w_optimizer w;
                      w_scheduler := Some s; w_fs := w_fs w;
                      w_trace := w_trace w |}).

Definition set_fs (fs : gmap string (list item)) : M unit :=
  fun w => (Ok tt, {| w_model := w_model w; w_optimizer := w_optimizer w;
                      w_scheduler := w_scheduler w; w_fs := fs;
                      w_trace := w_trace w |}).

(** [open(path, "w")]: the file exists and is empty. The directory is
    supposed to exist and to be writable. *)
Definition open_w (path : string) : M unit :=
  fun w => set_fs (<[path := []]> (w_fs w)) w.

(** Writing through a handle opened with ["w"] or ["a"]: the items go to
    the end of the file, which ["a"] creates when it is not there. *)
Definition append (path : string) (items : list item) : M unit :=
  fun w => set_fs (<[path := (default [] (w_fs w !! path) ++ items)%list]> (w_fs w)) w.

Fixpoint mapM {A B} (f : A -> M B) (l : list A) : M (list B) :=
  match l with
  | [] => ret []
  | a :: l' => b ← f a; bs ← mapM f l'; ret (b :: bs)
  end.

Fixpoint foldM {A S} (f : S -> A -> M S) (l : list A) (s : S) : M S :=
  match l with
  | [] => ret s
  | a :: l' => s' ← f s a; foldM f l' s'
  end.

(** ** The functions of train_utils.py *)

(** [yb == PADDED_Y_VALUE] *)
Definition pad_mask (yb : tensor2) : list (list bool) :=
  map (map (fun y => PrimFloat.eqb y PADDED_Y_VALUE)) yb.

(** [opt] says whether an optimizer was passed ([opt is not None]); the
    optimizer object itself is the world's. *)
Definition loss_batch (b : batch) (gradient_clipping_norm : pyval) (opt : bool)
  : M (float * nat) :=
  model ← get_model;
  let mask := pad_mask (b_y b) in
  let loss := loss_func (model_call model (b_x b) mask (b_idx b)) (b_y b) in
  (if opt then
     emit EvBackward ;;
     set_model (loss_backward model b) ;;
     (if truthy gradient_clipping_norm then
        emit (EvClipGradNorm gradient_clipping_norm) ;;
        m ← get_model;
        set_model (clip_grad_norm_ m gradient_clipping_norm)
      else ret tt) ;;
     emit EvOptStep ;;
     o ← get_optimizer;
     m ← get_model;
     set_optimizer (fst (opt_step o m)) ;;
     set_model (snd (opt_step o m)) ;;
     emit EvZeroGrad ;;
     o ← get_optimizer;
     m ← get_model;
     set_model (opt_zero_grad o m)
   else ret tt) ;;
  ret (loss, length (b_x b)).

Definition metric_on_batch (metric : tensor2 -> tensor2 -> tensor2) (model : Model)
  (b : batch) : tensor2 :=
  metric (model_score model (b_x b) (pad_mask (b_y b)) (Some (b_idx b))) (b_y b).

(** [torch.cat] refuses an empty list of tensors. *)
Definition metric_on_epoch (metric : tensor2 -> tensor2 -> tensor2) (model : Model)
  (dl : loader) : result tensor1 :=
  match batches dl with
  | [] => Raise RuntimeError
  | bs => Ok (torch_mean_dim0 (concat (map (metric_on_batch metric model) bs)))
  end.

(** [d.update(dict(zip(names, values)))] *)
Fixpoint dict_update_zip (d : gmap string float) (names : list string)
  (values : tensor1) : gmap string float :=
  match names, values with
  | n :: names', v :: values' => dict_update_zip (<[n := v]> d) names' values'
  | _, _ => d
  end.

Fixpoint compute_metrics_from (metric_values_dict : gmap string float)
  (ms : list (string * list Z)) (model : Model) (dl : loader)
  : result (gmap string float) :=
  match ms with
  | [] => Ok metric_values_dict
  | (metric_name, ats) :: ms' =>
      match metrics_module metric_name with
      | None => Raise (AttributeError metric_name)
      | Some metric_func =>
          match metric_on_epoch (fun s y => metric_func s y ats) model dl with
          | Raise e => Raise e
          | Ok metrics_values =>
              let metrics_names := map (format_metric metric_name) ats in
              compute_metrics_from
                (dict_update_zip metric_values_dict metrics_names metrics_values)
                ms' model dl
          end
      end
  end.

Definition compute_metrics (ms : list (string * list Z)) (model : Model) (dl : loader)
  : result (gmap string float) :=
  compute_metrics_from ∅ ms model dl.

Definition get_current_lr (o : Optimizer) : option float :=
  head (opt_param_group_lrs o).

(** [d.setdefault(k, v)], for its effect on [d] *)
Definition setdefault {V} (d : gmap string V) (k : string) (v : V) : gmap string V :=
  match d !! k with
  | Some _ => d
  | None => <[k := v]> d
  end.

(** [os.path.join(output_dir, str(epoch) + ".model.predict." + m + ".txt")] *)
Definition metric_path (output_dir : string) (epoch : nat) (m : string) : string :=
  os_path_join output_dir (str_nat epoch ++ ".model.predict." ++ m ++ ".txt").

(** [os.path.join(output_dir, str(epoch) + ".model.predict.txt")] *)
Definition predictions_path (output_dir : string) (epoch : nat) : string :=
  os_path_join output_dir (str_nat epoch ++ ".model.predict.txt").

(** The body of the loop over [metrics_names] that opens the run of
    [compute_test]: an entry for [m], and its file created empty. *)
Definition create_metric_file (output_dir : string) (epoch : nat)
  (all_results_metric : gmap string tensor2) (m : string) : M (gmap string tensor2) :=
  let all_results_metric := setdefault all_results_metric m [] in
  open_w (metric_path output_dir epoch m);;
  ret all_results_metric.

Definition create_metric_files (ms : list (string * list Z)) (output_dir : string)
  (epoch : nat) : M (gmap string tensor2) :=
  foldM (fun all_results_metric '(metric_name, ats) =>
           foldM (create_metric_file output_dir epoch)
                 (map (format_metric metric_name) ats) all_results_metric)
        ms ∅.

(** The body of [for name, result in zip(metrics_names, results.T)]. *)
Definition export_metric (output_dir : string) (epoch : nat)
  (all_results_metric : gmap string tensor2) (nr : string * tensor1)
  : M (gmap string tensor2) :=
  append (metric_path output_dir epoch nr.1) (map Line nr.2);;
  match all_results_metric !! nr.1 with
  | None => raise (KeyError nr.1)
  | Some l => ret (<[nr.1 := (l ++ [nr.2])%list]> all_results_metric)
  end.

(** The body of [for metric_name, ats in metrics.items()] for one query. *)
Definition query_metric (output_dir : string) (epoch : nat)
  (results_predicted : tensor2) (y : tensor1)
  (all_results_metric : gmap string tensor2) (entry : string * list Z)
  : M (gmap string tensor2) :=
  let '(metric_name, ats) := entry in
  if str_contains "ndcg" metric_name then
    match metrics_module metric_name with
    | None => raise (AttributeError metric_name)
    | Some metric_func =>
        let results_metric := metric_func results_predicted [y] ats in
        let metrics_names := map (format_metric metric_name) ats in
        foldM (export_metric output_dir epoch)
              (zip metrics_names (transpose results_metric)) all_results_metric
    end
  else ret all_results_metric.

(** The body of [for num_query in range(num_queries)]. *)
Definition compute_test_query (ms : list (string * list Z)) (model : Model)
  (dl : loader) (output_dir : string) (epoch : nat)
  (all_results_metric : gmap string tensor2) (num_query : nat)
  : M (gmap string tensor2) :=
  match X_by_qid dl !! num_query, y_by_qid dl !! num_query with
  | Some x, Some y =>
      let temp_querie_x_tensor := nan_to_zero [x] in
      let results_predicted :=
        model_score model temp_querie_x_tensor (pad_mask [y]) None in
      emit (EvScoreQuery temp_querie_x_tensor);;
      append (predictions_path output_dir epoch) (map Line (concat results_predicted));;
      foldM (query_metric output_dir epoch results_predicted y) ms all_results_metric
  | _, _ => raise IndexError
  end.

Definition compute_test (ms : list (string * list Z)) (model : Model) (dl : loader)
  (output_dir : string) (epoch : nat) : M (gmap string float) :=
  let num_queries := length (X_by_qid dl) in
  open_w (predictions_path output_dir epoch);;
  all_results_metric ← create_metric_files ms output_dir epoch;
  all_results_metric ←
    foldM (compute_test_query ms model dl output_dir epoch)
          (seq 0 num_queries) all_results_metric;
  ret (map_imap (fun m l => if str_contains "ndcg" m then Some (np_mean l) else None)
                all_results_metric).

(** The list of the [loss_batch] results over [dl], transposed by [zip]
    and unpacked into [losses, nums]: unpacking the transposition of no
    pairs at all fails. *)
Definition batch_losses (dl : loader) (gradient_clipping_norm : pyval) (opt : bool)
  : M (tensor1 * list nat) :=
  pairs ← mapM (fun b => loss_batch b gradient_clipping_norm opt) (batches dl);
  match pairs with
  | [] => raise ValueError
  | _ => ret (map fst pairs, map snd pairs)
  end.

(** [np.sum(np.multiply(losses, nums)) / np.sum(nums)] *)
Definition size_weighted_loss (losses : tensor1) (nums : list nat) : float :=
  PrimFloat.div (np_sum (np_multiply losses nums)) (of_nat (np_sum_int nums)).

Definition lr_value (lr : option float) : pyval :=
  match lr with Some f => PyFloat f | None => PyNone end.

Definition tensorboard_metrics_dict (train_loss val_loss : float)
  (train_metrics val_metrics : gmap string float) (lr : option float)
  : gmap (string * string) pyval :=
  <[("train", "lr") := lr_value lr]>
    (kmap (pair "val") (PyFloat <$> val_metrics) ∪
     (kmap (pair "train") (PyFloat <$> train_metrics) ∪
      <[("val", "loss") := PyFloat val_loss]> {[("train", "loss") := PyFloat train_loss]})).

(** The local variables of [fit] that the loop body binds. *)
Record frame := {
  fr_epoch : nat;
  fr_train_loss : float;
  fr_val_loss : float;
  fr_train_metrics : gmap string float;
  fr_val_metrics : gmap string float
}.

(** [if scheduler: ...] *)
Definition step_scheduler (cfg : config) (val_metrics : gmap string float) : M unit :=
  scheduler ← get_scheduler;
  match scheduler with
  | None => ret tt
  | Some s =>
      arg ← (if sched_is_plateau s then
               match val_metrics !! val_metric cfg with
               | None => raise (KeyError (val_metric cfg))
               | Some v => ret (Some v)
               end
             else ret None);
      emit (EvSchedulerStep arg);;
      o ← get_optimizer;
      set_scheduler (fst (sched_step s arg o));;
      set_optimizer (snd (sched_step s arg o))
  end.

(** One turn of the loop of [fit]: the variables it binds, the
    early-stopping object after its step, and whether the loop was left by
    [break]. *)
Definition fit_epoch (cfg : config) (gradient_clipping_norm : pyval)
  (output_dir : string) (train_dl valid_dl : loader)
  (early_stop : EarlyStop) (epoch : nat) : M (frame * EarlyStop * bool) :=
  o ← get_optimizer;
  emit (EvLog (LogLr (get_current_lr o)));;
  m ← get_model;
  emit EvModelTrain;;
  set_model (model_train m);;
  '(train_losses, train_nums) ← batch_losses train_dl gradient_clipping_norm true;
  let train_loss := size_weighted_loss train_losses train_nums in
  m ← get_model;
  train_metrics ← lift (compute_metrics (metrics cfg) m train_dl);
  emit EvModelEval;;
  set_model (model_eval m);;
  '(val_losses, val_nums) ← batch_losses valid_dl gradient_clipping_norm false;
  m ← get_model;
  val_metrics ← lift (compute_metrics (metrics cfg) m valid_dl);
  let val_loss := size_weighted_loss val_losses val_nums in
  o ← get_optimizer;
  emit (EvTensorboardSave
          (tensorboard_metrics_dict train_loss val_loss train_metrics val_metrics
             (get_current_lr o)) epoch);;
  emit (EvLog (LogSummary epoch train_loss val_loss train_metrics val_metrics));;
  let current_val_metric_value := val_metrics !! val_metric cfg in
  step_scheduler cfg val_metrics;;
  m ← get_model;
  compute_test (metrics cfg) m valid_dl output_dir epoch;;
  emit (EvEarlyStopStep current_val_metric_value epoch);;
  let early_stop := es_step early_stop current_val_metric_value epoch in
  let fr := {| fr_epoch := epoch; fr_train_loss := train_loss; fr_val_loss := val_loss;
               fr_train_metrics := train_metrics; fr_val_metrics := val_metrics |} in
  if es_stop_training early_stop epoch then
    emit (EvLog (LogEarlyStop epoch (val_metric cfg) (es_best_epoch early_stop)
                   (es_best_value early_stop) current_val_metric_value));;
    ret (fr, early_stop, true)
  else ret (fr, early_stop, false).

(** [for epoch in range(epochs): ...], from the epochs still to run; the
    frame is [None] as long as no turn has bound the loop's variables. *)
Fixpoint fit_loop (cfg : config) (gradient_clipping_norm : pyval)
  (output_dir : string) (train_dl valid_dl : loader)
  (todo : list nat) (fr : option frame) (early_stop : EarlyStop)
  : M (option frame) :=
  match todo with
  | [] => ret fr
  | epoch :: todo' =>
      '(fr', early_stop', stop) ←
        fit_epoch cfg gradient_clipping_norm output_dir train_dl valid_dl
                  early_stop epoch;
      if stop : bool then ret (Some fr')
      else fit_loop cfg gradient_clipping_norm output_dir train_dl valid_dl
                    todo' (Some fr') early_stop'
  end.

(** A value of the dict that [fit] returns. *)
Inductive retval :=
| RInt (z : Z)
| RDict (d : gmap string float).

(** Reading a local variable: unbound, it raises (UnboundLocalError, a
    NameError). *)
Definition local {A} (name : string) (fr : option frame) (get : frame -> A) : M A :=
  match fr with
  | None => raise (NameError name)
  | Some f => ret (get f)
  end.

(** [fit]; the model, optimizer and scheduler objects are the world's. *)
Definition fit (epochs : Z) (cfg : config) (gradient_clipping_norm : pyval)
  (early_stopping_patience : pyval) (output_dir : string)
  (tensorboard_output_path : string) (train_dl valid_dl : loader)
  : M (gmap string retval) :=
  emit (EvTensorboardOpen tensorboard_output_path);;
  m ← get_model;
  let num_params := get_num_params m in
  emit (EvLog (LogNumParams num_params));;
  let early_stop := es_new early_stopping_patience in
  fr ← fit_loop cfg gradient_clipping_norm output_dir train_dl valid_dl
                (seq 0 (Z.to_nat epochs)) None early_stop;
  m ← get_model;
  emit (EvTorchSave (os_path_join output_dir "model.pkl"));;
  open_w (os_path_join output_dir "model.pkl");;
  append (os_path_join output_dir "model.pkl") [StateDict m];;
  emit EvTensorboardClose;;
  epoch ← local "epoch" fr fr_epoch;
  train_metrics ← local "train_metrics" fr fr_train_metrics;
  val_metrics ← local "val_metrics" fr fr_val_metrics;
  ret (<["num_params" := RInt num_params]>
       (<["val_metrics" := RDict val_metrics]>
        (<["train_metrics" := RDict train_metrics]>
         {["epochs" := RInt (Z.of_nat epoch)]}))).

End TrainUtils.

(** ** A small concrete set of collaborators, to run the code on *)

Module Toy.

(** A linear scorer with one weight: the score of a document is the weight
    times the sum of its features; mask and indices are ignored. *)
Definition score (w : float) (xb : tensor3) : tensor2 :=
  map (map (fun features => PrimFloat.mul w (np_sum features))) xb.

(** The value at cutoff [k] is the sum of the first [k] scores of the slate. *)
Definition prefix_sum_metric : metric_fn :=
  fun scores _ ats => map (fun row => map (fun k => np_sum (take (Z.to_nat k) row)) ats) scores.

(** The value at every cutoff is the first score of the slate. *)
Definition first_score_metric : metric_fn :=
  fun scores _ ats => map (fun row => map (fun _ => hd 0%float row) ats) scores.

Definition registry (name : string) : option metric_fn :=
  if String.eqb name "ndcg" then Some prefix_sum_metric
  else if String.eqb name "mrr" then Some first_score_metric
  else None.

(** The optimizer is its learning rate and never moves the weight; the
    scheduler is the flag saying whether it is plateau-based; the loss is the
    sum of all scores; early stopping is the spec's controller. *)
#[export] Instance collaborators : Collaborators := {|
  Model := float;
  Optimizer := float;
  Scheduler := bool;
  EarlyStop := SpecEarlyStop.t;
  PADDED_Y_VALUE := (-1)%float;
  model_call := fun w xb _ _ => score w xb;
  model_score := fun w xb _ _ => score w xb;
  model_train := fun w => w;
  model_eval := fun w => w;
  get_num_params := fun _ => 1;
  loss_func := fun scores _ => np_sum (concat scores);
  loss_backward := fun w _ => w;
  clip_grad_norm_ := fun w _ => w;
  opt_step := fun o w => (o, w);
  opt_zero_grad := fun _ w => w;
  opt_param_group_lrs := fun o => [o];
  sched_is_plateau := fun s => s;
  sched_step := fun s _ o => (s, o);
  metrics_module := registry;
  es_new := SpecEarlyStop.new;
  es_step := SpecEarlyStop.step;
  es_stop_training := SpecEarlyStop.stop_training;
  es_best_epoch := fun s => PyInt (Z.of_nat (SpecEarlyStop.best_epoch s));
  es_best_value := SpecEarlyStop.best_value_py
|}.

(** A world with weight 1, learning rate 0.5, the given scheduler, no file
    and no event. *)
Definition world0 (scheduler : option bool) : world :=
  {| w_model := 1%float; w_optimizer := 0.5%float; w_scheduler := scheduler;
     w_fs := ∅; w_trace := [] |}.

(** One-document slates with one feature each. *)
Definition slate (v : float) : list (list float) := [[v]].

Definition mk_batch (xs : list float) : batch :=
  {| b_x := map slate xs; b_y := map (fun _ => [1%float]) xs;
     b_idx := map (fun _ => [0]) xs |}.

(** The loader over the given batches, its dataset holding their queries in
    the same order. *)
Definition mk_loader (bs : list (list float)) : loader :=
  {| batches := map mk_batch bs;
     X_by_qid := map slate (concat bs);
     y_by_qid := map (fun _ => [1%float]) (concat bs) |}.

(** Two training batches of sizes 3 and 1 whose losses are 2.0 and 6.0. *)
Definition train_dl : loader := mk_loader [[1; 1; 0]; [6]]%float.
Definition valid_dl : loader := mk_loader [[2; 4]]%float.
Definition empty_dl : loader := mk_loader [].

Definition cfg (val_metric : string) : config :=
  {| metrics := [("ndcg", [1; 5]); ("mrr", [1])]; val_metric := val_metric |}.

End Toy.

(** ** Collaborators that read the mask, the indices and the labels *)

Module Padded.
Import Tensor.

(** A scorer with a weight and a positional weight: a masked document
    scores zero; any other scores the weight times the sum of its features,
    plus, when indices are given, the positional weight times its index. *)
Definition score_doc (m : float * float) (features : tensor1) (masked : bool)
  (index : option Z) : float :=
  if masked then 0%float
  else PrimFloat.add (PrimFloat.mul m.1 (np_sum features))
         match index with
         | Some i => PrimFloat.mul m.2 (of_nat (Z.to_nat i))
         | None => 0%float
         end.

Fixpoint score_slate (m : float * float) (x : tensor2) (mask : list bool)
  (idx : option (list Z)) : tensor1 :=
  match x, mask with
  | features :: x', masked :: mask' =>
      score_doc m features masked (i ← idx; head i)
        :: score_slate m x' mask' (tail <$> idx)
  | _, _ => []
  end.

Fixpoint score (m : float * float) (xb : tensor3) (mask : list (list bool))
  (idx : option (list (list Z))) : tensor2 :=
  match xb, mask with
  | x :: xb', mask_x :: mask' =>
      score_slate m x mask_x (i ← idx; head i) :: score m xb' mask' (tail <$> idx)
  | _, _ => []
  end.

(** The value at cutoff [k] is the sum, over the first [k] documents of the
    slate, of score times label, a padded document counting for nothing. *)
Definition gain (scores y : tensor1) (k : Z) : float :=
  np_sum (take (Z.to_nat k)
               (zip_with (fun s l => if PrimFloat.eqb l (-1)%float then 0%float
                                     else PrimFloat.mul s l) scores y)).

Definition gain_metric : metric_fn :=
  fun scores yb ats => zip_with (fun row y => map (gain row y) ats) scores yb.

Definition registry (name : string) : option metric_fn :=
  if String.eqb name "ndcg" then Some gain_metric else None.

(** All else is as for the toy collaborators. *)
#[export] Instance collaborators : Collaborators := {|
  Model := float * float;
  Optimizer := float;
  Scheduler := bool;
  EarlyStop := SpecEarlyStop.t;
  PADDED_Y_VALUE := (-1)%float;
  model_call := fun m xb mask idx => score m xb mask (Some idx);
  model_score := score;
  model_train := fun m => m;
  model_eval := fun m => m;
  get_num_params := fun _ => 2;
  loss_func := fun scores _ => np_sum (concat scores);
  loss_backward := fun m _ => m;
  clip_grad_norm_ := fun m _ => m;
  opt_step := fun o m => (o, m);
  opt_zero_grad := fun _ m => m;
  opt_param_group_lrs := fun o => [o];
  sched_is_plateau := fun s => s;
  sched_step := fun s _ o => (s, o);
  metrics_module := registry;
  es_new := SpecEarlyStop.new;
  es_step := SpecEarlyStop.step;
  es_stop_training := SpecEarlyStop.stop_training;
  es_best_epoch := fun s => PyInt (Z.of_nat (SpecEarlyStop.best_epoch s));
  es_best_value := SpecEarlyStop.best_value_py
|}.

(** A world with the given model, no scheduler, no file and no event. *)
Definition world0 (m : float * float) : world :=
  {| w_model := m; w_optimizer := 0.5%float; w_scheduler := None;
     w_fs := ∅; w_trace := [] |}.

(** A dataset of two queries, of two documents and of one, and a loader
    that yields them as one batch of slate length two: the second slate is
    padded with a document of features 9, label -1 and index -1. *)
Definition queries : list (tensor2 * tensor1) :=
  [([[1]; [2]], [1; 2]); ([[3]], [1])]%float.

Definition dl : loader :=
  {| batches := [ {| b_x := [[[1]; [2]]; [[3]; [9]]]%float;
                     b_y := [[1; 2]; [1; -1]]%float;
                     b_idx := [[0; 1]; [0; -1]] |} ];
     X_by_qid := map fst queries;
     y_by_qid := map snd queries |}.

End Padded.

(** ** Vocabulary of the statements *)

Section Vocabulary.
Context `{C : Collaborators}.

(** The events of one [loss_batch] call. *)
Definition batch_events (gradient_clipping_norm : pyval) (opt : bool) : list event :=
  if opt then
    if truthy gradient_clipping_norm
    then [EvBackward; EvClipGradNorm gradient_clipping_norm; EvOptStep; EvZeroGrad]
    else [EvBackward; EvOptStep; EvZeroGrad]
  else [].

(** The model and the optimizer after one [loss_batch] call. *)
Definition batch_model (gradient_clipping_norm : pyval) (opt : bool) (b : batch)
  (m : Model) (o : Optimizer) : Model :=
  if opt then
    let m1 := loss_backward m b in
    let m2 := if truthy gradient_clipping_norm
              then clip_grad_norm_ m1 gradient_clipping_norm else m1 in
    opt_zero_grad (opt_step o m2).1 (opt_step o m2).2
  else m.

Definition batch_optimizer (gradient_clipping_norm : pyval) (opt : bool) (b : batch)
  (m : Model) (o : Optimizer) : Optimizer :=
  if opt then
    let m1 := loss_backward m b in
    let m2 := if truthy gradient_clipping_norm
              then clip_grad_norm_ m1 gradient_clipping_norm else m1 in
    (opt_step o m2).1
  else o.

(** The loss that [loss_batch] returns for a batch, on a given model. *)
Definition batch_loss (m : Model) (b : batch) : float :=
  loss_func (model_call m (b_x b) (pad_mask (b_y b)) (b_idx b)) (b_y b).

(** The pairs that the [loss_batch] calls over the batches return, in
    order, each on the model as the calls before it left it; and the model
    and optimizer after the last call. *)
Fixpoint batch_run (g : pyval) (opt : bool) (bs : list batch) (m : Model)
  (o : Optimizer) : list (float * nat) * (Model * Optimizer) :=
  match bs with
  | [] => ([], (m, o))
  | b :: bs' =>
      let r := batch_run g opt bs' (batch_model g opt b m o) (batch_optimizer g opt b m o) in
      ((batch_loss m b, length (b_x b)) :: r.1, r.2)
  end.

(** The world after the [loss_batch] calls over the batches. *)
Definition after_batches (g : pyval) (opt : bool) (bs : list batch) (w : world) : world :=
  {| w_model := (batch_run g opt bs (w_model w) (w_optimizer w)).2.1;
     w_optimizer := (batch_run g opt bs (w_model w) (w_optimizer w)).2.2;
     w_scheduler := w_scheduler w;
     w_fs := w_fs w;
     w_trace := (w_trace w ++ concat (map (fun _ => batch_events g opt) bs))%list |}.

(** The size-weighted mean of the spec: [sum(li*ni) / sum(ni)] over the
    pairs [(li, ni)]. *)
Definition weighted_mean (pairs : list (float * nat)) : float :=
  PrimFloat.div
    (fold_left (fun acc p => PrimFloat.add acc (PrimFloat.mul p.1 (of_nat p.2))) pairs 0%float)
    (of_nat (fold_left (fun acc p => (acc + p.2)%nat) pairs 0%nat)).

(** The naive mean of the losses, one share per batch. *)
Definition naive_mean (pairs : list (float * nat)) : float := mean (map fst pairs).

(** The world when the training pass of a turn starts: the learning rate is
    logged and the model switched to training mode. *)
Definition train_start (w : world) : world :=
  {| w_model := model_train (w_model w); w_optimizer := w_optimizer w;
     w_scheduler := w_scheduler w; w_fs := w_fs w;
     w_trace := (w_trace w ++ [EvLog (LogLr (get_current_lr (w_optimizer w)));
                               EvModelTrain])%list |}.

(** The world when the validation pass starts, from the one the training
    pass left: the model is switched to evaluation mode. *)
Definition eval_start (w : world) : world :=
  {| w_model := model_eval (w_model w); w_optimizer := w_optimizer w;
     w_scheduler := w_scheduler w; w_fs := w_fs w;
     w_trace := (w_trace w ++ [EvModelEval])%list |}.

(** What a turn of the loop does once both passes are done and the losses
    and metrics are at hand: telemetry, scheduler, per-query export, early
    stopping. *)
Definition epoch_tail (cfg : config) (output_dir : string) (valid_dl : loader)
  (early_stop : EarlyStop) (epoch : nat) (train_loss val_loss : float)
  (train_metrics val_metrics : gmap string float) : M (frame * EarlyStop * bool) :=
  o ← get_optimizer;
  emit (EvTensorboardSave
          (tensorboard_metrics_dict train_loss val_loss train_metrics val_metrics
             (get_current_lr o)) epoch);;
  emit (EvLog (LogSummary epoch train_loss val_loss train_metrics val_metrics));;
  step_scheduler cfg val_metrics;;
  m ← get_model;
  compute_test (metrics cfg) m valid_dl output_dir epoch;;
  emit (EvEarlyStopStep (val_metrics !! val_metric cfg) epoch);;
  let early_stop := es_step early_stop (val_metrics !! val_metric cfg) epoch in
  let fr := {| fr_epoch := epoch; fr_train_loss := train_loss; fr_val_loss := val_loss;
               fr_train_metrics := train_metrics; fr_val_metrics := val_metrics |} in
  if es_stop_training early_stop epoch then
    emit (EvLog (LogEarlyStop epoch (val_metric cfg) (es_best_epoch early_stop)
                   (es_best_value early_stop) (val_metrics !! val_metric cfg)));;
    ret (fr, early_stop, true)
  else ret (fr, early_stop, false).

(** The world when the loop of [fit] is entered: the telemetry writer is
    open and the parameter count logged. *)
Definition fit_start (tensorboard_output_path : string) (w : world) : world :=
  {| w_model := w_model w; w_optimizer := w_optimizer w;
     w_scheduler := w_scheduler w; w_fs := w_fs w;
     w_trace := (w_trace w ++ [EvTensorboardOpen tensorboard_output_path;
                               EvLog (LogNumParams (get_num_params (w_model w)))])%list |}.

(** What [fit] does to the world after its loop: the checkpoint is written
    and the telemetry writers closed. *)
Definition fit_finish (output_dir : string) (w : world) : world :=
  {| w_model := w_model w; w_optimizer := w_optimizer w;
     w_scheduler := w_scheduler w;
     w_fs := <[os_path_join output_dir "model.pkl" := [StateDict (w_model w)]]> (w_fs w);
     w_trace := (w_trace w ++ [EvTorchSave (os_path_join output_dir "model.pkl");
                               EvTensorboardClose])%list |}.

(** The dict that [fit] builds from the variables of the last turn. *)
Definition fit_result (num_params : Z) (fr : frame) : gmap string retval :=
  <["num_params" := RInt num_params]>
    (<["val_metrics" := RDict (fr_val_metrics fr)]>
       (<["train_metrics" := RDict (fr_train_metrics fr)]>
          {["epochs" := RInt (Z.of_nat (fr_epoch fr))]})).

(** Whether a run returned. *)
Definition is_ok {A} (r : result A) : bool :=
  match r with Ok _ => true | Raise _ => false end.

(** The fields that the spec's EpochResult lists, as keys of a dict. *)
Definition has_epoch_result_fields (d : gmap string retval) : Prop :=
  is_Some (d !! "epochs") /\ is_Some (d !! "train_loss") /\
  is_Some (d !! "val_loss") /\ is_Some (d !! "train_metrics") /\
  is_Some (d !! "val_metrics") /\ is_Some (d !! "num_params").

(** The turns [todo] of the loop of [fit], run one after the other, when
    none of them fails and none stops the loop: the early-stopping object
    and the world they leave. *)
Fixpoint run_epochs (cfg : config) (g : pyval) (output_dir : string)
  (train_dl valid_dl : loader) (todo : list nat) (early_stop : EarlyStop) (w : world)
  : option (EarlyStop * world) :=
  match todo with
  | [] => Some (early_stop, w)
  | epoch :: todo' =>
      match fit_epoch cfg g output_dir train_dl valid_dl early_stop epoch w with
      | (Ok (_, early_stop', false), w') =>
          run_epochs cfg g output_dir train_dl valid_dl todo' early_stop' w'
      | _ => None
      end
  end.

(** The keys ["{metric_name}_{at}"] of a configuration, in order. *)
Definition metric_keys (ms : list (string * list Z)) : list string :=
  flat_map (fun entry => map (format_metric entry.1) entry.2) ms.

(** A world with other files. *)
Definition with_fs (fs : gmap string (list item)) (w : world) : world :=
  {| w_model := w_model w; w_optimizer := w_optimizer w;
     w_scheduler := w_scheduler w; w_fs := fs; w_trace := w_trace w |}.

(** What the per-query evaluator does to one feature value. *)
Definition zero_nan (v : float) : float :=
  if PrimFloat.is_nan v then 0%float else v.

(** The replacement that the spec describes: every non-finite value
    becomes zero. *)
Definition zero_non_finite (v : float) : float :=
  if PrimFloat.is_finite v then v else 0%float.

(** What holds of the evaluator's collected values and of the files while
    the queries are processed: the collected keys are the configured ones;
    the file of each key holds, one per line, the values collected under
    it; nothing is collected under a key without "ndcg". *)
Definition export_inv (output_dir : string) (epoch : nat) (keys : list string)
  (all_results_metric : gmap string tensor2) (w : world) : Prop :=
  (forall k, is_Some (all_results_metric !! k) -> In k keys) /\
  (forall k, In k keys ->
     exists vals,
       all_results_metric !! k = Some vals /\
       w_fs w !! metric_path output_dir epoch k = Some (map Line (concat vals)) /\
       (str_contains "ndcg" k = false -> vals = [])).

(** The queries of a loader's dataset: features and labels, by query. *)
Definition queries (dl : loader) : list (tensor2 * tensor1) :=
  zip (X_by_qid dl) (y_by_qid dl).

(** The metric rows that the per-query evaluator computes for one query. *)
Definition per_query_rows (metric_func : metric_fn) (ats : list Z) (model : Model)
  (q : tensor2 * tensor1) : tensor2 :=
  metric_func (model_score model (nan_to_zero [q.1]) (pad_mask [q.2]) None) [q.2] ats.

(** Two values agree within a tolerance. *)
Definition within (tolerance a b : float) : bool :=
  PrimFloat.leb (PrimFloat.abs (PrimFloat.sub a b)) tolerance.

End Vocabulary.

(** ** Vocabulary of the further properties *)

(** Whether a character occurs in a string. *)
Fixpoint str_has (c : ascii) (s : string) : bool :=
  match s with
  | EmptyString => false
  | String a s' => Ascii.eqb a c || str_has c s'
  end.

Section MoreVocabulary.
Context `{C : Collaborators}.

(** The files that [compute_test] opens for an epoch. *)
Definition export_paths (output_dir : string) (epoch : nat)
  (ms : list (string * list Z)) : list string :=
  predictions_path output_dir epoch
    :: map (metric_path output_dir epoch) (metric_keys ms).

(** The scores that the per-query evaluator gets for one query. *)
Definition query_scores (model : Model) (q : tensor2 * tensor1) : tensor2 :=
  model_score model (nan_to_zero [q.1]) (pad_mask [q.2]) None.

(** The argument that the scheduler's [step] is given, when there is a
    scheduler. *)
Definition scheduler_events (cfg : config) (val_metrics : gmap string float)
  (scheduler : option Scheduler) : list event :=
  match scheduler with
  | None => []
  | Some s =>
      [EvSchedulerStep (if sched_is_plateau s then val_metrics !! val_metric cfg
                        else None)]
  end.

(** A world with further events in its trace. *)
Definition emitted (evs : list event) (w : world) : world :=
  {| w_model := w_model w; w_optimizer := w_optimizer w;
     w_scheduler := w_scheduler w; w_fs := w_fs w;
     w_trace := (w_trace w ++ evs)%list |}.

(** The lookups of [compute_test] that can fail: the labels of a query,
    when the dataset has fewer label rows than feature rows, and the metric
    function of a configured name that contains "ndcg". *)
Definition lookup_failure (ms : list (string * list Z)) (dl : loader) (x : exn) : Prop :=
  (x = IndexError /\ (length (y_by_qid dl) < length (X_by_qid dl))%nat) \/
  exists metric_name ats,
    x = AttributeError metric_name /\ In (metric_name, ats) ms /\
    str_contains "ndcg" metric_name = true /\ metrics_module metric_name = None.

(** A world that differs from another at most in the trace and in the
    files at the given paths. *)
Definition untouched_but (paths : list string) (w w' : world) : Prop :=
  w_model w' = w_model w /\ w_optimizer w' = w_optimizer w /\
  w_scheduler w' = w_scheduler w /\
  forall p, ~ In p paths -> w_fs w' !! p = w_fs w !! p.

End MoreVocabulary.

(** * Properties *)

(** ** The monad *)

(** Runs the primitive steps of a computation applied to a world. *)
Ltac mrun :=
  cbv beta iota zeta delta
    [mbind M_bind bind ret raise lift emit get_model set_model
       get_optimizer set_optimizer get_scheduler set_scheduler
       open_w append set_fs];
  cbn [w_model w_optimizer w_scheduler w_fs w_trace fst snd].

Section MonadFacts.
Context `{C : Collaborators}.

Lemma bind_ok {A B} (m : M A) (k : A -> M B) w a w' :
  m w = (Ok a, w') -> (m ≫= k) w = k a w'.
Proof. intros H. unfold mbind, M_bind, bind. now rewrite H. Qed.

Lemma bind_raise {A B} (m : M A) (k : A -> M B) w e w' :
  m w = (Raise e, w') -> (m ≫= k) w = (Raise e, w').
Proof. intros H. unfold mbind, M_bind, bind. now rewrite H. Qed.

Lemma bind_inv_ok {A B} (m : M A) (k : A -> M B) w b w2 :
  (m ≫= k) w = (Ok b, w2) ->
  exists a w1, m w = (Ok a, w1) /\ k a w1 = (Ok b, w2).
Proof.
  unfold mbind, M_bind, bind. destruct (m w) as [[a|e] w1]; intros H.
  - now exists a, w1.
  - discriminate.
Qed.

End MonadFacts.

(** ** loss_batch *)

Section LossBatch.
Context `{C : Collaborators}.

Lemma snoc_events (t evs : list event) :
  fold_left (fun t ev => t ++ [ev])%list evs t = (t ++ evs)%list.
Proof.
  revert t. induction evs as [|ev evs IH]; intros t; cbn.
  - now rewrite app_nil_r.
  - now rewrite IH, <- app_assoc.
Qed.

(** [loss_batch] never raises; it returns the loss on the model as it was
    when called and the number of examples, emits [batch_events] and leaves
    files and scheduler alone. *)
Lemma loss_batch_run b g opt w :
  loss_batch b g opt w =
  (Ok (batch_loss (w_model w) b, length (b_x b)),
   {| w_model := batch_model g opt b (w_model w) (w_optimizer w);
      w_optimizer := batch_optimizer g opt b (w_model w) (w_optimizer w);
      w_scheduler := w_scheduler w;
      w_fs := w_fs w;
      w_trace := (w_trace w ++ batch_events g opt)%list |}).
Proof.
  rewrite <- snoc_events.
  unfold loss_batch, batch_events, batch_model, batch_optimizer.
  destruct w, opt, (truthy g); vm_compute; reflexivity.
Qed.

Lemma mapM_loss_batch g opt bs w :
  mapM (fun b => loss_batch b g opt) bs w =
  (Ok (batch_run g opt bs (w_model w) (w_optimizer w)).1, after_batches g opt bs w).
Proof.
  revert w. induction bs as [|b bs IH]; intros w.
  - destruct w. unfold after_batches. cbn. unfold ret. now rewrite app_nil_r.
  - cbn [mapM]. erewrite bind_ok by apply loss_batch_run.
    erewrite bind_ok by apply IH. unfold ret, after_batches. cbn.
    now rewrite <- app_assoc.
Qed.

Lemma batch_run_length g opt bs m o : length (batch_run g opt bs m o).1 = length bs.
Proof. revert m o. induction bs as [|b bs IH]; intros m o; cbn; [|rewrite IH]; reflexivity. Qed.

Lemma batch_run_sizes g opt bs m o :
  map snd (batch_run g opt bs m o).1 = map (fun b => length (b_x b)) bs.
Proof. revert m o. induction bs as [|b bs IH]; intros m o; cbn; [|rewrite IH]; reflexivity. Qed.

(** Without an optimizer the calls change nothing. *)
Lemma after_batches_eval g bs w : after_batches g false bs w = w.
Proof.
  assert (H : forall m o, (batch_run g false bs m o).2 = (m, o)).
  { induction bs as [|b bs IH]; intros m o; cbn; auto. }
  assert (E : concat (map (fun _ : batch => batch_events g false) bs) = []).
  { induction bs as [|b bs IH]; cbn; auto. }
  destruct w as [m o sc fs t]. unfold after_batches.
  cbn [w_model w_optimizer w_scheduler w_fs w_trace].
  now rewrite H, E, app_nil_r.
Qed.

Lemma batch_losses_run dl g opt w :
  batch_losses dl g opt w =
  (match batches dl with
   | [] => Raise ValueError
   | _ => Ok (map fst (batch_run g opt (batches dl) (w_model w) (w_optimizer w)).1,
              map snd (batch_run g opt (batches dl) (w_model w) (w_optimizer w)).1)
   end, after_batches g opt (batches dl) w).
Proof.
  unfold batch_losses. erewrite bind_ok by apply mapM_loss_batch.
  destruct (batches dl) as [|b bs]; reflexivity.
Qed.

(** The code's formula on the unzipped pairs is the spec's weighted mean. *)
Lemma size_weighted_loss_pairs (pairs : list (float * nat)) :
  size_weighted_loss (map fst pairs) (map snd pairs) = weighted_mean pairs.
Proof.
  unfold size_weighted_loss, weighted_mean, np_sum, np_sum_int.
  generalize 0%float, 0%nat.
  induction pairs as [|[l n] pairs IH]; intros a k; cbn; [reflexivity|].
  specialize (IH (a + l * of_nat n)%float (k + n)%nat).
  exact IH.
Qed.

End LossBatch.

Lemma positive_truthy (g : pyval) : positive g = true -> truthy g = true.
Proof.
  destruct g as [|z|f]; cbn; [discriminate| |].
  - intros H. destruct (Z.eqb_spec z 0); [lia|reflexivity].
  - rewrite FloatAxioms.ltb_spec, FloatAxioms.eqb_spec.
    change (Prim2SF 0%float) with (S754_zero false).
    destruct (Prim2SF f) as [s|s| |s m e]; try destruct s; cbn; congruence.
Qed.

(** C4, as the code has it: with an optimizer, [loss_batch] never raises,
    whatever the configured norm; [clip_grad_norm_] is called, after
    [backward] and before the optimizer step, exactly when the norm is true
    as a Python condition (neither [None] nor zero). A positive norm is such
    a value; so is a negative one. *)
Theorem loss_batch_clips_iff_truthy `{C : Collaborators} (b : batch) (g : pyval) (w : world) :
  (loss_batch b g true w).1 = Ok (batch_loss (w_model w) b, length (b_x b)) /\
  w_trace (loss_batch b g true w).2 =
    (w_trace w ++ if truthy g
                  then [EvBackward; EvClipGradNorm g; EvOptStep; EvZeroGrad]
                  else [EvBackward; EvOptStep; EvZeroGrad])%list /\
  (In (EvClipGradNorm g) (batch_events g true) <-> truthy g = true) /\
  (positive g = true -> In (EvClipGradNorm g) (batch_events g true)) /\
  truthy PyNone = false /\ truthy (PyInt 0) = false /\ truthy (PyFloat 0) = false /\
  (forall z, z <> 0 -> truthy (PyInt z) = true).
Proof.
  rewrite loss_batch_run. cbn.
  split; [reflexivity|]. split; [now destruct (truthy g)|].
  split; [|split; [|split; [reflexivity|split; [reflexivity|split; [reflexivity|]]]]].
  - unfold batch_events. destruct (truthy g); cbn; [tauto|].
    split; [|discriminate]. intros [H|[H|[H|[]]]]; discriminate.
  - intros H%positive_truthy. unfold batch_events. rewrite H. cbn. tauto.
  - intros z Hz. cbn. destruct (Z.eqb_spec z 0); [contradiction|reflexivity].
Qed.

(** C4 as stated fails: a negative norm is not positive, and the gradient
    is clipped with it all the same. *)
Lemma negative_norm_is_clipped :
  positive (PyFloat (-1)) = false /\
  In (EvClipGradNorm (PyFloat (-1)))
     (w_trace (loss_batch (Toy.mk_batch [1%float]) (PyFloat (-1)) true
                 (Toy.world0 None)).2).
Proof. split; [reflexivity|]. vm_compute. right. left. reflexivity. Qed.

(** ** fit: what surrounds the loop *)

Section FitFrame.
Context `{C : Collaborators}.

Lemma write_checkpoint (fs : gmap string (list item)) (p : string) (l : list item) :
  <[p := (default [] (<[p := []]> fs !! p) ++ l)%list]> (<[p := []]> fs) = <[p := l]> fs.
Proof. now rewrite lookup_insert_eq, insert_insert_eq. Qed.

(** [fit] is its loop between [fit_start] and [fit_finish]; an exception of
    the loop leaves [fit] at once, and the result is built last. *)
Lemma fit_unfold epochs cfg g patience out tb train_dl valid_dl w :
  fit epochs cfg g patience out tb train_dl valid_dl w =
  match fit_loop cfg g out train_dl valid_dl (seq 0 (Z.to_nat epochs)) None
                 (es_new patience) (fit_start tb w) with
  | (Ok (Some fr), w1) =>
      (Ok (fit_result (get_num_params (w_model w)) fr), fit_finish out w1)
  | (Ok None, w1) => (Raise (NameError "epoch"), fit_finish out w1)
  | (Raise e, w1) => (Raise e, w1)
  end.
Proof.
  unfold fit, fit_start. mrun. rewrite <- app_assoc. cbn.
  destruct (fit_loop _ _ _ _ _ _ _ _ _) as [[[fr|]|e] w1]; unfold fit_finish, local;
    mrun; rewrite ?write_checkpoint, <- ?app_assoc; reflexivity.
Qed.

End FitFrame.

(** C9: called with [epochs = 0], [fit] runs no turn of its loop, so the
    loop's variables stay unbound; it then writes the checkpoint model.pkl
    and closes the writers, and only then fails, on reading [epoch], instead
    of returning a result. *)
Theorem fit_zero_epochs `{C : Collaborators} cfg g patience out tb train_dl valid_dl w :
  fit_loop cfg g out train_dl valid_dl (seq 0 (Z.to_nat 0)) None (es_new patience)
           (fit_start tb w) = (Ok None, fit_start tb w) /\
  (fit 0 cfg g patience out tb train_dl valid_dl w).1 = Raise (NameError "epoch") /\
  w_fs (fit 0 cfg g patience out tb train_dl valid_dl w).2
    = <[os_path_join out "model.pkl" := [StateDict (w_model w)]]> (w_fs w) /\
  w_trace (fit 0 cfg g patience out tb train_dl valid_dl w).2
    = (w_trace w ++ [EvTensorboardOpen tb;
                     EvLog (LogNumParams (get_num_params (w_model w)));
                     EvTorchSave (os_path_join out "model.pkl");
                     EvTensorboardClose])%list.
Proof.
  rewrite fit_unfold. change (seq 0 (Z.to_nat 0)) with (@nil nat).
  cbn [fit_loop]. unfold ret, fit_finish, fit_start. cbn.
  rewrite <- app_assoc. auto.
Qed.

(** ** fit: one turn of the loop *)

Section FitEpoch.
Context `{C : Collaborators}.

#[local] Arguments batch_losses : simpl never.
#[local] Arguments size_weighted_loss : simpl never.
#[local] Arguments weighted_mean : simpl never.
#[local] Arguments tensorboard_metrics_dict : simpl never.
#[local] Arguments compute_metrics : simpl never.
#[local] Arguments compute_test : simpl never.
#[local] Arguments step_scheduler : simpl never.

(** A turn of the loop, by the place where it can fail first: unpacking the
    training pairs, the training metrics, unpacking the validation pairs,
    the validation metrics, and then [epoch_tail]. *)
Lemma fit_epoch_unfold cfg g out tr va es e w :
  fit_epoch cfg g out tr va es e w =
  let w1 := train_start w in
  let w2 := after_batches g true (batches tr) w1 in
  let tp := (batch_run g true (batches tr) (w_model w1) (w_optimizer w1)).1 in
  match batches tr with
  | [] => (Raise ValueError, w2)
  | _ :: _ =>
      match compute_metrics (metrics cfg) (w_model w2) tr with
      | Raise x => (Raise x, w2)
      | Ok train_metrics =>
          let w3 := eval_start w2 in
          let vp := (batch_run g false (batches va) (w_model w3) (w_optimizer w3)).1 in
          match batches va with
          | [] => (Raise ValueError, w3)
          | _ :: _ =>
              match compute_metrics (metrics cfg) (w_model w3) va with
              | Raise x => (Raise x, w3)
              | Ok val_metrics =>
                  epoch_tail cfg out va es e (weighted_mean tp) (weighted_mean vp)
                             train_metrics val_metrics w3
              end
          end
      end
  end.
Proof.
  unfold fit_epoch. mrun. rewrite <- app_assoc. cbn [app].
  fold (train_start w). rewrite batch_losses_run.
  destruct (batches tr) as [|b bs]; [reflexivity|].
  destruct (compute_metrics (metrics cfg) _ tr) as [tm|x]; [|reflexivity].
  match goal with |- context [batch_losses va g false ?w0] =>
    change w0 with (eval_start (after_batches g true (b :: bs) (train_start w))) end.
  rewrite batch_losses_run, after_batches_eval.
  destruct (batches va) as [|b' bs']; [reflexivity|].
  cbn [w_model eval_start].
  destruct (compute_metrics (metrics cfg) _ va) as [vm|x]; [|reflexivity].
  rewrite !size_weighted_loss_pairs. unfold epoch_tail. mrun. reflexivity.
Qed.

Lemma epoch_tail_ok cfg out va es e tl vl tm vm w r w' :
  epoch_tail cfg out va es e tl vl tm vm w = (Ok r, w') ->
  r = ({| fr_epoch := e; fr_train_loss := tl; fr_val_loss := vl;
          fr_train_metrics := tm; fr_val_metrics := vm |},
       es_step es (vm !! val_metric cfg) e,
       es_stop_training (es_step es (vm !! val_metric cfg) e) e).
Proof.
  unfold epoch_tail. intros H.
  repeat (apply bind_inv_ok in H as (? & ? & _ & H)).
  destruct (es_stop_training _ e).
  - apply bind_inv_ok in H as (? & ? & _ & H). unfold ret in H. congruence.
  - unfold ret in H. congruence.
Qed.

(** A turn that stops the loop ends on the log line that says so. *)
Lemma epoch_tail_stop_logged cfg out va es e tl vl tm vm w fr es' w' :
  epoch_tail cfg out va es e tl vl tm vm w = (Ok (fr, es', true), w') ->
  exists t,
    w_trace w' =
      (t ++ [EvEarlyStopStep (vm !! val_metric cfg) e;
             EvLog (LogEarlyStop e (val_metric cfg) (es_best_epoch es') (es_best_value es')
                      (vm !! val_metric cfg))])%list.
Proof.
  unfold epoch_tail. intros H.
  do 6 (apply bind_inv_ok in H as (? & ? & _ & H)).
  apply bind_inv_ok in H as ([] & w6 & He & H).
  revert He. mrun. intros [= <-].
  destruct (es_stop_training _ e).
  - revert H. mrun. intros [= <- <- <-]. cbn. rewrite <- app_assoc. eauto.
  - unfold ret in H. congruence.
Qed.

(** What a completed turn of the loop tells: both splits have batches, the
    metrics were computed, and the frame holds the turn's index, the
    weighted means of the two passes and the metrics. *)
Lemma fit_epoch_ok cfg g out tr va es e w fr es' stop w' :
  fit_epoch cfg g out tr va es e w = (Ok (fr, es', stop), w') ->
  let w2 := after_batches g true (batches tr) (train_start w) in
  batches tr <> [] /\ batches va <> [] /\
  compute_metrics (metrics cfg) (w_model w2) tr = Ok (fr_train_metrics fr) /\
  compute_metrics (metrics cfg) (model_eval (w_model w2)) va = Ok (fr_val_metrics fr) /\
  fr_epoch fr = e /\
  fr_train_loss fr =
    weighted_mean (batch_run g true (batches tr) (model_train (w_model w))
                             (w_optimizer w)).1 /\
  fr_val_loss fr =
    weighted_mean (batch_run g false (batches va) (model_eval (w_model w2))
                             (w_optimizer w2)).1 /\
  es' = es_step es (fr_val_metrics fr !! val_metric cfg) e /\
  stop = es_stop_training es' e.
Proof.
  rewrite fit_epoch_unfold. cbv zeta.
  destruct (batches tr) as [|b bs]; [discriminate|].
  destruct (compute_metrics (metrics cfg) _ tr) as [tm|x]; [|discriminate].
  destruct (batches va) as [|b' bs']; [discriminate|].
  cbn [eval_start w_model w_optimizer].
  destruct (compute_metrics (metrics cfg) _ va) as [vm|x]; [|discriminate].
  intros H%epoch_tail_ok. injection H as -> -> ->. cbn.
  repeat split; congruence.
Qed.

Lemma fit_epoch_stop_logged cfg g out tr va es e w fr es' w' :
  fit_epoch cfg g out tr va es e w = (Ok (fr, es', true), w') ->
  exists t,
    w_trace w' =
      (t ++ [EvEarlyStopStep (fr_val_metrics fr !! val_metric cfg) e;
             EvLog (LogEarlyStop e (val_metric cfg) (es_best_epoch es') (es_best_value es')
                      (fr_val_metrics fr !! val_metric cfg))])%list.
Proof.
  rewrite fit_epoch_unfold. cbv zeta.
  destruct (batches tr) as [|b bs]; [discriminate|].
  destruct (compute_metrics (metrics cfg) _ tr) as [tm|x]; [|discriminate].
  destruct (batches va) as [|b' bs']; [discriminate|].
  destruct (compute_metrics (metrics cfg) _ va) as [vm|x]; [|discriminate].
  intros H. pose proof (epoch_tail_ok _ _ _ _ _ _ _ _ _ _ _ _ H) as [= -> _].
  exact (epoch_tail_stop_logged _ _ _ _ _ _ _ _ _ _ _ _ _ H).
Qed.

(** With a split without batches, a turn fails before it writes any file:
    at once when it is the training split, after the training pass when it
    is the validation split. *)
Lemma fit_epoch_empty_split cfg g out tr va es e w :
  batches tr = [] \/ batches va = [] ->
  exists x t,
    (fit_epoch cfg g out tr va es e w).1 = Raise x /\
    w_fs (fit_epoch cfg g out tr va es e w).2 = w_fs w /\
    w_trace (fit_epoch cfg g out tr va es e w).2
      = (w_trace w ++ [EvLog (LogLr (get_current_lr (w_optimizer w))); EvModelTrain]
           ++ t)%list /\
    (batches tr = [] -> x = ValueError /\ t = []) /\
    (batches tr <> [] ->
       (exists t', t = (concat (map (fun _ => batch_events g true) (batches tr)) ++ t')%list) /\
       (forall tm,
          compute_metrics (metrics cfg)
            (w_model (after_batches g true (batches tr) (train_start w))) tr = Ok tm ->
          x = ValueError)).
Proof.
  intros Hempty. rewrite fit_epoch_unfold. cbv zeta.
  destruct (batches tr) as [|b bs] eqn:Htr.
  - exists ValueError, []. cbn. rewrite app_nil_r.
    repeat split; intros; try reflexivity; eauto.
  - destruct Hempty as [|Hva]; [discriminate|]. rewrite Hva.
    destruct (compute_metrics (metrics cfg) _ tr) as [tm|x] eqn:Hm.
    + exists ValueError, (concat (map (fun _ => batch_events g true) (b :: bs)) ++ [EvModelEval])%list.
      cbn [fst snd eval_start after_batches train_start w_fs w_trace].
      rewrite <- !app_assoc.
      repeat split; intros; try reflexivity; try discriminate; eauto.
    + exists x, (concat (map (fun _ => batch_events g true) (b :: bs)))%list.
      cbn [fst snd eval_start after_batches train_start w_fs w_trace].
      rewrite <- !app_assoc.
      repeat split; intros; try reflexivity; try discriminate.
      exists []. now rewrite app_nil_r.
Qed.

End FitEpoch.

(** C1: in every turn of the loop that completes, the training loss and the
    validation loss are the size-weighted means [sum(li*ni)/sum(ni)] of the
    pairs that the [loss_batch] calls of the pass returned, the sizes being
    the batches' example counts; on every split with at least one batch
    the pass returns such pairs. For sizes 3 and 1 and losses 2.0 and 6.0
    the weighted mean is 3.0, where the naive mean is 4.0. *)
Theorem epoch_loss_is_size_weighted_mean `{C : Collaborators}
  cfg g out tr va es e w fr es' stop w' :
  fit_epoch cfg g out tr va es e w = (Ok (fr, es', stop), w') ->
  let train_pairs :=
    (batch_run g true (batches tr) (model_train (w_model w)) (w_optimizer w)).1 in
  let w2 := after_batches g true (batches tr) (train_start w) in
  let val_pairs :=
    (batch_run g false (batches va) (model_eval (w_model w2)) (w_optimizer w2)).1 in
  mapM (fun b => loss_batch b g true) (batches tr) (train_start w) = (Ok train_pairs, w2) /\
  mapM (fun b => loss_batch b g false) (batches va) (eval_start w2)
    = (Ok val_pairs, eval_start w2) /\
  map snd train_pairs = map (fun b => length (b_x b)) (batches tr) /\
  map snd val_pairs = map (fun b => length (b_x b)) (batches va) /\
  fr_train_loss fr = weighted_mean train_pairs /\
  fr_val_loss fr = weighted_mean val_pairs /\
  (forall dl opt w0, batches dl <> [] ->
     (batch_losses dl g opt w0).1
       = Ok (map fst (batch_run g opt (batches dl) (w_model w0) (w_optimizer w0)).1,
             map snd (batch_run g opt (batches dl) (w_model w0) (w_optimizer w0)).1) /\
     size_weighted_loss
       (map fst (batch_run g opt (batches dl) (w_model w0) (w_optimizer w0)).1)
       (map snd (batch_run g opt (batches dl) (w_model w0) (w_optimizer w0)).1)
     = weighted_mean (batch_run g opt (batches dl) (w_model w0) (w_optimizer w0)).1) /\
  weighted_mean [(2%float, 3%nat); (6%float, 1%nat)] = 3%float /\
  naive_mean [(2%float, 3%nat); (6%float, 1%nat)] = 4%float.
Proof.
  intros H. cbv zeta. apply fit_epoch_ok in H as (_ & _ & _ & _ & _ & Ht & Hv & _).
  split; [exact (mapM_loss_batch g true (batches tr) (train_start w))|].
  split; [rewrite mapM_loss_batch, after_batches_eval; reflexivity|].
  split; [apply batch_run_sizes|]. split; [apply batch_run_sizes|].
  split; [exact Ht|]. split; [exact Hv|].
  split; [|split; reflexivity].
  intros dl opt w0 Hne. rewrite batch_losses_run, size_weighted_loss_pairs.
  destruct (batches dl); [contradiction|]. split; reflexivity.
Qed.

(** The first turn on the toy loaders: training batches of sizes 3 and 1
    with losses 2.0 and 6.0 give the training loss 3.0. *)
Lemma epoch_loss_is_size_weighted_mean_witness :
  exists fr es stop w',
    fit_epoch (Toy.cfg "ndcg_1") (PyFloat 1) "out" Toy.train_dl Toy.valid_dl
              (es_new (PyInt 2)) 0 (Toy.world0 None) = (Ok (fr, es, stop), w') /\
    (batch_run (C := Toy.collaborators) (PyFloat 1) true (batches Toy.train_dl)
               1%float 0.5%float).1
      = [(2%float, 3%nat); (6%float, 1%nat)] /\
    fr_train_loss fr = 3%float.
Proof.
  assert (B : is_ok (fit_epoch (Toy.cfg "ndcg_1") (PyFloat 1) "out" Toy.train_dl
                       Toy.valid_dl (es_new (PyInt 2)) 0 (Toy.world0 None)).1 = true)
    by (vm_compute; reflexivity).
  remember (fit_epoch (Toy.cfg "ndcg_1") (PyFloat 1) "out" Toy.train_dl Toy.valid_dl
              (es_new (PyInt 2)) 0 (Toy.world0 None)) as R eqn:H.
  destruct R as [[[[fr es] stop]|x] w']; [|discriminate B].
  symmetry in H. exists fr, es, stop, w'. split; [reflexivity|]. split; [reflexivity|].
  destruct (epoch_loss_is_size_weighted_mean _ _ _ _ _ _ _ _ _ _ _ _ H)
    as (_ & _ & _ & _ & Ht & _).
  rewrite Ht. vm_compute. reflexivity.
Defined.

(** ** fit: the loop and the result *)

Section FitLoop.
Context `{C : Collaborators}.

(** Turns that neither fail nor stop hand the loop on to the next ones, and a
    turn that stops ends it with that turn's frame. *)
Lemma fit_loop_stops cfg g out tr va todo e rest es w es1 w1 fr es2 w2 fr0 :
  run_epochs cfg g out tr va todo es w = Some (es1, w1) ->
  fit_epoch cfg g out tr va es1 e w1 = (Ok (fr, es2, true), w2) ->
  fit_loop cfg g out tr va (todo ++ e :: rest) fr0 es w = (Ok (Some fr), w2).
Proof.
  revert es w fr0. induction todo as [|e0 todo IH]; intros es w fr0 Hrun He.
  - injection Hrun as -> ->. cbn [app fit_loop].
    erewrite bind_ok by exact He. reflexivity.
  - cbn [run_epochs] in Hrun.
    destruct (fit_epoch cfg g out tr va es e0 w) as [[[[fr' es'] [|]]|x] w'] eqn:H0;
      try discriminate.
    cbn [app fit_loop]. erewrite bind_ok by exact H0. now apply IH.
Qed.

(** The first turn fails as soon as a split has no batch. *)
Lemma fit_loop_raises cfg g out tr va e rest es w x w' fr0 :
  fit_epoch cfg g out tr va es e w = (Raise x, w') ->
  fit_loop cfg g out tr va (e :: rest) fr0 es w = (Raise x, w').
Proof. intros H. cbn [fit_loop]. now erewrite bind_raise by exact H. Qed.

Lemma fit_result_dom n fr :
  dom (fit_result n fr)
  = ({["epochs"; "train_metrics"; "val_metrics"; "num_params"]} : gset string).
Proof. unfold fit_result. rewrite !dom_insert_L, dom_singleton_L. set_solver. Qed.

Lemma fit_ok_inv epochs cfg g patience out tb tr va w d :
  (fit epochs cfg g patience out tb tr va w).1 = Ok d ->
  exists fr, d = fit_result (get_num_params (w_model w)) fr.
Proof.
  rewrite fit_unfold.
  destruct (fit_loop _ _ _ _ _ _ _ _ _) as [[[fr|]|x] w1]; cbn; try discriminate.
  intros [= <-]. now exists fr.
Qed.

End FitLoop.

(** A returning loop has a last turn: the turns before it returned without
    stopping the loop, and it either stopped the loop or was the last of the
    range; the loop returns the variables that this turn bound and leaves
    the world as this turn left it. *)
Lemma fit_loop_last_turn `{C : Collaborators} cfg g out tr va n :
  forall s fr0 es w r w',
    fit_loop cfg g out tr va (seq s n) fr0 es w = (Ok r, w') ->
    (n = 0%nat /\ r = fr0 /\ w' = w) \/
    exists k es1 w1 fr es2 stop,
      (k < n)%nat /\
      run_epochs cfg g out tr va (seq s k) es w = Some (es1, w1) /\
      fit_epoch cfg g out tr va es1 (s + k) w1 = (Ok (fr, es2, stop), w') /\
      (stop = true \/ k = (n - 1)%nat) /\
      r = Some fr.
Proof.
  induction n as [|n IH]; intros s fr0 es w r w' H.
  - injection H as <- <-. now left.
  - right. cbn [seq fit_loop] in H.
    apply bind_inv_ok in H as ([[fr1 es1] stop1] & w1 & H1 & H).
    destruct stop1.
    + injection H as <- <-. exists 0%nat, es, w, fr1, es1, true.
      rewrite Nat.add_0_r. repeat split; [lia|exact H1|now left].
    + apply IH in H as [(-> & -> & ->)|(k & es2 & w2 & fr & es3 & stop & Hk & Hrun & He & Hs & ->)].
      * exists 0%nat, es, w, fr1, es1, false.
        rewrite Nat.add_0_r. repeat split; [lia|exact H1|now right].
      * exists (S k), es2, w2, fr, es3, stop.
        rewrite Nat.add_succ_r. repeat split; [lia| |exact He|].
        -- cbn [seq run_epochs]. rewrite H1. exact Hrun.
        -- destruct Hs as [Hs| ->]; [now left|right; lia].
Qed.

(** C3, as the code has it: the dict that [fit] returns has exactly the
    keys [epochs], [train_metrics], [val_metrics] and [num_params]; the two
    losses are not in it. Its values are those of the last executed turn:
    there is a turn [e] below [epochs] such that the turns before it
    returned without stopping the loop, turn [e] returned and either stopped
    the loop or was the last of the range; [epochs] holds [e], and
    [train_metrics] and [val_metrics] hold the dicts that [compute_metrics]
    returned in that turn, on the training split for the model as the
    training pass of the turn left it and on the validation split for that
    model in evaluation mode; [num_params] holds the parameter count of the
    model as it was passed. *)
Theorem fit_result_fields `{C : Collaborators}
  epochs cfg g patience out tb tr va w (d : gmap string retval) :
  (fit epochs cfg g patience out tb tr va w).1 = Ok d ->
  dom d = ({["epochs"; "train_metrics"; "val_metrics"; "num_params"]} : gset string) /\
  d !! "train_loss" = None /\ d !! "val_loss" = None /\
  exists (e : nat) es1 w1 fr es2 stop w2,
    0 <= Z.of_nat e < epochs /\
    run_epochs cfg g out tr va (seq 0 e) (es_new patience) (fit_start tb w)
      = Some (es1, w1) /\
    fit_epoch cfg g out tr va es1 e w1 = (Ok (fr, es2, stop), w2) /\
    (stop = true \/ Z.of_nat e = epochs - 1) /\
    (fit epochs cfg g patience out tb tr va w).2 = fit_finish out w2 /\
    compute_metrics (metrics cfg)
      (w_model (after_batches g true (batches tr) (train_start w1))) tr
      = Ok (fr_train_metrics fr) /\
    compute_metrics (metrics cfg)
      (model_eval (w_model (after_batches g true (batches tr) (train_start w1)))) va
      = Ok (fr_val_metrics fr) /\
    d !! "epochs" = Some (RInt (Z.of_nat e)) /\
    d !! "train_metrics" = Some (RDict (fr_train_metrics fr)) /\
    d !! "val_metrics" = Some (RDict (fr_val_metrics fr)) /\
    d !! "num_params" = Some (RInt (get_num_params (w_model w))).
Proof.
  rewrite fit_unfold.
  destruct (fit_loop _ _ _ _ _ _ _ _ _) as [[[fr|]|x] w2] eqn:Hl; cbn [fst snd];
    try discriminate.
  intros [= <-]. split; [apply fit_result_dom|].
  split; [reflexivity|]. split; [reflexivity|].
  apply fit_loop_last_turn in Hl
    as [(_ & [=] & _)|(e & es1 & w1 & fr' & es2 & stop & He & Hrun & Hep & Hs & [= <-])].
  cbn [Nat.add] in Hep.
  pose proof (fit_epoch_ok _ _ _ _ _ _ _ _ _ _ _ _ Hep) as (_ & _ & Htm & Hvm & Hfr & _).
  exists e, es1, w1, fr, es2, stop, w2.
  split; [lia|]. split; [exact Hrun|]. split; [exact Hep|].
  split; [destruct Hs as [Hs|Hs]; [now left|right; lia]|].
  split; [reflexivity|]. split; [exact Htm|]. split; [exact Hvm|].
  unfold fit_result. rewrite Hfr. repeat split; reflexivity.
Qed.

(** A two-epoch run on the toy collaborators: the dict has no loss, and its
    [epochs] is the index of a turn of the run. *)
Lemma fit_result_fields_witness :
  exists d,
    (fit 2 (Toy.cfg "ndcg_1") (PyFloat 1) (PyInt 2) "out" "tb" Toy.train_dl Toy.valid_dl
         (Toy.world0 None)).1 = Ok d /\
    d !! "train_loss" = None /\ d !! "val_loss" = None /\
    exists e : nat, 0 <= Z.of_nat e < 2 /\ d !! "epochs" = Some (RInt (Z.of_nat e)).
Proof.
  assert (B : is_ok (fit 2 (Toy.cfg "ndcg_1") (PyFloat 1) (PyInt 2) "out" "tb"
                       Toy.train_dl Toy.valid_dl (Toy.world0 None)).1 = true)
    by (vm_compute; reflexivity).
  remember (fit 2 (Toy.cfg "ndcg_1") (PyFloat 1) (PyInt 2) "out" "tb" Toy.train_dl
              Toy.valid_dl (Toy.world0 None)).1 as r eqn:H.
  destruct r as [d|x]; [|discriminate B].
  symmetry in H. exists d. split; [reflexivity|].
  destruct (fit_result_fields _ _ _ _ _ _ _ _ _ _ H)
    as (_ & Hl & Hv & e & es1 & w1 & fr & es2 & stop & w2 & He & _ & _ & _ & _ & _ & _
        & Hd & _).
  split; [exact Hl|]. split; [exact Hv|]. exists e. split; [exact He|exact Hd].
Defined.

(** C3 as stated fails: the dict returned by a two-epoch run has neither
    [train_loss] nor [val_loss]. *)
Lemma fit_result_lacks_losses :
  exists d,
    (fit 2 (Toy.cfg "ndcg_1") (PyFloat 1) (PyInt 2) "out" "tb" Toy.train_dl Toy.valid_dl
         (Toy.world0 None)).1 = Ok d /\
    ~ has_epoch_result_fields d.
Proof.
  assert (B : is_ok (fit 2 (Toy.cfg "ndcg_1") (PyFloat 1) (PyInt 2) "out" "tb"
                       Toy.train_dl Toy.valid_dl (Toy.world0 None)).1 = true)
    by (vm_compute; reflexivity).
  remember (fit 2 (Toy.cfg "ndcg_1") (PyFloat 1) (PyInt 2) "out" "tb" Toy.train_dl
              Toy.valid_dl (Toy.world0 None)).1 as r eqn:H.
  destruct r as [d|x]; [|discriminate B].
  symmetry in H. exists d. split; [reflexivity|].
  apply fit_ok_inv in H as [fr ->].
  intros (_ & [v Hv] & _). discriminate Hv.
Qed.

(** C8: when the turns before [e] complete without stopping and the
    early-stopping object asks to stop at turn [e < epochs - 1], the loop of
    [fit] is left there, on the log line of the stop; no later turn runs:
    the checkpoint model.pkl is written with the model as turn [e] left it,
    the writers are closed, and the dict built from the variables of turn
    [e] is returned. *)
Theorem fit_early_exit `{C : Collaborators}
  (epochs : Z) cfg g patience out tb tr va w (e : nat) es1 w1 fr es2 stop w2 :
  Z.of_nat e < epochs - 1 ->
  run_epochs cfg g out tr va (seq 0 e) (es_new patience) (fit_start tb w) = Some (es1, w1) ->
  fit_epoch cfg g out tr va es1 e w1 = (Ok (fr, es2, stop), w2) ->
  es_stop_training es2 e = true ->
  fit_loop cfg g out tr va (seq 0 (Z.to_nat epochs)) None (es_new patience) (fit_start tb w)
    = (Ok (Some fr), w2) /\
  fit epochs cfg g patience out tb tr va w
    = (Ok (fit_result (get_num_params (w_model w)) fr), fit_finish out w2) /\
  fr_epoch fr = e /\
  fit_result (get_num_params (w_model w)) fr !! "epochs" = Some (RInt (Z.of_nat e)) /\
  w_fs (fit_finish out w2) !! os_path_join out "model.pkl" = Some [StateDict (w_model w2)] /\
  (exists t,
     w_trace (fit_finish out w2) =
       (t ++ [EvEarlyStopStep (fr_val_metrics fr !! val_metric cfg) e;
              EvLog (LogEarlyStop e (val_metric cfg) (es_best_epoch es2) (es_best_value es2)
                       (fr_val_metrics fr !! val_metric cfg));
              EvTorchSave (os_path_join out "model.pkl");
              EvTensorboardClose])%list).
Proof.
  intros He Hrun Hep Hstop.
  pose proof (fit_epoch_ok _ _ _ _ _ _ _ _ _ _ _ _ Hep) as (_ & _ & _ & _ & Hfr & _ & _ & _ & Hs).
  rewrite Hstop in Hs. subst stop.
  assert (Hseq : seq 0 (Z.to_nat epochs) = (seq 0 e ++ e :: seq (S e) (Z.to_nat epochs - S e))%list).
  { replace (Z.to_nat epochs) with (e + S (Z.to_nat epochs - S e))%nat at 1 by lia.
    rewrite seq_app. reflexivity. }
  assert (Hloop := fit_loop_stops cfg g out tr va (seq 0 e) e
                     (seq (S e) (Z.to_nat epochs - S e)) _ _ _ _ _ _ _ None Hrun Hep).
  rewrite <- Hseq in Hloop.
  split; [exact Hloop|]. split; [rewrite fit_unfold, Hloop; reflexivity|].
  split; [exact Hfr|]. split; [unfold fit_result; rewrite Hfr; reflexivity|].
  split; [apply lookup_insert_eq|].
  destruct (fit_epoch_stop_logged _ _ _ _ _ _ _ _ _ _ _ Hep) as [t Ht].
  exists t. cbn. rewrite Ht, <- app_assoc. reflexivity.
Qed.

(** On the toy collaborators with patience 2 and a validation metric that
    never improves, a five-epoch run stops at epoch 2. *)
Lemma fit_early_exit_witness :
  exists fr w2,
    fit 5 (Toy.cfg "ndcg_1") (PyFloat 1) (PyInt 2) "out" "tb" Toy.train_dl Toy.valid_dl
        (Toy.world0 None) = (Ok (fit_result 1 fr), fit_finish "out" w2) /\
    fr_epoch fr = 2%nat.
Proof.
  assert (B : match run_epochs (Toy.cfg "ndcg_1") (PyFloat 1) "out" Toy.train_dl
                      Toy.valid_dl (seq 0 2) (es_new (PyInt 2))
                      (fit_start "tb" (Toy.world0 None)) with
              | Some (es1, w1) =>
                  match fit_epoch (Toy.cfg "ndcg_1") (PyFloat 1) "out" Toy.train_dl
                          Toy.valid_dl es1 2 w1 with
                  | (Ok (_, es2, _), _) => es_stop_training es2 2
                  | (Raise _, _) => false
                  end
              | None => false
              end = true) by (vm_compute; reflexivity).
  remember (run_epochs (Toy.cfg "ndcg_1") (PyFloat 1) "out" Toy.train_dl Toy.valid_dl
              (seq 0 2) (es_new (PyInt 2)) (fit_start "tb" (Toy.world0 None)))
    as r eqn:Hrun.
  destruct r as [[es1 w1]|]; [|discriminate B].
  remember (fit_epoch (Toy.cfg "ndcg_1") (PyFloat 1) "out" Toy.train_dl Toy.valid_dl
              es1 2 w1) as R eqn:Hep.
  destruct R as [[[[fr es2] stop]|x] w2]; [|discriminate B].
  symmetry in Hrun, Hep.
  destruct (fit_early_exit 5 (Toy.cfg "ndcg_1") (PyFloat 1) (PyInt 2) "out" "tb"
              Toy.train_dl Toy.valid_dl (Toy.world0 None) 2 es1 w1 fr es2 stop w2
              ltac:(lia) Hrun Hep B) as (_ & Hfit & He & _).
  exists fr, w2. split; [exact Hfit|exact He].
Defined.

(** C7, as the code has it: nothing is checked before the loop. With at
    least one epoch to run and a split without batches, [fit] raises in its
    first turn, after the learning rate is logged and the model switched to
    training mode, and returns nothing; no file is written, not even the
    checkpoint. With no training batch the error is the ValueError of the
    unpacking and comes before any batch is run; with training batches and
    no validation batch, the whole training pass runs first (and the error is
    that ValueError when the training metrics could be computed). *)
Theorem fit_empty_split `{C : Collaborators}
  (epochs : Z) cfg g patience out tb tr va w :
  1 <= epochs ->
  batches tr = [] \/ batches va = [] ->
  exists x t,
    (fit epochs cfg g patience out tb tr va w).1 = Raise x /\
    w_fs (fit epochs cfg g patience out tb tr va w).2 = w_fs w /\
    w_trace (fit epochs cfg g patience out tb tr va w).2
      = (w_trace w ++ [EvTensorboardOpen tb;
                       EvLog (LogNumParams (get_num_params (w_model w)));
                       EvLog (LogLr (get_current_lr (w_optimizer w)));
                       EvModelTrain] ++ t)%list /\
    (batches tr = [] -> x = ValueError /\ t = []) /\
    (batches tr <> [] ->
       (exists t', t = (concat (map (fun _ => batch_events g true) (batches tr)) ++ t')%list) /\
       (forall tm,
          compute_metrics (metrics cfg)
            (w_model (after_batches g true (batches tr) (train_start w))) tr = Ok tm ->
          x = ValueError)).
Proof.
  intros Hep Hempty. rewrite fit_unfold.
  destruct (Z.to_nat epochs) as [|n] eqn:Hn; [lia|]. cbn [seq].
  destruct (fit_epoch_empty_split cfg g out tr va (es_new patience) 0 (fit_start tb w) Hempty)
    as (x & t & Hx & Hfs & Ht & H1 & H2).
  destruct (fit_epoch cfg g out tr va (es_new patience) 0 (fit_start tb w))
    as [[r|x'] w'] eqn:Hfe; [discriminate|].
  cbn in Hx, Hfs, Ht. injection Hx as ->.
  rewrite (fit_loop_raises _ _ _ _ _ _ _ _ _ _ _ _ Hfe).
  exists x, t. cbn [fst snd]. split; [reflexivity|]. split; [exact Hfs|].
  split; [rewrite Ht; cbn; rewrite <- app_assoc; reflexivity|].
  split; [exact H1|exact H2].
Qed.

Lemma fit_empty_split_witness :
  exists x t,
    (fit 3 (Toy.cfg "ndcg_1") (PyFloat 1) (PyInt 2) "out" "tb" Toy.empty_dl Toy.valid_dl
         (Toy.world0 None)).1 = Raise x /\
    w_trace (fit 3 (Toy.cfg "ndcg_1") (PyFloat 1) (PyInt 2) "out" "tb" Toy.empty_dl
               Toy.valid_dl (Toy.world0 None)).2
      = ([] ++ [EvTensorboardOpen "tb"; EvLog (LogNumParams 1);
                EvLog (LogLr (Some 0.5%float)); EvModelTrain] ++ t)%list.
Proof.
  destruct (fit_empty_split 3 (Toy.cfg "ndcg_1") (PyFloat 1) (PyInt 2) "out" "tb"
              Toy.empty_dl Toy.valid_dl (Toy.world0 None) ltac:(lia)
              (or_introl eq_refl)) as (x & t & Hx & _ & Ht & _).
  exists x, t. split; [exact Hx|exact Ht].
Defined.

(** C7 as stated fails: with training batches and no validation batch the
    error surfaces only after the training pass of the first epoch has run
    its optimizer steps. *)
Lemma empty_validation_split_fails_mid_epoch :
  (fit 3 (Toy.cfg "ndcg_1") (PyFloat 1) (PyInt 2) "out" "tb" Toy.train_dl Toy.empty_dl
       (Toy.world0 None)).1 = Raise ValueError /\
  w_trace (fit 3 (Toy.cfg "ndcg_1") (PyFloat 1) (PyInt 2) "out" "tb" Toy.train_dl
             Toy.empty_dl (Toy.world0 None)).2
    = [EvTensorboardOpen "tb"; EvLog (LogNumParams 1);
       EvLog (LogLr (Some 0.5%float)); EvModelTrain;
       EvBackward; EvClipGradNorm (PyFloat 1); EvOptStep; EvZeroGrad;
       EvBackward; EvClipGradNorm (PyFloat 1); EvOptStep; EvZeroGrad;
       EvModelEval].
Proof. split; vm_compute; reflexivity. Qed.

(** C2 fails on the code: with a plateau-based scheduler and the monitored
    metric missing from the validation metrics, the first turn of [fit]
    raises KeyError, where the same run with another scheduler completes. *)
Theorem plateau_scheduler_missing_metric_raises :
  match compute_metrics (C := Toy.collaborators) (metrics (Toy.cfg "nope")) 1%float
          Toy.valid_dl with
  | Ok val_metrics => val_metrics !! "nope" = None
  | Raise _ => False
  end /\
  (fit 3 (Toy.cfg "nope") (PyFloat 1) (PyInt 2) "out" "tb" Toy.train_dl Toy.valid_dl
       (Toy.world0 (Some true))).1 = Raise (KeyError "nope") /\
  is_ok (fit 3 (Toy.cfg "nope") (PyFloat 1) (PyInt 2) "out" "tb" Toy.train_dl Toy.valid_dl
           (Toy.world0 (Some false))).1 = true.
Proof. repeat split; vm_compute; reflexivity. Qed.

(** ** Strings: metric names and file paths *)

Lemma prefix_cons (a b : ascii) (p s : string) :
  String.prefix (String a p) (String b s)
  = if ascii_dec a b then String.prefix p s else false.
Proof. reflexivity. Qed.

Lemma prefix_nil (s : string) : String.prefix "" s = true.
Proof. now destruct s. Qed.

Lemma append_cons (c : ascii) (n s : string) : String c n ++ s = String c (n ++ s).
Proof. reflexivity. Qed.

Lemma prefix_append (p n s : string) :
  String.prefix p n = true -> String.prefix p (n ++ s) = true.
Proof.
  revert p. induction n as [|c n IH]; intros [|a p]; try easy.
  - intros _. apply prefix_nil.
  - rewrite append_cons, !prefix_cons.
    destruct (ascii_dec a c); [exact (IH p)|easy].
Qed.

Lemma str_contains_append (p n s : string) :
  str_contains p n = true -> str_contains p (n ++ s) = true.
Proof.
  induction n as [|c n IH].
  - destruct p; [intros _; destruct s; reflexivity|discriminate].
  - rewrite append_cons. cbn [str_contains]. intros [H|H]%orb_true_iff.
    + apply orb_true_iff. left. exact (prefix_append p (String c n) s H).
    + apply orb_true_iff. right. auto.
Qed.

(** A match of "ndcg" that starts inside [n] cannot run into an underscore. *)
Lemma prefix_ndcg_underscore (n s : string) :
  String.prefix "ndcg" (n ++ String "_" s) = true -> String.prefix "ndcg" n = true.
Proof.
  destruct n as [|c1 [|c2 [|c3 [|c4 n]]]];
    rewrite ?append_cons; change ("" ++ String "_" s) with (String "_" s);
    rewrite ?prefix_cons, ?prefix_nil;
    repeat match goal with
           | |- context [ascii_dec ?a ?b] => destruct (ascii_dec a b); try discriminate
           end; auto.
Qed.

Lemma str_contains_ndcg_append (n s : string) :
  str_contains "ndcg" (String "_" s) = false ->
  str_contains "ndcg" (n ++ String "_" s) = str_contains "ndcg" n.
Proof.
  intros Hs. induction n as [|c n IH].
  - exact Hs.
  - rewrite append_cons. cbn [str_contains]. rewrite IH.
    destruct (str_contains "ndcg" n); [now rewrite !orb_true_r|].
    rewrite !orb_false_r.
    destruct (String.prefix "ndcg" (String c n)) eqn:H1.
    + exact (prefix_append "ndcg" (String c n) (String "_" s) H1).
    + destruct (String.prefix "ndcg" (String c (n ++ String "_" s))) eqn:H2; [|reflexivity].
      apply (prefix_ndcg_underscore (String c n) s) in H2. congruence.
Qed.

Lemma str_uint_no_ndcg (d : Decimal.uint) :
  str_contains "ndcg" (NilEmpty.string_of_uint d) = false.
Proof. induction d; cbn; auto. Qed.

Lemma str_int_no_ndcg (z : Z) : str_contains "ndcg" (String "_" (str_int z)) = false.
Proof.
  unfold str_int, NilZero.string_of_int, NilZero.string_of_uint.
  destruct (Z.to_int z) as [d|d]; destruct d; cbn; auto using str_uint_no_ndcg.
Qed.

(** Whether a key ["{name}_{at}"] contains "ndcg" is decided by the name. *)
Lemma str_contains_ndcg_format (metric_name : string) (at_ : Z) :
  str_contains "ndcg" (format_metric metric_name at_) = str_contains "ndcg" metric_name.
Proof.
  unfold format_metric. change ("_" ++ str_int at_) with (String "_" (str_int at_)).
  apply str_contains_ndcg_append, str_int_no_ndcg.
Qed.

Lemma append_inv_head (p a b : string) : p ++ a = p ++ b -> a = b.
Proof.
  induction p as [|c p IH]; [auto|]. rewrite !append_cons. intros [= H]. auto.
Qed.

Lemma length_append (a b : string) :
  String.length (a ++ b) = (String.length a + String.length b)%nat.
Proof.
  induction a as [|c a IH]; [reflexivity|].
  rewrite append_cons. cbn [String.length]. now rewrite IH.
Qed.

Lemma append_inv_tail (t a b : string) : a ++ t = b ++ t -> a = b.
Proof.
  intros H.
  assert (Hlen : String.length a = String.length b).
  { apply (f_equal String.length) in H. rewrite !length_append in H. lia. }
  revert b H Hlen. induction a as [|c a IH]; intros [|c' b]; try easy.
  rewrite !append_cons. intros [= -> H] [= Hlen]. f_equal. auto.
Qed.

Lemma str_nat_not_absolute (n : nat) (s : string) :
  String.prefix "/" (str_nat n ++ s) = false.
Proof.
  unfold str_nat, NilZero.string_of_uint. destruct (Nat.to_uint n); reflexivity.
Qed.

Lemma os_path_join_inj (a b1 b2 : string) :
  String.prefix "/" b1 = false -> String.prefix "/" b2 = false ->
  os_path_join a b1 = os_path_join a b2 -> b1 = b2.
Proof.
  unfold os_path_join. intros -> ->. destruct a as [|c a]; [auto|].
  destruct (ends_with_slash (String c a)).
  - apply append_inv_head.
  - intros H%append_inv_head. now apply (append_inv_head "/") in H.
Qed.

Lemma metric_path_inj (out : string) (e : nat) (k1 k2 : string) :
  metric_path out e k1 = metric_path out e k2 -> k1 = k2.
Proof.
  unfold metric_path. intros H%os_path_join_inj; try apply str_nat_not_absolute.
  apply append_inv_head in H. apply (append_inv_head ".model.predict.") in H.
  now apply append_inv_tail in H.
Qed.

Lemma metric_path_not_predictions (out : string) (e : nat) (k : string) :
  metric_path out e k <> predictions_path out e.
Proof.
  unfold metric_path, predictions_path.
  intros H%os_path_join_inj; try apply str_nat_not_absolute.
  apply append_inv_head in H. apply (append_inv_head ".model.predict.") in H.
  apply (f_equal String.length) in H. rewrite length_append in H. cbn in H. lia.
Qed.

(** ** compute_test: the calls of model.score *)

Section ComputeTestTrace.
Context `{C : Collaborators}.

Lemma foldM_same_trace {A S} (f : S -> A -> M S) :
  (forall s a w, w_trace (f s a w).2 = w_trace w) ->
  forall l s w, w_trace (foldM f l s w).2 = w_trace w.
Proof.
  intros Hf l. induction l as [|a l IH]; intros s w; [reflexivity|].
  cbn [foldM]. unfold mbind, M_bind, bind.
  specialize (Hf s a w). destruct (f s a w) as [[s'|x] w1]; cbn in Hf.
  - now rewrite IH.
  - exact Hf.
Qed.

Lemma export_metric_trace out e arm nr w :
  w_trace (export_metric out e arm nr w).2 = w_trace w.
Proof.
  destruct nr as [name result]. unfold export_metric. mrun.
  now destruct (arm !! name).
Qed.

Lemma query_metric_trace out e scores y arm entry w :
  w_trace (query_metric out e scores y arm entry w).2 = w_trace w.
Proof.
  unfold query_metric. destruct entry as [metric_name ats].
  destruct (str_contains "ndcg" metric_name); [|reflexivity].
  destruct (metrics_module metric_name); [|reflexivity].
  apply foldM_same_trace. intros. apply export_metric_trace.
Qed.

Lemma create_metric_files_trace ms out e w :
  w_trace (create_metric_files ms out e w).2 = w_trace w.
Proof.
  unfold create_metric_files. apply foldM_same_trace.
  intros arm [metric_name ats] w0. apply foldM_same_trace. reflexivity.
Qed.

(** One query: the score call is recorded with the NaN-free tensor, unless
    the labels of the query are missing. *)
Lemma compute_test_query_trace ms model dl out e arm q w :
  (is_ok (compute_test_query ms model dl out e arm q w).1 = false /\
   w_trace (compute_test_query ms model dl out e arm q w).2 = w_trace w) \/
  exists x, X_by_qid dl !! q = Some x /\
    w_trace (compute_test_query ms model dl out e arm q w).2
      = (w_trace w ++ [EvScoreQuery (nan_to_zero [x])])%list.
Proof.
  unfold compute_test_query.
  destruct (X_by_qid dl !! q) as [x|]; [|now left].
  destruct (y_by_qid dl !! q) as [y|]; [|now left].
  right. exists x. split; [reflexivity|].
  unfold mbind, M_bind, bind. cbn [emit append set_fs open_w].
  rewrite foldM_same_trace; [reflexivity|]. intros. apply query_metric_trace.
Qed.

(** The loop over the queries records one score call per query it reaches,
    in query order. *)
Lemma queries_trace ms model dl out e n :
  forall a arm w,
    (a + n = length (X_by_qid dl))%nat ->
    exists k,
      (k <= n)%nat /\
      (is_ok (foldM (compute_test_query ms model dl out e) (seq a n) arm w).1 = true
       -> k = n) /\
      w_trace (foldM (compute_test_query ms model dl out e) (seq a n) arm w).2
        = (w_trace w ++ map (fun x => EvScoreQuery (nan_to_zero [x]))
                            (take k (drop a (X_by_qid dl))))%list.
Proof.
  induction n as [|n IH]; intros a arm w Han.
  - exists 0%nat. cbn. rewrite app_nil_r. auto.
  - cbn [seq foldM]. unfold mbind, M_bind, bind.
    destruct (compute_test_query_trace ms model dl out e arm a w)
      as [[Hr Ht]|(x & Hx & Ht)];
      destruct (compute_test_query ms model dl out e arm a w) as [[arm'|err] w1];
      cbn [fst snd] in *; try discriminate.
    + exists 0%nat. cbn. rewrite app_nil_r. repeat split; [lia|discriminate|exact Ht].
    + destruct (IH (S a) arm' w1 ltac:(lia)) as (k & Hk & Hok & Hk').
      exists (S k). split; [lia|]. split; [intros H; f_equal; auto|].
      rewrite Hk', Ht, <- app_assoc. rewrite (drop_S _ _ _ Hx). reflexivity.
    + exists 1%nat. split; [lia|]. split; [discriminate|].
      rewrite Ht, (drop_S _ _ _ Hx). reflexivity.
Qed.

Lemma compute_test_trace ms model dl out e w :
  exists k,
    (k <= length (X_by_qid dl))%nat /\
    (is_ok (compute_test ms model dl out e w).1 = true -> k = length (X_by_qid dl)) /\
    w_trace (compute_test ms model dl out e w).2
      = (w_trace w ++ map (fun x => EvScoreQuery (nan_to_zero [x]))
                          (take k (X_by_qid dl)))%list.
Proof.
  unfold compute_test, mbind, M_bind, bind. cbn [open_w set_fs].
  pose proof (create_metric_files_trace ms out e
                (with_fs (<[predictions_path out e := []]> (w_fs w)) w)) as Hc.
  unfold with_fs in Hc.
  destruct (create_metric_files ms out e _) as [[arm|err] w1]; cbn [fst snd] in *.
  - destruct (queries_trace ms model dl out e (length (X_by_qid dl)) 0 arm w1 eq_refl)
      as (k & Hk & Hok & Ht).
    rewrite drop_0, Hc in Ht. cbn [w_trace] in Ht.
    destruct (foldM _ _ arm w1) as [[arm'|err] w2]; cbn [fst snd ret] in *;
      exists k; auto.
  - exists 0%nat. cbn. rewrite app_nil_r. repeat split; [lia|discriminate|exact Hc].
Qed.

End ComputeTestTrace.

(** C5, as the code has it: the per-query evaluator calls [model.score]
    once per query, in query order (on all of them when it returns), each
    time with the query's feature tensor in which every NaN is replaced by
    zero and every other value, the infinities included, is left as it is. *)
Theorem compute_test_zeroes_nan `{C : Collaborators} ms model dl out e w :
  (exists k,
     (k <= length (X_by_qid dl))%nat /\
     (is_ok (compute_test ms model dl out e w).1 = true -> k = length (X_by_qid dl)) /\
     w_trace (compute_test ms model dl out e w).2
       = (w_trace w ++ map (fun x => EvScoreQuery [map (map zero_nan) x])
                           (take k (X_by_qid dl)))%list) /\
  (forall v, PrimFloat.is_nan (zero_nan v) = false) /\
  (forall v, PrimFloat.is_nan v = true -> zero_nan v = 0%float) /\
  (forall v, PrimFloat.is_nan v = false -> zero_nan v = v) /\
  zero_nan infinity = infinity /\ zero_nan neg_infinity = neg_infinity.
Proof.
  split; [exact (compute_test_trace ms model dl out e w)|].
  unfold zero_nan. repeat split; try reflexivity.
  - intros v. destruct (PrimFloat.is_nan v) eqn:Hv; [reflexivity|exact Hv].
  - now intros v ->.
  - now intros v ->.
Qed.

(** C5 as stated fails: an infinite feature value is not finite, the spec's
    replacement would turn it into zero, and the evaluator passes it to
    [model.score] unchanged. *)
Lemma infinite_feature_is_scored :
  PrimFloat.is_finite infinity = false /\
  map (map (map zero_non_finite)) [[[infinity]]] = [[[0%float]]] /\
  w_trace (compute_test (C := Toy.collaborators) (metrics (Toy.cfg "")) 1%float
             (Toy.mk_loader [[infinity]]) "out" 0 (Toy.world0 None)).2
    = [EvScoreQuery [[[infinity]]]].
Proof. repeat split; vm_compute; reflexivity. Qed.

(** ** compute_test: files and collected values *)

Section ComputeTestFiles.
Context `{C : Collaborators}.
Variables (out : string) (e : nat).

Lemma foldM_inv {A S} (f : S -> A -> M S) (I : S -> world -> Prop) (P : A -> Prop) :
  (forall s a w s' w', P a -> I s w -> f s a w = (Ok s', w') -> I s' w') ->
  forall l s w s' w',
    Forall P l -> I s w -> foldM f l s w = (Ok s', w') -> I s' w'.
Proof.
  intros Hf l. induction l as [|a l IH]; intros s w s' w' HP HI H.
  - injection H as <- <-. exact HI.
  - cbn [foldM] in H. apply bind_inv_ok in H as (s1 & w1 & H1 & H2).
    inversion HP; subst. eauto.
Qed.

Lemma with_fs_id w : with_fs (w_fs w) w = w.
Proof. now destruct w. Qed.

Lemma create_metric_file_run arm m w :
  create_metric_file out e arm m w
  = (Ok (setdefault arm m []),
     with_fs (<[metric_path out e m := []]> (w_fs w)) w).
Proof. reflexivity. Qed.

Lemma create_names_run names : forall arm w,
  foldM (create_metric_file out e) names arm w
  = (Ok (fold_left (fun a m => setdefault a m []) names arm),
     with_fs (fold_left (fun fs m => <[metric_path out e m := []]> fs) names (w_fs w)) w).
Proof.
  induction names as [|m names IH]; intros arm w.
  - cbn. now rewrite with_fs_id.
  - cbn [foldM fold_left]. erewrite bind_ok by apply create_metric_file_run.
    rewrite IH. reflexivity.
Qed.

Lemma create_metric_files_from ms : forall arm w,
  foldM (fun all_results_metric '(metric_name, ats) =>
           foldM (create_metric_file out e)
                 (map (format_metric metric_name) ats) all_results_metric) ms arm w
  = (Ok (fold_left (fun a m => setdefault a m []) (metric_keys ms) arm),
     with_fs (fold_left (fun fs m => <[metric_path out e m := []]> fs)
                        (metric_keys ms) (w_fs w)) w).
Proof.
  induction ms as [|[metric_name ats] ms IH]; intros arm w.
  - cbn. now rewrite with_fs_id.
  - cbn [foldM metric_keys flat_map fst snd].
    erewrite bind_ok by apply create_names_run.
    rewrite IH, !fold_left_app. reflexivity.
Qed.

Lemma setdefault_lookup {V} (d : gmap string V) k v k' :
  setdefault d k v !! k' =
  if decide (k = k') then Some (default v (d !! k)) else d !! k'.
Proof.
  unfold setdefault. destruct (d !! k) as [v0|] eqn:Hk; case_decide; subst; cbn.
  - exact Hk.
  - reflexivity.
  - apply lookup_insert_eq.
  - now apply lookup_insert_ne.
Qed.

Lemma fold_setdefault_dom keys : forall (arm : gmap string tensor2) k,
  is_Some (fold_left (fun a m => setdefault a m []) keys arm !! k) ->
  In k keys \/ is_Some (arm !! k).
Proof.
  induction keys as [|m keys IH]; intros arm k H; [now right|].
  cbn [fold_left] in H. apply IH in H as [H|H]; [left; now right|].
  rewrite setdefault_lookup in H. case_decide; [subst; left; now left|now right].
Qed.

Lemma fold_setdefault_nil keys : forall (arm : gmap string tensor2),
  (forall k v, arm !! k = Some v -> v = []) ->
  forall k, In k keys \/ is_Some (arm !! k) ->
            fold_left (fun a m => setdefault a m []) keys arm !! k = Some [].
Proof.
  induction keys as [|m keys IH]; intros arm Harm k H.
  - destruct H as [[]|[v Hv]]. cbn. rewrite Hv. f_equal. eauto.
  - cbn [fold_left]. apply IH.
    + intros k' v. rewrite setdefault_lookup. case_decide; [|apply Harm].
      destruct (arm !! m) as [v0|] eqn:Hm; cbn; intros [= <-]; eauto.
    + rewrite setdefault_lookup. destruct H as [[->|H]|H].
      * right. case_decide; [eauto|contradiction].
      * now left.
      * right. case_decide; [eauto|exact H].
Qed.

Lemma fold_truncate_lookup keys : forall (fs : gmap string (list item)) k,
  In k keys \/ fs !! metric_path out e k = Some [] ->
  fold_left (fun fs m => <[metric_path out e m := []]> fs) keys fs
    !! metric_path out e k = Some [].
Proof.
  induction keys as [|m keys IH]; intros fs k H.
  - destruct H as [[]|H]. exact H.
  - cbn [fold_left]. apply IH. destruct H as [[->|H]|H].
    + right. apply lookup_insert_eq.
    + now left.
    + right. destruct (decide (metric_path out e m = metric_path out e k)) as [->|Hne].
      * apply lookup_insert_eq.
      * now rewrite lookup_insert_ne.
Qed.

(** After the files are created, every configured key has an empty list of
    values and an empty file. *)
Lemma create_metric_files_inv ms w :
  exists arm w',
    create_metric_files ms out e w = (Ok arm, w') /\
    export_inv out e (metric_keys ms) arm w'.
Proof.
  unfold create_metric_files. rewrite create_metric_files_from.
  eexists _, _. split; [reflexivity|]. split.
  - intros k [H|H]%fold_setdefault_dom; [exact H|].
    rewrite lookup_empty in H. now destruct H.
  - intros k Hk. exists []. split; [|split; [|reflexivity]].
    + apply fold_setdefault_nil; [|now left].
      intros k' v. now rewrite lookup_empty.
    + cbn. apply fold_truncate_lookup. now left.
Qed.

Lemma export_inv_fs keys arm w1 w2 :
  w_fs w1 = w_fs w2 -> export_inv out e keys arm w1 -> export_inv out e keys arm w2.
Proof. unfold export_inv. now intros ->. Qed.

Lemma export_inv_predictions keys arm w items :
  export_inv out e keys arm w ->
  export_inv out e keys arm (with_fs (<[predictions_path out e := items]> (w_fs w)) w).
Proof.
  intros [H1 H2]. split; [exact H1|]. intros k Hk.
  destruct (H2 k Hk) as (vals & Ha & Hf & Hn). exists vals.
  split; [exact Ha|]. split; [|exact Hn]. cbn.
  rewrite lookup_insert_ne; [exact Hf|].
  intros H. symmetry in H. now apply metric_path_not_predictions in H.
Qed.

(** Appending the values of one key keeps the files and the collected
    values in step. *)
Lemma export_metric_inv keys arm nr w arm' w' :
  In nr.1 keys /\ str_contains "ndcg" nr.1 = true ->
  export_inv out e keys arm w ->
  export_metric out e arm nr w = (Ok arm', w') ->
  export_inv out e keys arm' w'.
Proof.
  destruct nr as [name result]. cbn [fst snd]. intros [Hin Hndcg] [H1 H2].
  unfold export_metric. cbn [fst snd]. intros H.
  apply bind_inv_ok in H as ([] & w1 & Happ & H).
  revert Happ. mrun. intros [= <-].
  destruct (arm !! name) as [l|] eqn:Hl; [|discriminate].
  revert H. mrun. intros [= <- <-].
  destruct (H2 name Hin) as (vals & Ha & Hf & _).
  rewrite Hl in Ha. injection Ha as <-.
  split.
  - intros k. destruct (decide (name = k)) as [<-|Hne]; [auto|].
    rewrite lookup_insert_ne by exact Hne. apply H1.
  - intros k Hk. destruct (decide (name = k)) as [<-|Hne].
    + exists (l ++ [result])%list. rewrite !lookup_insert_eq, Hf. cbn.
      split; [reflexivity|]. split; [|congruence].
      rewrite concat_app. cbn [concat]. rewrite app_nil_r, List.map_app.
      apply lookup_insert_eq.
    + destruct (H2 k Hk) as (vals & Ha & Hf' & Hn). exists vals.
      split; [rewrite lookup_insert_ne by exact Hne; exact Ha|].
      split; [|exact Hn]. cbn [w_fs]. rewrite lookup_insert_ne; [exact Hf'|].
      intros Hp. apply metric_path_inj in Hp. contradiction.
Qed.

Lemma Forall_zip_fst {A B} (P : A -> Prop) (l : list A) (k : list B) :
  Forall P l -> Forall (fun p => P p.1) (zip l k).
Proof.
  intros H. revert k. induction H as [|a l Ha Hl IH]; intros [|b k]; cbn; auto.
Qed.

Lemma query_metric_inv ms scores y arm entry w arm' w' :
  In entry ms ->
  export_inv out e (metric_keys ms) arm w ->
  query_metric out e scores y arm entry w = (Ok arm', w') ->
  export_inv out e (metric_keys ms) arm' w'.
Proof.
  destruct entry as [metric_name ats]. intros Hin HI. unfold query_metric.
  destruct (str_contains "ndcg" metric_name) eqn:Hndcg;
    [|now intros [= <- <-]].
  destruct (metrics_module metric_name) as [metric_func|]; [|discriminate].
  apply (foldM_inv _ _ (fun nr => In nr.1 (metric_keys ms) /\
                                  str_contains "ndcg" nr.1 = true));
    [intros; eapply export_metric_inv; eauto| |exact HI].
  apply (Forall_zip_fst (fun n => In n (metric_keys ms) /\ str_contains "ndcg" n = true)).
  apply List.Forall_forall. intros n (a & <- & Ha)%in_map_iff. split.
  - apply in_flat_map. exists (metric_name, ats). split; [exact Hin|].
    now apply in_map.
  - now rewrite str_contains_ndcg_format.
Qed.

Lemma compute_test_query_inv ms model dl arm q w arm' w' :
  export_inv out e (metric_keys ms) arm w ->
  compute_test_query ms model dl out e arm q w = (Ok arm', w') ->
  export_inv out e (metric_keys ms) arm' w'.
Proof.
  intros HI. unfold compute_test_query.
  destruct (X_by_qid dl !! q) as [x|]; [|discriminate].
  destruct (y_by_qid dl !! q) as [y|]; [|discriminate].
  intros H. apply bind_inv_ok in H as ([] & w1 & H1 & H).
  apply bind_inv_ok in H as ([] & w2 & H2 & H).
  revert H1 H2. mrun. intros [= <-] [= <-].
  revert H. apply (foldM_inv _ _ (fun entry => In entry ms)).
  - intros; eapply query_metric_inv; eauto.
  - now apply List.Forall_forall.
  - eapply export_inv_fs; [|apply (export_inv_predictions _ _ w); exact HI].
    reflexivity.
Qed.

(** A run of [compute_test] that returns: the returned dict is read off the
    collected values, which are in step with the files. *)
Lemma compute_test_inv ms model dl w d w' :
  compute_test ms model dl out e w = (Ok d, w') ->
  exists arm,
    export_inv out e (metric_keys ms) arm w' /\
    d = map_imap (fun m l => if str_contains "ndcg" m then Some (np_mean l) else None) arm.
Proof.
  unfold compute_test. intros H.
  apply bind_inv_ok in H as ([] & w1 & H1 & H).
  apply bind_inv_ok in H as (arm0 & w2 & H2 & H).
  apply bind_inv_ok in H as (arm & w3 & H3 & H).
  injection H as <- <-. exists arm. split; [|reflexivity].
  destruct (create_metric_files_inv ms w1) as (arm0' & w2' & Hc & HI).
  rewrite Hc in H2. injection H2 as <- <-.
  revert H3. apply (foldM_inv _ _ (fun _ => True)).
  - intros; eapply compute_test_query_inv; eauto.
  - now apply List.Forall_forall.
  - exact HI.
Qed.

End ComputeTestFiles.

(** ** compute_test: the values collected under one key *)

Section ComputeTestValues.
Context `{C : Collaborators}.
Variables (out : string) (e : nat).

Lemma export_metrics_other nrs : forall arm w arm' w' k,
  foldM (export_metric out e) nrs arm w = (Ok arm', w') ->
  ~ In k (map fst nrs) -> arm' !! k = arm !! k.
Proof.
  induction nrs as [|[k0 r0] nrs IH]; intros arm w arm' w' k H Hk.
  - now injection H as <- <-.
  - cbn [foldM] in H. apply bind_inv_ok in H as (arm1 & w1 & H1 & H).
    rewrite (IH _ _ _ _ k H) by (intros ?; apply Hk; now right).
    unfold export_metric in H1. cbn [fst snd] in H1.
    apply bind_inv_ok in H1 as ([] & w0 & _ & H1).
    destruct (arm !! k0); [|discriminate]. injection H1 as <- <-.
    apply lookup_insert_ne. intros ->. apply Hk. now left.
Qed.

Lemma export_metrics_key nrs : forall arm w arm' w' k res l,
  foldM (export_metric out e) nrs arm w = (Ok arm', w') ->
  NoDup (map fst nrs) -> In (k, res) nrs -> arm !! k = Some l ->
  arm' !! k = Some (l ++ [res])%list.
Proof.
  induction nrs as [|[k0 r0] nrs IH]; intros arm w arm' w' k res l H Hnd Hin Hl;
    [destruct Hin|].
  cbn [foldM] in H. apply bind_inv_ok in H as (arm1 & w1 & H1 & H).
  cbn [map fst] in Hnd. apply NoDup_cons in Hnd as [Hk0 Hnd].
  unfold export_metric in H1. cbn [fst snd] in H1.
  apply bind_inv_ok in H1 as ([] & w0 & _ & H1).
  destruct (arm !! k0) as [l0|] eqn:Hl0; [|discriminate]. injection H1 as <- <-.
  destruct Hin as [[= -> ->]|Hin].
  - rewrite (export_metrics_other _ _ _ _ _ k H) by (now rewrite <- list_elem_of_In).
    rewrite lookup_insert_eq. congruence.
  - apply (IH _ _ _ _ k res l H Hnd Hin).
    rewrite lookup_insert_ne; [exact Hl|].
    intros ->. apply Hk0. rewrite list_elem_of_In. now apply (in_map fst) in Hin.
Qed.

Lemma zip_fst_incl {A B} (l : list A) (k : list B) x :
  In x (map fst (zip l k)) -> In x l.
Proof.
  revert k. induction l as [|a l IH]; intros [|b k]; cbn; try tauto.
  intros [->|H]; [now left|right; eauto].
Qed.

Lemma zip_fst_NoDup {A B} (l : list A) (k : list B) :
  NoDup l -> NoDup (map fst (zip l k)).
Proof.
  intros H. revert k. induction H as [|a l Ha Hl IH]; intros [|b k]; cbn;
    try apply NoDup_nil_2.
  apply NoDup_cons_2; [|apply IH].
  rewrite list_elem_of_In. intros Hin%zip_fst_incl. apply Ha. now rewrite list_elem_of_In.
Qed.

Lemma lookup_map {A B} (f : A -> B) (l : list A) j :
  map f l !! j = f <$> l !! j.
Proof. revert j. induction l as [|a l IH]; intros [|j]; cbn; auto. Qed.

Lemma zip_lookup_In {A B} (l : list A) (k : list B) j a b :
  l !! j = Some a -> k !! j = Some b -> In (a, b) (zip l k).
Proof.
  revert k j. induction l as [|a0 l IH]; intros [|b0 k] [|j]; cbn; try discriminate.
  - intros [= ->] [= ->]. now left.
  - intros Ha Hb. right. eauto.
Qed.

(** The metrics loop of one query leaves alone the keys of metrics that are
    not configured. *)
Lemma query_metrics_other scores y ms : forall arm w arm' w' k,
  foldM (query_metric out e scores y) ms arm w = (Ok arm', w') ->
  ~ In k (metric_keys ms) -> arm' !! k = arm !! k.
Proof.
  induction ms as [|[metric_name ats] ms IH]; intros arm w arm' w' k H Hk.
  - now injection H as <- <-.
  - cbn [foldM] in H. apply bind_inv_ok in H as (arm1 & w1 & H1 & H).
    cbn [metric_keys flat_map fst snd] in Hk. rewrite in_app_iff in Hk.
    rewrite (IH _ _ _ _ k H) by tauto.
    unfold query_metric in H1.
    destruct (str_contains "ndcg" metric_name); [|now injection H1 as <- <-].
    destruct (metrics_module metric_name) as [metric_func|]; [|discriminate].
    apply (export_metrics_other _ _ _ _ _ k H1).
    intros Hin%zip_fst_incl. tauto.
Qed.

(** It appends, under the key of a configured "ndcg" metric and cutoff, the
    column of that cutoff. *)
Lemma query_metrics_key scores y ms : forall arm w arm' w' metric_name ats
    metric_func j a col l,
  foldM (query_metric out e scores y) ms arm w = (Ok arm', w') ->
  NoDup (metric_keys ms) ->
  In (metric_name, ats) ms ->
  str_contains "ndcg" metric_name = true ->
  metrics_module metric_name = Some metric_func ->
  ats !! j = Some a ->
  transpose (metric_func scores [y] ats) !! j = Some col ->
  arm !! format_metric metric_name a = Some l ->
  arm' !! format_metric metric_name a = Some (l ++ [col])%list.
Proof.
  induction ms as [|[n0 ats0] ms IH];
    intros arm w arm' w' metric_name ats metric_func j a col l H Hnd Hin Hndcg Hreg Hj Hcol Hl;
    [destruct Hin|].
  cbn [foldM] in H. apply bind_inv_ok in H as (arm1 & w1 & H1 & H).
  cbn [metric_keys flat_map fst snd] in Hnd.
  apply NoDup_app in Hnd as (Hnd0 & Hdisj & Hnd).
  assert (Hkey : In (format_metric metric_name a) (map (format_metric metric_name) ats)).
  { apply in_map. apply list_elem_of_In. now apply list_elem_of_lookup_2 in Hj. }
  destruct Hin as [[= -> ->]|Hin].
  - rewrite (query_metrics_other _ _ _ _ _ _ _ _ H).
    + unfold query_metric in H1. rewrite Hndcg, Hreg in H1.
      apply (export_metrics_key _ _ _ _ _ _ col l H1).
      * now apply zip_fst_NoDup.
      * apply (zip_lookup_In _ _ j); [|exact Hcol].
        rewrite lookup_map, Hj. reflexivity.
      * exact Hl.
    + intros Hin'. apply (Hdisj (format_metric metric_name a));
        now apply list_elem_of_In.
  - assert (Hrest : In (format_metric metric_name a) (metric_keys ms)).
    { apply in_flat_map. exists (metric_name, ats). split; [exact Hin|exact Hkey]. }
    apply (IH _ _ _ _ metric_name ats metric_func j a col l H Hnd Hin Hndcg Hreg Hj Hcol).
    rewrite (query_metrics_other scores y [(n0, ats0)] arm w arm1 w1
               (format_metric metric_name a)); [exact Hl| |].
    + cbn [foldM]. erewrite bind_ok by exact H1. reflexivity.
    + cbn [metric_keys flat_map fst snd]. rewrite app_nil_r.
      intros Hin'. apply (Hdisj (format_metric metric_name a));
        now apply list_elem_of_In.
Qed.

Lemma transpose_lookup (t : tensor2) (c j : nat) :
  map length t = [c] -> (j < c)%nat -> transpose t !! j = Some (column t j).
Proof.
  intros Ht Hj. unfold transpose, ncols.
  destruct t as [|r [|r' t]]; try discriminate. injection Ht as Hr.
  cbn [hd]. rewrite lookup_map, Hr, lookup_seq_lt by exact Hj. reflexivity.
Qed.

Lemma create_metric_files_nil ms w arm w' :
  create_metric_files ms out e w = (Ok arm, w') ->
  forall k, In k (metric_keys ms) -> arm !! k = Some [].
Proof.
  unfold create_metric_files. rewrite create_metric_files_from. intros [= <- _] k Hk.
  apply fold_setdefault_nil; [|now left]. intros k' v. now rewrite lookup_empty.
Qed.

(** A returning run of [compute_test], by its steps: the files are
    created, the queries processed from the first to the last, and the
    collected values reduced to their means. *)
Lemma compute_test_arm ms model dl w d w' :
  compute_test ms model dl out e w = (Ok d, w') ->
  exists arm0 w0 arm,
    create_metric_files ms out e (with_fs (<[predictions_path out e := []]> (w_fs w)) w)
      = (Ok arm0, w0) /\
    foldM (compute_test_query ms model dl out e) (seq 0 (length (X_by_qid dl))) arm0 w0
      = (Ok arm, w') /\
    export_inv out e (metric_keys ms) arm w' /\
    d = map_imap (fun m l => if str_contains "ndcg" m then Some (np_mean l) else None) arm.
Proof.
  unfold compute_test. intros H.
  apply bind_inv_ok in H as ([] & w1 & H1 & H).
  apply bind_inv_ok in H as (arm0 & w2 & H2 & H).
  apply bind_inv_ok in H as (arm & w3 & H3 & H).
  injection H as <- <-. revert H1. mrun. intros [= <-].
  exists arm0, w2, arm. split; [exact H2|]. split; [exact H3|]. split; [|reflexivity].
  destruct (create_metric_files_inv out e ms
              (with_fs (<[predictions_path out e := []]> (w_fs w)) w))
    as (arm0' & w2' & Hc & HI).
  unfold with_fs in Hc, H2. rewrite Hc in H2. injection H2 as <- <-.
  revert H3. apply (foldM_inv _ _ (fun _ => True)).
  - intros; eapply compute_test_query_inv; eauto.
  - now apply List.Forall_forall.
  - exact HI.
Qed.

Section OneKey.
Variables (ms : list (string * list Z)) (model : Model) (dl : loader).
Variables (metric_name : string) (ats : list Z) (metric_func : metric_fn).
Variables (j : nat) (a : Z).
Hypothesis Hnd : NoDup (metric_keys ms).
Hypothesis Hin : In (metric_name, ats) ms.
Hypothesis Hndcg : str_contains "ndcg" metric_name = true.
Hypothesis Hreg : metrics_module metric_name = Some metric_func.
Hypothesis Hj : ats !! j = Some a.
Hypothesis Hshape :
  Forall (fun q => map length (per_query_rows metric_func ats model q) = [length ats])
         (queries dl).

(** The loop over the queries appends, under the key, the cutoff's column
    of every query it processes, in order. *)
Lemma queries_key n : forall s arm w arm' w' l,
  foldM (compute_test_query ms model dl out e) (seq s n) arm w = (Ok arm', w') ->
  arm !! format_metric metric_name a = Some l ->
  arm' !! format_metric metric_name a
  = Some (l ++ map (fun q => column (per_query_rows metric_func ats model q) j)
                   (take n (drop s (queries dl))))%list.
Proof.
  induction n as [|n IH]; intros s arm w arm' w' l H Hl.
  - injection H as <- <-. cbn. now rewrite app_nil_r.
  - cbn [seq foldM] in H. apply bind_inv_ok in H as (arm1 & w1 & H1 & H).
    unfold compute_test_query in H1.
    destruct (X_by_qid dl !! s) as [x|] eqn:Hx; [|discriminate].
    destruct (y_by_qid dl !! s) as [y|] eqn:Hy; [|discriminate].
    apply bind_inv_ok in H1 as ([] & w2 & _ & H1).
    apply bind_inv_ok in H1 as ([] & w3 & _ & H1).
    assert (Hq : queries dl !! s = Some (x, y)).
    { unfold queries. rewrite lookup_zip_with, Hx. cbn. rewrite Hy. reflexivity. }
    assert (Hs : map length (per_query_rows metric_func ats model (x, y)) = [length ats]).
    { rewrite List.Forall_forall in Hshape. apply Hshape.
      apply list_elem_of_In. now apply list_elem_of_lookup_2 in Hq. }
    pose proof (query_metrics_key _ _ _ _ _ _ _ _ _ _ j a _ l H1 Hnd Hin Hndcg Hreg Hj
                  (transpose_lookup _ _ j Hs (lookup_lt_Some _ _ _ Hj)) Hl) as Hl1.
    rewrite (IH _ _ _ _ _ _ H Hl1), (drop_S _ _ _ Hq), <- app_assoc. reflexivity.
Qed.

(** The value that [compute_test] returns under the key: the mean of the
    cutoff's column over all queries. *)
Lemma compute_test_key w d w' :
  compute_test ms model dl out e w = (Ok d, w') ->
  d !! format_metric metric_name a
  = Some (np_mean (map (fun q => column (per_query_rows metric_func ats model q) j)
                       (queries dl))).
Proof.
  unfold compute_test. intros H.
  apply bind_inv_ok in H as ([] & w1 & _ & H).
  apply bind_inv_ok in H as (arm0 & w2 & H2 & H).
  apply bind_inv_ok in H as (arm & w3 & H3 & H).
  injection H as <- <-.
  assert (Hk : In (format_metric metric_name a) (metric_keys ms)).
  { apply in_flat_map. exists (metric_name, ats). split; [exact Hin|].
    apply in_map, list_elem_of_In. now apply list_elem_of_lookup_2 in Hj. }
  pose proof (queries_key _ _ _ _ _ _ _ H3 (create_metric_files_nil _ _ _ _ H2 _ Hk)) as Ha.
  rewrite drop_0, take_ge in Ha.
  - rewrite map_lookup_imap, Ha. cbn.
    now rewrite str_contains_ndcg_format, Hndcg.
  - unfold queries. rewrite length_zip_with. lia.
Qed.

End OneKey.

End ComputeTestValues.

(** C10: when [compute_test] returns, every configured metric and cutoff
    has its file [{epoch}.model.predict.{metric}_{at}.txt], whatever was
    there before; the file holds, one per line, the values collected for
    that key. For a metric whose name contains "ndcg" the returned dict maps
    the key to the mean of these values, and the values are those appended
    query by query: when the configured keys are pairwise distinct and the
    metric function returns, for each query, one row with one column per
    cutoff, they are, in query order, the cutoff's column of the metric of
    each query, computed from the scores of the query and its labels. For
    any other metric nothing was collected, the file is empty and the key is
    absent from the dict. The dict has no other keys. *)
Theorem compute_test_exports_ndcg_only `{C : Collaborators}
  ms model dl out e w (d : gmap string float) w' :
  compute_test ms model dl out e w = (Ok d, w') ->
  (forall metric_name ats at_,
     In (metric_name, ats) ms -> In at_ ats ->
     exists vals,
       w_fs w' !! metric_path out e (format_metric metric_name at_)
         = Some (map Line (concat vals)) /\
       if str_contains "ndcg" metric_name
       then d !! format_metric metric_name at_ = Some (np_mean vals) /\
            forall metric_func j,
              metrics_module metric_name = Some metric_func ->
              NoDup (metric_keys ms) ->
              ats !! j = Some at_ ->
              Forall (fun q => map length (per_query_rows metric_func ats model q)
                               = [length ats]) (queries dl) ->
              vals = map (fun q => column (per_query_rows metric_func ats model q) j)
                         (queries dl)
       else vals = [] /\ d !! format_metric metric_name at_ = None) /\
  (forall k, is_Some (d !! k) ->
     exists metric_name ats at_,
       In (metric_name, ats) ms /\ In at_ ats /\ k = format_metric metric_name at_ /\
       str_contains "ndcg" metric_name = true).
Proof.
  intros (arm0 & w0 & arm & Hc & Hloop & [H1 H2] & ->)%compute_test_arm. split.
  - intros metric_name ats at_ Hin Hat.
    assert (Hk : In (format_metric metric_name at_) (metric_keys ms)).
    { apply in_flat_map. exists (metric_name, ats). split; [exact Hin|now apply in_map]. }
    destruct (H2 _ Hk) as (vals & Ha & Hf & Hn). exists vals. split; [exact Hf|].
    rewrite map_lookup_imap, Ha. cbn. rewrite str_contains_ndcg_format in *.
    destruct (str_contains "ndcg" metric_name) eqn:Hndcg; [|auto].
    split; [reflexivity|]. intros metric_func j Hreg Hnd Hj Hshape.
    pose proof (queries_key out e ms model dl metric_name ats metric_func j at_
                  Hnd Hin Hndcg Hreg Hj Hshape _ _ _ _ _ _ _ Hloop
                  (create_metric_files_nil out e _ _ _ _ Hc _ Hk)) as Hv.
    rewrite drop_0, take_ge in Hv.
    + rewrite Ha in Hv. now injection Hv.
    + unfold queries. rewrite length_zip_with. lia.
  - intros k [v Hv]. rewrite map_lookup_imap in Hv.
    destruct (arm !! k) as [l|] eqn:Hl; [|discriminate]. cbn in Hv.
    destruct (str_contains "ndcg" k) eqn:Hndcg; [|discriminate].
    assert (Hk : In k (metric_keys ms)) by (apply H1; eauto).
    apply in_flat_map in Hk as ([metric_name ats] & Hin & (a & <- & Ha)%in_map_iff).
    exists metric_name, ats, a. rewrite str_contains_ndcg_format in Hndcg. auto.
Qed.

(** On the toy collaborators with the metrics ndcg at 1 and 5 and mrr at 1,
    and two queries scored 2 and 4: the file of ndcg_5 holds the two values
    of the queries and ndcg_5 is returned with their mean; the file of mrr_1
    is left empty and mrr_1 is not returned. *)
Lemma compute_test_exports_ndcg_only_witness :
  exists d w',
    compute_test (C := Toy.collaborators) (metrics (Toy.cfg "")) 1%float Toy.valid_dl
                 "out" 3 (Toy.world0 None) = (Ok d, w') /\
    w_fs w' !! "out/3.model.predict.ndcg_5.txt" = Some [Line 2; Line 4] /\
    d !! "ndcg_5" = Some 3%float /\
    w_fs w' !! "out/3.model.predict.mrr_1.txt" = Some [] /\
    d !! "mrr_1" = None.
Proof.
  assert (B : is_ok (compute_test (C := Toy.collaborators) (metrics (Toy.cfg "")) 1%float
                       Toy.valid_dl "out" 3 (Toy.world0 None)).1 = true)
    by (vm_compute; reflexivity).
  remember (compute_test (C := Toy.collaborators) (metrics (Toy.cfg "")) 1%float
              Toy.valid_dl "out" 3 (Toy.world0 None)) as R eqn:H.
  destruct R as [[d|x] w']; [|discriminate B].
  symmetry in H. exists d, w'. split; [reflexivity|].
  destruct (compute_test_exports_ndcg_only _ _ _ _ _ _ _ _ H) as [Hall _].
  destruct (Hall "mrr" [1] 1 ltac:(cbn; tauto) ltac:(cbn; tauto))
    as (vals & Hf & -> & Hd).
  destruct (Hall "ndcg" [1; 5] 5 ltac:(cbn; tauto) ltac:(cbn; tauto))
    as (vals' & Hf' & Hd' & Hvals).
  assert (Hnd : NoDup (metric_keys (metrics (Toy.cfg ""))))
    by (apply (bool_decide_unpack _); vm_compute; exact I).
  rewrite (Hvals Toy.prefix_sum_metric 1%nat eq_refl Hnd eq_refl
             ltac:(repeat constructor)) in Hf', Hd'.
  split; [exact Hf'|]. split; [exact Hd'|]. split; [exact Hf|exact Hd].
Defined.


(** ** compute_metrics: the value under one key *)

Section ComputeMetricsValues.
Context `{C : Collaborators}.

Lemma dict_update_zip_other names : forall (d : gmap string float) values k,
  ~ In k names -> dict_update_zip d names values !! k = d !! k.
Proof.
  induction names as [|n names IH]; intros d [|v values] k Hk; try reflexivity.
  cbn [dict_update_zip]. rewrite IH by (intros ?; apply Hk; now right).
  apply lookup_insert_ne. intros ->. apply Hk. now left.
Qed.

Lemma dict_update_zip_key names : forall (d : gmap string float) values j k v,
  NoDup names -> names !! j = Some k -> values !! j = Some v ->
  dict_update_zip d names values !! k = Some v.
Proof.
  induction names as [|n names IH]; intros d [|v0 values] [|j] k v Hnd Hk Hv;
    try discriminate; apply NoDup_cons in Hnd as [Hn Hnd]; cbn [dict_update_zip].
  - injection Hk as ->. injection Hv as ->.
    rewrite dict_update_zip_other by (now rewrite <- list_elem_of_In).
    apply lookup_insert_eq.
  - exact (IH _ _ j k v Hnd Hk Hv).
Qed.

Lemma compute_metrics_from_other ms model dl : forall acc d k,
  compute_metrics_from acc ms model dl = Ok d ->
  ~ In k (metric_keys ms) -> d !! k = acc !! k.
Proof.
  induction ms as [|[metric_name ats] ms IH]; intros acc d k H Hk.
  - now injection H as <-.
  - cbn [compute_metrics_from] in H.
    destruct (metrics_module metric_name) as [metric_func|]; [|discriminate].
    destruct (metric_on_epoch _ model dl) as [values|x]; [|discriminate].
    cbn [metric_keys flat_map fst snd] in Hk. rewrite in_app_iff in Hk.
    rewrite (IH _ _ k H) by tauto. apply dict_update_zip_other. tauto.
Qed.

Lemma compute_metrics_from_key ms model dl : forall acc d metric_name ats metric_func
    values j a v,
  compute_metrics_from acc ms model dl = Ok d ->
  NoDup (metric_keys ms) ->
  In (metric_name, ats) ms ->
  metrics_module metric_name = Some metric_func ->
  metric_on_epoch (fun s y => metric_func s y ats) model dl = Ok values ->
  ats !! j = Some a -> values !! j = Some v ->
  d !! format_metric metric_name a = Some v.
Proof.
  induction ms as [|[n0 ats0] ms IH];
    intros acc d metric_name ats metric_func values j a v H Hnd Hin Hreg Hval Hj Hv;
    [destruct Hin|].
  cbn [compute_metrics_from] in H.
  cbn [metric_keys flat_map fst snd] in Hnd.
  apply NoDup_app in Hnd as (Hnd0 & Hdisj & Hnd).
  assert (Hkey : In (format_metric metric_name a) (map (format_metric metric_name) ats)).
  { apply in_map. apply list_elem_of_In. now apply list_elem_of_lookup_2 in Hj. }
  destruct Hin as [[= -> ->]|Hin].
  - rewrite Hreg, Hval in H.
    rewrite (compute_metrics_from_other _ _ _ _ _ _ H).
    + apply (dict_update_zip_key _ _ _ j); [exact Hnd0| |exact Hv].
      rewrite lookup_map, Hj. reflexivity.
    + intros Hin'. apply (Hdisj (format_metric metric_name a));
        now apply list_elem_of_In.
  - destruct (metrics_module n0) as [f0|]; [|discriminate].
    destruct (metric_on_epoch _ model dl) as [values0|x]; [|discriminate].
    exact (IH _ _ _ _ _ _ j a v H Hnd Hin Hreg Hval Hj Hv).
Qed.

Lemma flat_map_flat_map {A B D} (f : B -> list D) (g : A -> list B) (l : list A) :
  flat_map f (flat_map g l) = concat (map (fun x => flat_map f (g x)) l).
Proof.
  induction l as [|x l IH]; [reflexivity|].
  cbn. now rewrite flat_map_app, IH.
Qed.

Lemma concat_singletons {A B} (g : A -> B) (l : list A) :
  concat (map (fun x => [g x]) l) = map g l.
Proof. induction l as [|x l IH]; cbn; [|rewrite IH]; reflexivity. Qed.

Lemma single_row (t : tensor2) (c : nat) :
  map length t = [c] -> t = [hd [] t] /\ length (hd [] t) = c.
Proof. destruct t as [|r [|r' t]]; try discriminate. now intros [= <-]. Qed.

Lemma rows_of_singletons {A} (R : A -> tensor2) (qs : list A) (c : nat) :
  Forall (fun q => map length (R q) = [c]) qs ->
  flat_map R qs = map (fun q => hd [] (R q)) qs.
Proof.
  induction 1 as [|q qs Hq Hqs IH]; [reflexivity|].
  cbn [flat_map map]. rewrite IH.
  destruct (single_row _ _ Hq) as [Hr _]. rewrite Hr at 1. reflexivity.
Qed.

Lemma columns_of_singletons {A} (R : A -> tensor2) (qs : list A) (c j : nat) :
  Forall (fun q => map length (R q) = [c]) qs ->
  map (fun q => column (R q) j) qs = map (fun q => [nth j (hd [] (R q)) nan]) qs.
Proof.
  induction 1 as [|q qs Hq Hqs IH]; [reflexivity|].
  cbn [map]. rewrite IH. f_equal.
  destruct (single_row _ _ Hq) as [Hr _]. rewrite Hr at 1. reflexivity.
Qed.

Lemma map_ext_Forall_eq {A B} (f g : A -> B) (l : list A) :
  Forall (fun x => f x = g x) l -> map f l = map g l.
Proof. induction 1 as [|x l Hx Hl IH]; cbn; [|rewrite Hx, IH]; reflexivity. Qed.

Lemma metric_on_epoch_batches metric model dl :
  batches dl <> [] ->
  metric_on_epoch metric model dl
  = Ok (torch_mean_dim0 (concat (map (metric_on_batch metric model) (batches dl)))).
Proof. unfold metric_on_epoch. now destruct (batches dl). Qed.

Lemma flat_map_concat {A B} (f : A -> list B) (l : list (list A)) :
  flat_map f (concat l) = concat (map (flat_map f) l).
Proof.
  induction l as [|x l IH]; [reflexivity|].
  cbn. now rewrite flat_map_app, IH.
Qed.

Lemma map_Forall2_eq {A B D} (f : A -> D) (g : B -> D) (l : list A) (k : list B) :
  Forall2 (fun a b => f a = g b) l k -> map f l = map g k.
Proof. induction 1 as [|a b l k Hab Hlk IH]; cbn; [|rewrite Hab, IH]; reflexivity. Qed.

Section OneMetric.
Variables (model : Model) (dl : loader) (ats : list Z) (metric_func : metric_fn).
Variable parts : list (list (tensor2 * tensor1)).
Hypothesis Hshape :
  Forall (fun q => map length (per_query_rows metric_func ats model q) = [length ats])
         (queries dl).
Hypothesis Hbatch :
  Forall2 (fun b qs =>
             metric_func (model_score model (b_x b) (pad_mask (b_y b)) (Some (b_idx b)))
                         (b_y b) ats
             = flat_map (per_query_rows metric_func ats model) qs)
          (batches dl) parts.
Hypothesis Hdata : queries dl = concat parts.
Hypothesis Hne : queries dl <> [].

Lemma batches_nonempty : batches dl <> [].
Proof.
  intros Hb. apply Hne. rewrite Hdata.
  pose proof (Forall2_length _ _ _ Hbatch) as Hlen. rewrite Hb in Hlen.
  now destruct parts.
Qed.

(** The rows that the batched evaluator concatenates are the rows of the
    queries, one each: [metric_on_batch] passes the batch's features, its
    padding mask, its indices and its labels to the collaborators. *)
Lemma batched_rows :
  concat (map (metric_on_batch (fun s y => metric_func s y ats) model) (batches dl))
  = map (fun q => hd [] (per_query_rows metric_func ats model q)) (queries dl).
Proof.
  rewrite <- (rows_of_singletons _ _ _ Hshape), Hdata, flat_map_concat.
  f_equal. apply map_Forall2_eq. unfold metric_on_batch. exact Hbatch.
Qed.

Lemma batched_ncols :
  ncols (map (fun q => hd [] (per_query_rows metric_func ats model q)) (queries dl))
  = length ats.
Proof.
  destruct (queries dl) as [|q qs]; [contradiction|].
  apply Forall_cons in Hshape as [Hq _]. unfold ncols. cbn [map hd].
  now destruct (single_row _ _ Hq).
Qed.

(** Per cutoff, the batched evaluator takes the mean of the cutoff's column
    of the concatenated batch results, and this column holds the values
    that the per-query evaluator collects, in the same order. *)
Lemma batched_value j :
  (j < length ats)%nat ->
  exists values,
    metric_on_epoch (fun s y => metric_func s y ats) model dl = Ok values /\
    values !! j
    = Some (mean (column (concat (map (metric_on_batch (fun s y => metric_func s y ats)
                                                       model) (batches dl))) j)) /\
    column (concat (map (metric_on_batch (fun s y => metric_func s y ats) model)
                        (batches dl))) j
    = concat (map (fun q => column (per_query_rows metric_func ats model q) j)
                  (queries dl)).
Proof.
  intros Hj. rewrite (metric_on_epoch_batches _ _ _ batches_nonempty).
  eexists. split; [reflexivity|]. rewrite batched_rows. split.
  - unfold torch_mean_dim0, transpose.
    rewrite batched_ncols, !lookup_map, lookup_seq_lt by exact Hj. reflexivity.
  - rewrite (columns_of_singletons _ _ _ j Hshape), concat_singletons.
    unfold column. now rewrite List.map_map.
Qed.

End OneMetric.

End ComputeMetricsValues.

(** C6, as the code has it. For a configured metric whose name contains
    "ndcg", the per-query path ([compute_test]) and the batched path
    ([compute_metrics]) take, per cutoff, a mean over the same values in the
    same order, when: the configured keys are pairwise distinct; the
    loader's batches hold the dataset's queries, at least one, in order,
    each batch its part (the batch may pad its slates); the collaborators
    give on every batch - the metric function on the scores that the model
    gives for the batch's features, padding mask and indices, and on the
    batch's labels - the rows that they give for the queries of the batch
    taken one by one - the metric function on the scores that the model
    gives for the query's features with NaN zeroed, its padding mask and no
    indices, and on the query's labels; and each of these per-query results
    is one row with one column per cutoff. Then, when both paths return:
    the column that the batched path averages holds the values that the
    per-query path collected; the batched path returns the mean of that
    column, the per-query path the mean of its collected arrays: two means
    over the same values in the same order. How [torch.mean] and [np.mean]
    round their sums is not modelled, so that nothing is stated of the last
    bits of the two values. *)
Theorem aggregation_paths_agree `{C : Collaborators}
  ms model dl out e w metric_name ats metric_func
  (parts : list (list (tensor2 * tensor1)))
  (d1 d2 : gmap string float) w' :
  NoDup (metric_keys ms) ->
  In (metric_name, ats) ms ->
  str_contains "ndcg" metric_name = true ->
  metrics_module metric_name = Some metric_func ->
  Forall (fun q => map length (per_query_rows metric_func ats model q) = [length ats])
         (queries dl) ->
  Forall2 (fun b qs =>
             metric_func (model_score model (b_x b) (pad_mask (b_y b)) (Some (b_idx b)))
                         (b_y b) ats
             = flat_map (fun q => metric_func
                                    (model_score model (nan_to_zero [q.1]) (pad_mask [q.2])
                                                 None)
                                    [q.2] ats) qs)
          (batches dl) parts ->
  queries dl = concat parts ->
  queries dl <> [] ->
  compute_metrics ms model dl = Ok d1 ->
  compute_test ms model dl out e w = (Ok d2, w') ->
  forall j a, ats !! j = Some a ->
    let batched :=
      column (concat (map (metric_on_batch (fun s y => metric_func s y ats) model)
                          (batches dl))) j in
    let collected :=
      map (fun q => column (per_query_rows metric_func ats model q) j) (queries dl) in
    batched = concat collected /\
    d1 !! format_metric metric_name a = Some (mean batched) /\
    d2 !! format_metric metric_name a = Some (np_mean collected).
Proof.
  intros Hnd Hin Hndcg Hreg Hshape Hbatch Hdata Hne H1 H2 j a Hj batched collected.
  destruct (batched_value model dl ats metric_func parts Hshape Hbatch Hdata Hne j
              (lookup_lt_Some _ _ _ Hj)) as (values & Hval & Hv & Hcol).
  pose proof (compute_metrics_from_key _ _ _ _ _ _ _ _ _ j a _ H1 Hnd Hin Hreg Hval Hj Hv)
    as Hd1.
  pose proof (compute_test_key out e ms model dl metric_name ats metric_func j a
                Hnd Hin Hndcg Hreg Hj Hshape w d2 w' H2) as Hd2.
  split; [exact Hcol|]. split; [exact Hd1|exact Hd2].
Qed.

(** On collaborators whose scorer reads the mask and the indices and whose
    metric reads the labels, with a model of weight 1 and positional weight
    0, and a loader whose one batch pads the second of two queries: both
    paths return 4 for [ndcg_5], the mean of 1*1 + 2*2 and 3*1. *)
Lemma aggregation_paths_agree_witness :
  exists d1 d2 w',
    compute_metrics (C := Padded.collaborators) [("ndcg", [1; 5])] (1, 0)%float Padded.dl
      = Ok d1 /\
    compute_test (C := Padded.collaborators) [("ndcg", [1; 5])] (1, 0)%float Padded.dl
                 "out" 0 (Padded.world0 (1, 0)%float) = (Ok d2, w') /\
    d1 !! "ndcg_5" = Some 4%float /\ d2 !! "ndcg_5" = Some 4%float.
Proof.
  assert (B1 : is_ok (compute_metrics (C := Padded.collaborators) [("ndcg", [1; 5])]
                        (1, 0)%float Padded.dl) = true) by (vm_compute; reflexivity).
  assert (B2 : is_ok (compute_test (C := Padded.collaborators) [("ndcg", [1; 5])]
                        (1, 0)%float Padded.dl "out" 0 (Padded.world0 (1, 0)%float)).1
               = true) by (vm_compute; reflexivity).
  remember (compute_metrics (C := Padded.collaborators) [("ndcg", [1; 5])]
              (1, 0)%float Padded.dl) as r1 eqn:H1.
  remember (compute_test (C := Padded.collaborators) [("ndcg", [1; 5])]
              (1, 0)%float Padded.dl "out" 0 (Padded.world0 (1, 0)%float)) as r2 eqn:H2.
  destruct r1 as [d1|x]; [|discriminate B1].
  destruct r2 as [[d2|x] w']; [|discriminate B2].
  symmetry in H1, H2.
  assert (Hnd : NoDup (metric_keys [("ndcg", [1; 5])]))
    by (apply (bool_decide_unpack _); vm_compute; exact I).
  assert (Hne : queries Padded.dl <> []) by (vm_compute; discriminate).
  destruct (aggregation_paths_agree (C := Padded.collaborators)
              [("ndcg", [1; 5])] (1, 0)%float Padded.dl
              "out" 0 (Padded.world0 (1, 0)%float) "ndcg" [1; 5] Padded.gain_metric
              [Padded.queries] d1 d2 w'
              Hnd ltac:(cbn; tauto) eq_refl eq_refl
              ltac:(repeat constructor)
              ltac:(constructor; [vm_compute; reflexivity|constructor])
              ltac:(vm_compute; reflexivity) Hne H1 H2
              1%nat 5 eq_refl) as (_ & Hv1 & Hv2).
  exists d1, d2, w'. split; [reflexivity|]. split; [reflexivity|].
  split; [exact Hv1|exact Hv2].
Defined.

(** C6 as stated fails: with a NaN among the features the batched path
    scores the NaN and returns NaN for [ndcg_1], the per-query path zeroes
    it and returns 0.5, and NaN is within no tolerance of 0.5. *)
Lemma aggregation_paths_differ_on_nan :
  match compute_metrics (C := Toy.collaborators) (metrics (Toy.cfg "")) 1%float
          (Toy.mk_loader [[nan; 1%float]]),
        (compute_test (C := Toy.collaborators) (metrics (Toy.cfg "")) 1%float
           (Toy.mk_loader [[nan; 1%float]]) "out" 0 (Toy.world0 None)).1 with
  | Ok d1, Ok d2 => d1 !! "ndcg_1" = Some nan /\ d2 !! "ndcg_1" = Some 0.5%float
  | _, _ => False
  end /\
  forall tolerance, within tolerance nan 0.5 = false.
Proof.
  split; [vm_compute; split; reflexivity|].
  intros tolerance. unfold within. rewrite FloatAxioms.leb_spec.
  change (Prim2SF (abs (nan - 0.5))) with S754_nan. reflexivity.
Qed.

(** * Further properties *)

(** ** compute_metrics: keys and failures *)

Section ComputeMetricsEdges.
Context `{C : Collaborators}.

Lemma dict_update_zip_dom names : forall (d : gmap string float) values k,
  is_Some (dict_update_zip d names values !! k) -> In k names \/ is_Some (d !! k).
Proof.
  induction names as [|n names IH]; intros d [|v values] k H; try (now right).
  cbn [dict_update_zip] in H. apply IH in H as [H|H]; [left; now right|].
  destruct (decide (n = k)) as [->|Hne]; [left; now left|].
  rewrite lookup_insert_ne in H by exact Hne. now right.
Qed.

Lemma compute_metrics_from_dom ms model dl : forall acc d k,
  compute_metrics_from acc ms model dl = Ok d ->
  is_Some (d !! k) -> In k (metric_keys ms) \/ is_Some (acc !! k).
Proof.
  induction ms as [|[metric_name ats] ms IH]; intros acc d k H Hk.
  - injection H as <-. now right.
  - cbn [compute_metrics_from] in H.
    destruct (metrics_module metric_name) as [metric_func|]; [|discriminate].
    destruct (metric_on_epoch _ model dl) as [values|x]; [|discriminate].
    cbn [metric_keys flat_map fst snd]. rewrite in_app_iff.
    destruct (IH _ _ k H Hk) as [Hin|Hacc]; [tauto|].
    apply dict_update_zip_dom in Hacc. tauto.
Qed.


End ComputeMetricsEdges.

(** X1: every key of the dict that [compute_metrics] returns is the key
    ["{metric}_{at}"] of a configured metric and one of its cutoffs. *)
Theorem compute_metrics_keys `{C : Collaborators} ms model dl (d : gmap string float) k :
  compute_metrics ms model dl = Ok d ->
  is_Some (d !! k) ->
  exists metric_name ats at_,
    In (metric_name, ats) ms /\ In at_ ats /\ k = format_metric metric_name at_.
Proof.
  intros H Hk. destruct (compute_metrics_from_dom _ _ _ _ _ k H Hk) as [Hin|Hacc].
  - apply in_flat_map in Hin as ([metric_name ats] & Hin & (a & <- & Ha)%in_map_iff).
    now exists metric_name, ats, a.
  - rewrite lookup_empty in Hacc. now destruct Hacc.
Qed.

Lemma compute_metrics_keys_witness :
  exists d,
    compute_metrics (C := Toy.collaborators) (metrics (Toy.cfg "")) 1%float Toy.valid_dl
      = Ok d /\
    forall k, is_Some (d !! k) ->
      exists metric_name ats at_,
        In (metric_name, ats) (metrics (Toy.cfg "")) /\ In at_ ats /\
        k = format_metric metric_name at_.
Proof.
  assert (B : is_ok (compute_metrics (C := Toy.collaborators) (metrics (Toy.cfg ""))
                       1%float Toy.valid_dl) = true) by (vm_compute; reflexivity).
  remember (compute_metrics (C := Toy.collaborators) (metrics (Toy.cfg "")) 1%float
              Toy.valid_dl) as r eqn:H.
  destruct r as [d|x]; [|discriminate B]. symmetry in H.
  exists d. split; [reflexivity|].
  intros k. exact (compute_metrics_keys _ _ _ d k H).
Defined.



(** X3: on a loader without batches [compute_metrics] returns the empty
    dict when no metric is configured, and otherwise fails on the first
    configured metric: with AttributeError when its name is unknown, else
    with the RuntimeError of concatenating no tensors. *)
Theorem compute_metrics_no_batches `{C : Collaborators} ms model dl :
  batches dl = [] ->
  compute_metrics ms model dl =
  match ms with
  | [] => Ok ∅
  | (metric_name, _) :: _ =>
      match metrics_module metric_name with
      | None => Raise (AttributeError metric_name)
      | Some _ => Raise RuntimeError
      end
  end.
Proof.
  intros Hb. unfold compute_metrics. destruct ms as [|[metric_name ats] ms];
    [reflexivity|].
  cbn [compute_metrics_from].
  destruct (metrics_module metric_name) as [metric_func|]; [|reflexivity].
  unfold metric_on_epoch. now rewrite Hb.
Qed.

Lemma compute_metrics_no_batches_witness :
  compute_metrics (C := Toy.collaborators) (metrics (Toy.cfg "")) 1%float Toy.empty_dl
  = Raise RuntimeError.
Proof.
  exact (compute_metrics_no_batches (C := Toy.collaborators) (metrics (Toy.cfg ""))
           1%float Toy.empty_dl eq_refl).
Defined.

(** ** The scheduler step and loss_batch without an optimizer *)


(** X5: whatever optimizer flag and clipping norm it is called with,
    [loss_batch] returns the loss of the model as it was before the call and
    the number of examples of the batch; called without an optimizer it
    changes nothing: no gradient step, no event, the same model. *)
Theorem loss_batch_without_optimizer `{C : Collaborators} b g g' opt w :
  loss_batch b g false w
    = (Ok (loss_func (model_call (w_model w) (b_x b) (pad_mask (b_y b)) (b_idx b)) (b_y b),
           length (b_x b)), w) /\
  (loss_batch b g opt w).1 = (loss_batch b g' false w).1.
Proof.
  rewrite !loss_batch_run. cbn [fst]. split; [|reflexivity].
  destruct w as [m o sc fs t]. unfold batch_model, batch_optimizer, batch_events.
  cbn. now rewrite app_nil_r.
Qed.

(** ** fit: completion and failure *)

Section FitOutcomes.
Context `{C : Collaborators}.

Lemma fit_loop_last cfg g out tr va todo e es w es1 w1 fr es2 stop w2 fr0 :
  run_epochs cfg g out tr va todo es w = Some (es1, w1) ->
  fit_epoch cfg g out tr va es1 e w1 = (Ok (fr, es2, stop), w2) ->
  fit_loop cfg g out tr va (todo ++ [e]) fr0 es w = (Ok (Some fr), w2).
Proof.
  revert es w fr0. induction todo as [|e0 todo IH]; intros es w fr0 Hrun He.
  - injection Hrun as -> ->. cbn [app fit_loop].
    erewrite bind_ok by exact He. now destruct stop.
  - cbn [run_epochs] in Hrun.
    destruct (fit_epoch cfg g out tr va es e0 w) as [[[[fr' es'] [|]]|x] w'] eqn:H0;
      try discriminate.
    cbn [app fit_loop]. erewrite bind_ok by exact H0. now apply IH.
Qed.

Lemma fit_loop_fails cfg g out tr va todo e rest es w es1 w1 x w2 fr0 :
  run_epochs cfg g out tr va todo es w = Some (es1, w1) ->
  fit_epoch cfg g out tr va es1 e w1 = (Raise x, w2) ->
  fit_loop cfg g out tr va (todo ++ e :: rest) fr0 es w = (Raise x, w2).
Proof.
  revert es w fr0. induction todo as [|e0 todo IH]; intros es w fr0 Hrun He.
  - injection Hrun as -> ->. cbn [app]. now apply fit_loop_raises.
  - cbn [run_epochs] in Hrun.
    destruct (fit_epoch cfg g out tr va es e0 w) as [[[[fr' es'] [|]]|x'] w'] eqn:H0;
      try discriminate.
    cbn [app fit_loop]. erewrite bind_ok by exact H0. now apply IH.
Qed.

End FitOutcomes.

(** X6: when the turns before the last one complete without stopping and
    the last turn completes, [fit] writes the checkpoint with the model as
    the last turn left it, closes the writers and returns the dict of the
    last turn; its entry [epochs] is then [epochs - 1], the index of the last
    epoch and not the number of epochs run. *)
Theorem fit_completes `{C : Collaborators}
  (epochs : Z) cfg g patience out tb tr va w es1 w1 fr es2 stop w2 :
  1 <= epochs ->
  run_epochs cfg g out tr va (seq 0 (Z.to_nat epochs - 1)) (es_new patience)
             (fit_start tb w) = Some (es1, w1) ->
  fit_epoch cfg g out tr va es1 (Z.to_nat epochs - 1) w1 = (Ok (fr, es2, stop), w2) ->
  fit epochs cfg g patience out tb tr va w
    = (Ok (fit_result (get_num_params (w_model w)) fr), fit_finish out w2) /\
  fit_result (get_num_params (w_model w)) fr !! "epochs" = Some (RInt (epochs - 1)) /\
  w_fs (fit_finish out w2) !! os_path_join out "model.pkl" = Some [StateDict (w_model w2)].
Proof.
  intros Hep Hrun He.
  pose proof (fit_epoch_ok _ _ _ _ _ _ _ _ _ _ _ _ He) as (_ & _ & _ & _ & Hfr & _).
  assert (Hseq : seq 0 (Z.to_nat epochs)
                 = (seq 0 (Z.to_nat epochs - 1) ++ [(Z.to_nat epochs - 1)%nat])%list).
  { replace (Z.to_nat epochs) with (S (Z.to_nat epochs - 1)) at 1 by lia.
    now rewrite seq_S. }
  rewrite fit_unfold, Hseq.
  rewrite (fit_loop_last _ _ _ _ _ _ _ _ _ _ _ _ _ _ _ None Hrun He).
  split; [reflexivity|]. split; [|apply lookup_insert_eq].
  unfold fit_result. rewrite Hfr.
  replace (Z.of_nat (Z.to_nat epochs - 1)) with (epochs - 1) by lia. reflexivity.
Qed.

Lemma fit_completes_witness :
  exists fr w2,
    fit 2 (Toy.cfg "ndcg_1") (PyFloat 1) PyNone "out" "tb" Toy.train_dl Toy.valid_dl
        (Toy.world0 None) = (Ok (fit_result 1 fr), fit_finish "out" w2) /\
    fit_result 1 fr !! "epochs" = Some (RInt 1).
Proof.
  assert (B : match run_epochs (Toy.cfg "ndcg_1") (PyFloat 1) "out" Toy.train_dl
                      Toy.valid_dl (seq 0 1) (es_new PyNone)
                      (fit_start "tb" (Toy.world0 None)) with
              | Some (es1, w1) =>
                  is_ok (fit_epoch (Toy.cfg "ndcg_1") (PyFloat 1) "out" Toy.train_dl
                           Toy.valid_dl es1 1 w1).1
              | None => false
              end = true) by (vm_compute; reflexivity).
  remember (run_epochs (Toy.cfg "ndcg_1") (PyFloat 1) "out" Toy.train_dl Toy.valid_dl
              (seq 0 1) (es_new PyNone) (fit_start "tb" (Toy.world0 None)))
    as r eqn:Hrun.
  destruct r as [[es1 w1]|]; [|discriminate B].
  remember (fit_epoch (Toy.cfg "ndcg_1") (PyFloat 1) "out" Toy.train_dl Toy.valid_dl
              es1 1 w1) as R eqn:Hep.
  destruct R as [[[[fr es2] stop]|x] w2]; [|discriminate B].
  symmetry in Hrun, Hep.
  destruct (fit_completes 2 (Toy.cfg "ndcg_1") (PyFloat 1) PyNone "out" "tb"
              Toy.train_dl Toy.valid_dl (Toy.world0 None) es1 w1 fr es2 stop w2
              ltac:(lia) Hrun Hep) as (Hfit & Hd & _).
  exists fr, w2. split; [exact Hfit|exact Hd].
Defined.

(** X7: when a turn of the loop raises, after turns that completed without
    stopping, [fit] raises the same exception and does nothing more: the
    world is left as the failing turn left it, so the checkpoint is not
    written and the telemetry writers are not closed. *)
Theorem fit_propagates_failure `{C : Collaborators}
  (epochs : Z) cfg g patience out tb tr va w (e : nat) es1 w1 x w2 :
  Z.of_nat e < epochs ->
  run_epochs cfg g out tr va (seq 0 e) (es_new patience) (fit_start tb w) = Some (es1, w1) ->
  fit_epoch cfg g out tr va es1 e w1 = (Raise x, w2) ->
  fit epochs cfg g patience out tb tr va w = (Raise x, w2).
Proof.
  intros He Hrun Hep.
  assert (Hseq : seq 0 (Z.to_nat epochs)
                 = (seq 0 e ++ e :: seq (S e) (Z.to_nat epochs - S e))%list).
  { replace (Z.to_nat epochs) with (e + S (Z.to_nat epochs - S e))%nat at 1 by lia.
    rewrite seq_app. reflexivity. }
  rewrite fit_unfold, Hseq.
  now rewrite (fit_loop_fails _ _ _ _ _ _ _ _ _ _ _ _ _ _ None Hrun Hep).
Qed.

(** A run whose first epoch fails on the monitored metric: the checkpoint
    is not written. *)
Lemma fit_propagates_failure_witness :
  exists w2,
    fit 3 (Toy.cfg "nope") (PyFloat 1) PyNone "out" "tb" Toy.train_dl Toy.valid_dl
        (Toy.world0 (Some true)) = (Raise (KeyError "nope"), w2) /\
    w_fs w2 !! "out/model.pkl" = None.
Proof.
  assert (B : match (fit_epoch (Toy.cfg "nope") (PyFloat 1) "out" Toy.train_dl
                       Toy.valid_dl (es_new PyNone) 0
                       (fit_start "tb" (Toy.world0 (Some true)))) with
              | (Raise (KeyError k), w2) =>
                  String.eqb k "nope" &&
                  match w_fs w2 !! "out/model.pkl" with Some _ => false | None => true end
              | _ => false
              end = true) by (vm_compute; reflexivity).
  remember (fit_epoch (Toy.cfg "nope") (PyFloat 1) "out" Toy.train_dl Toy.valid_dl
              (es_new PyNone) 0 (fit_start "tb" (Toy.world0 (Some true)))) as R eqn:Hep.
  destruct R as [[r|[| |k| | |]] w2]; try discriminate B.
  apply andb_prop in B as [Hk Hf]. apply String.eqb_eq in Hk. subst k.
  symmetry in Hep. exists w2. split.
  - exact (fit_propagates_failure 3 (Toy.cfg "nope") (PyFloat 1) PyNone "out" "tb"
             Toy.train_dl Toy.valid_dl (Toy.world0 (Some true)) 0 _ _ _ _
             ltac:(lia) eq_refl Hep).
  - destruct (w_fs w2 !! "out/model.pkl"); [discriminate Hf|reflexivity].
Defined.

(** ** compute_test: what it leaves alone *)

Section ComputeTestFrame.
Context `{C : Collaborators}.
Variables (out : string) (e : nat).

Lemma foldM_rel {A S} (f : S -> A -> M S) (R : world -> world -> Prop) (P : A -> Prop) :
  (forall w, R w w) ->
  (forall w1 w2 w3, R w1 w2 -> R w2 w3 -> R w1 w3) ->
  (forall s a w, P a -> R w (f s a w).2) ->
  forall l s w, Forall P l -> R w (foldM f l s w).2.
Proof.
  intros Hrefl Htrans Hf l. induction l as [|a l IH]; intros s w HP; [apply Hrefl|].
  inversion HP as [|? ? Ha Hl]; subst. cbn [foldM]. unfold mbind, M_bind, bind.
  specialize (Hf s a w Ha). destruct (f s a w) as [[s'|x] w1]; cbn [snd] in *.
  - eapply Htrans; [exact Hf|]. now apply IH.
  - exact Hf.
Qed.

Lemma untouched_refl paths w : untouched_but paths w w.
Proof. repeat split. Qed.

Lemma untouched_trans paths w1 w2 w3 :
  untouched_but paths w1 w2 -> untouched_but paths w2 w3 -> untouched_but paths w1 w3.
Proof.
  intros (Hm & Ho & Hs & Hf) (Hm' & Ho' & Hs' & Hf'). repeat split; try congruence.
  intros p Hp. now rewrite Hf', Hf.
Qed.

Lemma untouched_write paths w p items :
  In p paths -> untouched_but paths w (with_fs (<[p := items]> (w_fs w)) w).
Proof.
  intros Hp. repeat split. intros p' Hp'. cbn. apply lookup_insert_ne.
  intros ->. contradiction.
Qed.

Lemma export_metric_untouched paths arm nr w :
  In (metric_path out e nr.1) paths ->
  untouched_but paths w (export_metric out e arm nr w).2.
Proof.
  intros Hp. destruct nr as [name result]. unfold export_metric. mrun.
  destruct (arm !! name); apply (untouched_write paths w _ _ Hp).
Qed.

Lemma query_metric_untouched ms scores y arm entry w :
  In entry ms ->
  untouched_but (export_paths out e ms) w (query_metric out e scores y arm entry w).2.
Proof.
  destruct entry as [metric_name ats]. intros Hin. unfold query_metric.
  destruct (str_contains "ndcg" metric_name); [|apply untouched_refl].
  destruct (metrics_module metric_name) as [metric_func|]; [|apply untouched_refl].
  apply (foldM_rel _ _ (fun nr => In nr.1 (map (format_metric metric_name) ats)));
    [apply untouched_refl|apply untouched_trans| |].
  - intros arm' nr w' Hnr. apply export_metric_untouched. right.
    apply in_map, in_flat_map. now exists (metric_name, ats).
  - apply (Forall_zip_fst (fun n => In n (map (format_metric metric_name) ats))).
    now apply List.Forall_forall.
Qed.

Lemma compute_test_query_untouched ms model dl arm q w :
  untouched_but (export_paths out e ms) w
                (compute_test_query ms model dl out e arm q w).2.
Proof.
  unfold compute_test_query.
  destruct (X_by_qid dl !! q) as [x|]; [|apply untouched_refl].
  destruct (y_by_qid dl !! q) as [y|]; [|apply untouched_refl].
  unfold mbind, M_bind, bind. cbn [emit append set_fs].
  eapply untouched_trans; [|apply (foldM_rel _ _ (fun entry => In entry ms));
    [apply untouched_refl|apply untouched_trans
    |intros; now apply query_metric_untouched|now apply List.Forall_forall]].
  repeat split. intros p Hp. cbn. apply lookup_insert_ne. intros <-. apply Hp. now left.
Qed.

Lemma fold_truncate_other keys : forall (fs : gmap string (list item)) p,
  ~ In p (map (metric_path out e) keys) ->
  fold_left (fun fs m => <[metric_path out e m := []]> fs) keys fs !! p = fs !! p.
Proof.
  induction keys as [|m keys IH]; intros fs p Hp; [reflexivity|].
  cbn [fold_left]. rewrite IH by (intros ?; apply Hp; now right).
  apply lookup_insert_ne. intros <-. apply Hp. now left.
Qed.

End ComputeTestFrame.

Lemma compute_test_untouched `{C : Collaborators} ms model dl out e w :
  untouched_but (export_paths out e ms) w (compute_test ms model dl out e w).2.
Proof.
  unfold compute_test, mbind, M_bind, bind. cbn [open_w set_fs].
  unfold create_metric_files. rewrite create_metric_files_from.
  fold (with_fs (<[predictions_path out e := []]> (w_fs w)) w).
  set (w1 := with_fs (<[predictions_path out e := []]> (w_fs w)) w).
  set (w2 := with_fs _ w1).
  apply (untouched_trans _ w w1);
    [apply (untouched_write _ w (predictions_path out e) []); now left|].
  apply (untouched_trans _ w1 w2).
  - split; [reflexivity|]. split; [reflexivity|]. split; [reflexivity|].
    intros p Hp. apply fold_truncate_other.
    intros Hin. apply Hp. now right.
  - match goal with
    | |- untouched_but _ _ (let (r, w') := foldM ?f ?l ?s0 w2 in _).2 =>
        pose proof (foldM_rel f (untouched_but (export_paths out e ms))
                      (fun _ => True) (untouched_refl _) (untouched_trans _)
                      (fun arm q w0 _ =>
                         compute_test_query_untouched out e ms model dl arm q w0)
                      l s0 w2 ltac:(now apply List.Forall_forall)) as Hloop;
        destruct (foldM f l s0 w2) as [[arm|x] w3]; exact Hloop
    end.
Qed.

(** X8: whether it returns or raises, [compute_test] leaves the model, the
    optimizer and the scheduler as they are, and changes no file other than
    the epoch's prediction file and the files of the configured keys. *)
Theorem compute_test_touches_only_its_files `{C : Collaborators} ms model dl out e w :
  w_model (compute_test ms model dl out e w).2 = w_model w /\
  w_optimizer (compute_test ms model dl out e w).2 = w_optimizer w /\
  w_scheduler (compute_test ms model dl out e w).2 = w_scheduler w /\
  forall p,
    p <> predictions_path out e ->
    (forall metric_name ats at_,
       In (metric_name, ats) ms -> In at_ ats ->
       p <> metric_path out e (format_metric metric_name at_)) ->
    w_fs (compute_test ms model dl out e w).2 !! p = w_fs w !! p.
Proof.
  destruct (compute_test_untouched ms model dl out e w) as (Hm & Ho & Hs & Hf).
  repeat split; try assumption.
  intros p Hp Hk. apply Hf. intros [Hin|Hin]; [congruence|].
  apply in_map_iff in Hin as (k & <- & Hin).
  apply in_flat_map in Hin as ([metric_name ats] & Hin & (a & <- & Ha)%in_map_iff).
  exact (Hk metric_name ats a Hin Ha eq_refl).
Qed.

(** ** compute_test: the prediction file, and when it returns *)

Section ComputeTestRuns.
Context `{C : Collaborators}.
Variables (out : string) (e : nat).

Lemma query_metrics_keep_predictions scores y ms arm w :
  w_fs (foldM (query_metric out e scores y) ms arm w).2 !! predictions_path out e
  = w_fs w !! predictions_path out e.
Proof.
  apply (foldM_rel _ (fun w w' => w_fs w' !! predictions_path out e
                                  = w_fs w !! predictions_path out e) (fun _ => True));
    [reflexivity|congruence| |now apply List.Forall_forall].
  clear. intros arm [metric_name ats] w _. unfold query_metric.
  destruct (str_contains "ndcg" metric_name); [|reflexivity].
  destruct (metrics_module metric_name) as [metric_func|]; [|reflexivity].
  apply (foldM_rel _ (fun w w' => w_fs w' !! predictions_path out e
                                  = w_fs w !! predictions_path out e) (fun _ => True));
    [reflexivity|congruence| |now apply List.Forall_forall].
  clear. intros arm [name result] w _. unfold export_metric. mrun.
  destruct (arm !! name); cbn [snd w_fs]; apply lookup_insert_ne;
    apply metric_path_not_predictions.
Qed.

(** The loop over the queries appends the scores of each query it
    processes to the prediction file, in order. *)
Lemma queries_predictions ms model dl n : forall s arm w arm' w' l,
  foldM (compute_test_query ms model dl out e) (seq s n) arm w = (Ok arm', w') ->
  w_fs w !! predictions_path out e = Some l ->
  w_fs w' !! predictions_path out e
  = Some (l ++ map Line (concat (flat_map (query_scores model)
                                          (take n (drop s (queries dl))))))%list.
Proof.
  induction n as [|n IH]; intros s arm w arm' w' l H Hl.
  - injection H as <- <-. cbn. now rewrite app_nil_r.
  - cbn [seq foldM] in H. apply bind_inv_ok in H as (arm1 & w1 & H1 & H).
    unfold compute_test_query in H1.
    destruct (X_by_qid dl !! s) as [x|] eqn:Hx; [|discriminate].
    destruct (y_by_qid dl !! s) as [y|] eqn:Hy; [|discriminate].
    assert (Hq : queries dl !! s = Some (x, y)).
    { unfold queries. rewrite lookup_zip_with, Hx. cbn. rewrite Hy. reflexivity. }
    apply bind_inv_ok in H1 as ([] & w2 & H2 & H1).
    apply bind_inv_ok in H1 as ([] & w3 & H3 & H1).
    revert H2 H3. mrun. intros [= <-] [= <-].
    match type of H1 with
    | foldM _ _ _ ?w0 = _ =>
        pose proof (query_metrics_keep_predictions
                      (model_score model (nan_to_zero [x]) (pad_mask [y]) None) y ms arm
                      w0) as Hkeep
    end.
    rewrite H1 in Hkeep. cbn [snd w_fs] in Hkeep.
    rewrite lookup_insert_eq, Hl in Hkeep. cbn [default] in Hkeep.
    rewrite (IH _ _ _ _ _ _ H Hkeep), (drop_S _ _ _ Hq).
    cbn [take flat_map]. unfold query_scores at 2. cbn [fst snd].
    rewrite concat_app, List.map_app, <- app_assoc. reflexivity.
Qed.

(** A loop over the queries that returns has found the labels of each. *)
Lemma queries_labels ms model dl n : forall s arm w arm' w',
  foldM (compute_test_query ms model dl out e) (seq s n) arm w = (Ok arm', w') ->
  forall q, (s <= q < s + n)%nat -> is_Some (y_by_qid dl !! q).
Proof.
  induction n as [|n IH]; intros s arm w arm' w' H q Hq; [lia|].
  cbn [seq foldM] in H. apply bind_inv_ok in H as (arm1 & w1 & H1 & H).
  destruct (decide (q = s)) as [->|Hne].
  - unfold compute_test_query in H1.
    destruct (X_by_qid dl !! s); [|discriminate].
    destruct (y_by_qid dl !! s); [eauto|discriminate].
  - apply (IH _ _ _ _ _ H). lia.
Qed.

Lemma compute_test_loop ms model dl w d w' :
  compute_test ms model dl out e w = (Ok d, w') ->
  exists arm0 w0 arm,
    create_metric_files ms out e (with_fs (<[predictions_path out e := []]> (w_fs w)) w)
      = (Ok arm0, w0) /\
    foldM (compute_test_query ms model dl out e) (seq 0 (length (X_by_qid dl))) arm0 w0
      = (Ok arm, w') /\
    d = map_imap (fun m l => if str_contains "ndcg" m then Some (np_mean l) else None) arm.
Proof.
  unfold compute_test. intros H.
  apply bind_inv_ok in H as ([] & w1 & H1 & H).
  apply bind_inv_ok in H as (arm0 & w2 & H2 & H).
  apply bind_inv_ok in H as (arm & w3 & H3 & H).
  injection H as <- <-. revert H1. mrun. intros [= <-].
  exists arm0, w2, arm. auto.
Qed.

(** A loop whose body keeps an invariant of the accumulator, and fails
    only in given ways, does so as a whole. *)
Lemma foldM_outcome {A S} (f : S -> A -> M S) (I : S -> Prop) (P : A -> Prop)
  (Q : exn -> Prop) :
  (forall s a w, P a -> I s ->
     match (f s a w).1 with Ok s' => I s' | Raise x => Q x end) ->
  forall l s w, Forall P l -> I s ->
    match (foldM f l s w).1 with Ok s' => I s' | Raise x => Q x end.
Proof.
  intros Hf l. induction l as [|a l IH]; intros s w HP HI; [exact HI|].
  inversion HP as [|? ? Ha Hl]; subst.
  cbn [foldM]. unfold mbind, M_bind, bind.
  specialize (Hf s a w Ha HI).
  destruct (f s a w) as [[s1|x] w1]; cbn [fst] in *; [now apply IH|exact Hf].
Qed.

(** Appending under a key that has its entry does not fail. *)
Lemma export_metric_outcome keys (arm : gmap string tensor2) nr w :
  In nr.1 keys ->
  (forall k, In k keys -> is_Some (arm !! k)) ->
  match (export_metric out e arm nr w).1 with
  | Ok arm' => forall k, In k keys -> is_Some (arm' !! k)
  | Raise x => False
  end.
Proof.
  destruct nr as [name result]. cbn [fst]. intros Hin HI.
  unfold export_metric. mrun. destruct (HI name Hin) as [l ->]. cbn [fst].
  intros k Hk. destruct (decide (name = k)) as [<-|Hne].
  - rewrite lookup_insert_eq. eauto.
  - rewrite lookup_insert_ne by exact Hne. auto.
Qed.

Lemma query_metric_outcome ms dl scores y (arm : gmap string tensor2) entry w :
  In entry ms ->
  (forall k, In k (metric_keys ms) -> is_Some (arm !! k)) ->
  match (query_metric out e scores y arm entry w).1 with
  | Ok arm' => forall k, In k (metric_keys ms) -> is_Some (arm' !! k)
  | Raise x => lookup_failure ms dl x
  end.
Proof.
  destruct entry as [metric_name ats]. intros Hin HI. unfold query_metric.
  destruct (str_contains "ndcg" metric_name) eqn:Hndcg; [|exact HI].
  destruct (metrics_module metric_name) as [metric_func|] eqn:Hreg.
  - pose proof (foldM_outcome (export_metric out e)
                  (fun arm => forall k, In k (metric_keys ms) -> is_Some (arm !! k))
                  (fun nr => In nr.1 (metric_keys ms)) (fun _ => False)
                  (fun arm0 nr w0 Hnr HI0 =>
                     export_metric_outcome (metric_keys ms) arm0 nr w0 Hnr HI0)
                  (zip (map (format_metric metric_name) ats)
                       (transpose (metric_func scores [y] ats))) arm w) as Hloop.
    destruct (foldM _ _ arm w) as [[arm'|x] w']; cbn [fst] in *.
    + apply Hloop; [|exact HI].
      apply (Forall_zip_fst (fun n => In n (metric_keys ms))).
      apply List.Forall_forall. intros n Hn. apply in_flat_map.
      now exists (metric_name, ats).
    + exfalso. apply Hloop; [|exact HI].
      apply (Forall_zip_fst (fun n => In n (metric_keys ms))).
      apply List.Forall_forall. intros n Hn. apply in_flat_map.
      now exists (metric_name, ats).
  - right. now exists metric_name, ats.
Qed.

Lemma compute_test_query_outcome ms model dl (arm : gmap string tensor2) q w :
  (q < length (X_by_qid dl))%nat ->
  (forall k, In k (metric_keys ms) -> is_Some (arm !! k)) ->
  match (compute_test_query ms model dl out e arm q w).1 with
  | Ok arm' => forall k, In k (metric_keys ms) -> is_Some (arm' !! k)
  | Raise x => lookup_failure ms dl x
  end.
Proof.
  intros Hq HI. unfold compute_test_query.
  destruct (lookup_lt_is_Some_2 (X_by_qid dl) q Hq) as [x ->].
  destruct (y_by_qid dl !! q) as [y|] eqn:Hy.
  - unfold mbind, M_bind, bind. cbn [emit append set_fs].
    apply (foldM_outcome _ _ (fun entry => In entry ms));
      [|now apply List.Forall_forall|exact HI].
    intros arm1 entry w1 Hin HI1. now apply query_metric_outcome.
  - left. split; [reflexivity|]. apply lookup_ge_None in Hy. lia.
Qed.

Lemma compute_test_outcome ms model dl w :
  match (compute_test ms model dl out e w).1 with
  | Ok _ => True
  | Raise x => lookup_failure ms dl x
  end.
Proof.
  unfold compute_test, mbind, M_bind, bind. cbn [open_w set_fs].
  destruct (create_metric_files_inv out e ms
              (with_fs (<[predictions_path out e := []]> (w_fs w)) w))
    as (arm0 & w0 & Hc & _ & HI).
  unfold with_fs in Hc. rewrite Hc.
  pose proof (foldM_outcome (compute_test_query ms model dl out e)
                (fun arm => forall k, In k (metric_keys ms) -> is_Some (arm !! k))
                (fun q => (q < length (X_by_qid dl))%nat) (lookup_failure ms dl)
                (fun arm q w1 Hq HI1 => compute_test_query_outcome ms model dl arm q w1 Hq HI1)
                (seq 0 (length (X_by_qid dl))) arm0 w0) as Hloop.
  destruct (foldM _ _ arm0 w0) as [[arm|x] w1]; cbn [fst] in *; [exact I|].
  apply Hloop.
  - apply List.Forall_forall. intros q Hq%in_seq. lia.
  - intros k Hk. destruct (HI k Hk) as (vals & Ha & _). eauto.
Qed.

End ComputeTestRuns.

Lemma compute_test_labels `{C : Collaborators}
  ms model dl out e w (d : gmap string float) w' :
  compute_test ms model dl out e w = (Ok d, w') ->
  length (queries dl) = length (X_by_qid dl).
Proof.
  intros (arm0 & w0 & arm & _ & Hloop & _)%compute_test_loop.
  unfold queries. rewrite length_zip_with.
  destruct (length (X_by_qid dl)) as [|n] eqn:Hn; [lia|].
  destruct (queries_labels out e _ _ _ _ _ _ _ _ _ Hloop n ltac:(lia)) as [y Hy].
  apply lookup_lt_Some in Hy. lia.
Qed.

Lemma compute_test_predictions `{C : Collaborators}
  ms model dl out e w (d : gmap string float) w' :
  compute_test ms model dl out e w = (Ok d, w') ->
  w_fs w' !! predictions_path out e
  = Some (map Line (concat (flat_map (query_scores model) (queries dl)))).
Proof.
  intros H. pose proof (compute_test_labels _ _ _ _ _ _ _ _ H) as Hlen.
  apply compute_test_loop in H as (arm0 & w0 & arm & Hc & Hloop & _).
  unfold create_metric_files in Hc. rewrite create_metric_files_from in Hc.
  injection Hc as <- <-.
  rewrite (queries_predictions out e _ _ _ _ _ _ _ _ _ [] Hloop).
  - rewrite drop_0, take_ge by lia. reflexivity.
  - cbn [w_fs with_fs]. rewrite fold_truncate_other.
    + apply lookup_insert_eq.
    + intros (k & Hk & _)%in_map_iff. now apply metric_path_not_predictions in Hk.
Qed.

(** X9: when [compute_test] returns, the epoch's prediction file holds,
    whatever it held before, the scores of all queries, one per line, in
    query order and within a query in document order; the scores of a query
    are those of [model.score] on its features with NaN zeroed, its padding
    mask and no indices. Every feature row has then found its labels. *)
Theorem compute_test_predictions_file `{C : Collaborators}
  ms model dl out e w (d : gmap string float) w' :
  compute_test ms model dl out e w = (Ok d, w') ->
  w_fs w' !! predictions_path out e
  = Some (map Line (concat (flat_map (query_scores model) (queries dl)))) /\
  length (queries dl) = length (X_by_qid dl).
Proof.
  intros H. split; [exact (compute_test_predictions _ _ _ _ _ _ _ _ H)|].
  exact (compute_test_labels _ _ _ _ _ _ _ _ H).
Qed.

Lemma compute_test_predictions_file_witness :
  exists d w',
    compute_test (C := Toy.collaborators) (metrics (Toy.cfg "")) 1%float Toy.valid_dl
                 "out" 3 (Toy.world0 None) = (Ok d, w') /\
    w_fs w' !! "out/3.model.predict.txt" = Some [Line 2; Line 4].
Proof.
  assert (B : is_ok (compute_test (C := Toy.collaborators) (metrics (Toy.cfg "")) 1%float
                       Toy.valid_dl "out" 3 (Toy.world0 None)).1 = true)
    by (vm_compute; reflexivity).
  remember (compute_test (C := Toy.collaborators) (metrics (Toy.cfg "")) 1%float
              Toy.valid_dl "out" 3 (Toy.world0 None)) as R eqn:H.
  destruct R as [[d|x] w']; [|discriminate B].
  symmetry in H. exists d, w'. split; [reflexivity|].
  destruct (compute_test_predictions_file _ _ _ _ _ _ _ _ H) as [Hf _].
  exact Hf.
Defined.

(** X10: when the dataset has fewer label rows than feature rows,
    [compute_test] does not return: it raises at the latest on the first
    query without labels. *)
Theorem compute_test_missing_labels `{C : Collaborators} ms model dl out e w :
  (length (y_by_qid dl) < length (X_by_qid dl))%nat ->
  is_ok (compute_test ms model dl out e w).1 = false.
Proof.
  intros Hlen.
  destruct (compute_test ms model dl out e w) as [[d|x] w'] eqn:H; [|reflexivity].
  apply compute_test_loop in H as (arm0 & w0 & arm & _ & Hloop & _).
  destruct (queries_labels out e _ _ _ _ _ _ _ _ _ Hloop (length (y_by_qid dl))
              ltac:(lia)) as [y Hy].
  apply lookup_lt_Some in Hy. lia.
Qed.

Lemma compute_test_missing_labels_witness :
  is_ok (compute_test (C := Toy.collaborators) (metrics (Toy.cfg "")) 1%float
           {| batches := []; X_by_qid := [[[1%float]]]; y_by_qid := [] |}
           "out" 0 (Toy.world0 None)).1 = false.
Proof.
  apply (compute_test_missing_labels (C := Toy.collaborators)). cbn. lia.
Defined.

(** X11: the lookups of [compute_test] fail in two ways only. It never
    raises a KeyError: the append under [all_results_metric[name]] always
    finds its key. It raises an IndexError only when the dataset has fewer
    label rows than feature rows. It raises an AttributeError only for a
    configured metric name that contains "ndcg" and is not in the metrics
    module: a name without "ndcg" is never looked up. *)
Theorem compute_test_lookup_failures `{C : Collaborators} ms model dl out e w :
  (forall k, (compute_test ms model dl out e w).1 <> Raise (KeyError k)) /\
  ((compute_test ms model dl out e w).1 = Raise IndexError ->
   (length (y_by_qid dl) < length (X_by_qid dl))%nat) /\
  (forall metric_name,
     (compute_test ms model dl out e w).1 = Raise (AttributeError metric_name) ->
     exists ats, In (metric_name, ats) ms /\
                 str_contains "ndcg" metric_name = true /\
                 metrics_module metric_name = None).
Proof.
  pose proof (compute_test_outcome out e ms model dl w) as H.
  destruct (compute_test ms model dl out e w) as [[d|x] w'] eqn:Hrun; cbn [fst] in *.
  - split; [discriminate|]. split; discriminate.
  - split; [|split].
    + intros k [= ->]. destruct H as [[[=] _]|(n & ats & [=] & _)].
    + intros [= ->]. destruct H as [[_ Hlen]|(n & ats & [=] & _)]. exact Hlen.
    + intros metric_name [= ->].
      destruct H as [[[=] _]|(n & ats & [= <-] & Hin & Hndcg & Hreg)].
      now exists ats.
Qed.

(** On the toy collaborators with a configured name that contains "ndcg"
    and is not in the registry: the AttributeError is for that name. *)
Lemma compute_test_lookup_failures_witness :
  (compute_test (C := Toy.collaborators) [("mrr", [1]); ("ndcg2", [1])] 1%float
     Toy.valid_dl "out" 0 (Toy.world0 None)).1 = Raise (AttributeError "ndcg2") /\
  exists ats, In ("ndcg2", ats) [("mrr", [1]); ("ndcg2", [1])] /\
              str_contains "ndcg" "ndcg2" = true /\
              metrics_module (Collaborators := Toy.collaborators) "ndcg2" = None.
Proof.
  assert (B : match (compute_test (C := Toy.collaborators) [("mrr", [1]); ("ndcg2", [1])]
                       1%float Toy.valid_dl "out" 0 (Toy.world0 None)).1 with
              | Raise (AttributeError n) => String.eqb n "ndcg2"
              | _ => false
              end = true) by (vm_compute; reflexivity).
  remember (compute_test (C := Toy.collaborators) [("mrr", [1]); ("ndcg2", [1])]
              1%float Toy.valid_dl "out" 0 (Toy.world0 None)) as R eqn:H.
  destruct R as [[d|[| |k| |n|v]] w']; try discriminate B.
  cbn [fst] in *. apply String.eqb_eq in B. subst n. split; [reflexivity|].
  pose proof (compute_test_lookup_failures (C := Toy.collaborators)
                [("mrr", [1]); ("ndcg2", [1])] 1%float Toy.valid_dl "out" 0
                (Toy.world0 None)) as (_ & _ & Ha).
  rewrite <- H in Ha. exact (Ha "ndcg2" eq_refl).
Defined.

(** ** The names of the exported files *)

Lemma str_has_append (c : ascii) (a b : string) :
  str_has c (a ++ b) = str_has c a || str_has c b.
Proof.
  induction a as [|x a IH]; [reflexivity|].
  rewrite append_cons. cbn [str_has]. rewrite IH. apply orb_assoc.
Qed.

(** A string splits in one way only at the first occurrence of a
    character, and in one way only at the last. *)
Lemma first_split (c : ascii) (a1 a2 b1 b2 : string) :
  str_has c a1 = false -> str_has c a2 = false ->
  a1 ++ String c b1 = a2 ++ String c b2 -> a1 = a2 /\ b1 = b2.
Proof.
  revert a2. induction a1 as [|x a1 IH]; intros [|y a2]; rewrite ?append_cons;
    cbn [str_has].
  - intros _ _ [= ->]. auto.
  - intros _ H [= <- _]. rewrite Ascii.eqb_refl in H. discriminate.
  - intros H _ [= -> _]. rewrite Ascii.eqb_refl in H. discriminate.
  - intros [_ H1]%orb_false_iff [_ H2]%orb_false_iff [= -> H].
    destruct (IH _ H1 H2 H) as [-> ->]. auto.
Qed.

Lemma last_split (c : ascii) (a1 a2 b1 b2 : string) :
  str_has c b1 = false -> str_has c b2 = false ->
  a1 ++ String c b1 = a2 ++ String c b2 -> a1 = a2 /\ b1 = b2.
Proof.
  intros H1 H2. revert a2.
  induction a1 as [|x a1 IH]; intros [|y a2]; rewrite ?append_cons.
  - intros [= ->]. auto.
  - intros [= _ H]. rewrite H, str_has_append in H1. cbn [str_has] in H1.
    rewrite Ascii.eqb_refl, orb_true_r in H1. discriminate.
  - intros [= _ H]. rewrite <- H, str_has_append in H2. cbn [str_has] in H2.
    rewrite Ascii.eqb_refl, orb_true_r in H2. discriminate.
  - intros [= -> H]. destruct (IH _ H) as [-> ->]. auto.
Qed.

Lemma str_uint_no_dot (d : Decimal.uint) :
  str_has "." (NilEmpty.string_of_uint d) = false.
Proof. induction d; cbn; auto. Qed.

Lemma str_uint_no_underscore (d : Decimal.uint) :
  str_has "_" (NilEmpty.string_of_uint d) = false.
Proof. induction d; cbn; auto. Qed.

Lemma str_nat_no_dot (n : nat) : str_has "." (str_nat n) = false.
Proof.
  unfold str_nat, NilZero.string_of_uint.
  destruct (Nat.to_uint n) eqn:E; rewrite <- ?E; try apply str_uint_no_dot.
  reflexivity.
Qed.

Lemma str_int_no_underscore (z : Z) : str_has "_" (str_int z) = false.
Proof.
  unfold str_int, NilZero.string_of_int, NilZero.string_of_uint.
  destruct (Z.to_int z) as [d|d]; destruct d eqn:E; rewrite <- ?E; cbn [str_has];
    rewrite ?str_uint_no_underscore; reflexivity.
Qed.

(** [str] of an int is read back in one way only. *)
Lemma str_nat_inj (a b : nat) : str_nat a = str_nat b -> a = b.
Proof.
  unfold str_nat. intros H.
  assert (Hn : forall n, Nat.to_uint n <> Decimal.Nil).
  { intros n. rewrite <- (DecimalNat.Unsigned.of_to n), DecimalNat.Unsigned.to_of.
    apply DecimalFacts.unorm_nonnil. }
  apply DecimalNat.Unsigned.to_uint_inj.
  pose proof (NilZero.usu _ (Hn a)) as Ha. pose proof (NilZero.usu _ (Hn b)) as Hb.
  rewrite H in Ha. congruence.
Qed.

Lemma str_int_inj (a b : Z) : str_int a = str_int b -> a = b.
Proof.
  unfold str_int. intros H.
  assert (Hn : forall z, Z.to_int z <> Decimal.Pos Decimal.Nil /\
                         Z.to_int z <> Decimal.Neg Decimal.Nil).
  { intros z. rewrite <- (DecimalZ.of_to z), DecimalZ.to_of.
    destruct (Z.to_int z) as [d|d]; cbn [Decimal.norm].
    - split; [|discriminate]. intros [= H0]. exact (DecimalFacts.unorm_nonnil _ H0).
    - destruct (Decimal.nzhead d); split; discriminate. }
  apply DecimalZ.to_int_inj.
  pose proof (NilZero.isi _ (proj1 (Hn a)) (proj2 (Hn a))) as Ha.
  pose proof (NilZero.isi _ (proj1 (Hn b)) (proj2 (Hn b))) as Hb.
  rewrite H in Ha. congruence.
Qed.

Lemma format_metric_inj (n1 n2 : string) (a1 a2 : Z) :
  format_metric n1 a1 = format_metric n2 a2 -> n1 = n2 /\ a1 = a2.
Proof.
  unfold format_metric. intros H.
  apply (last_split "_") in H as [-> H]; try apply str_int_no_underscore.
  split; [reflexivity|]. now apply str_int_inj.
Qed.

(** The file names of two epochs agree only for one epoch. *)
Lemma export_name_split (e1 e2 : nat) (s1 s2 : string) :
  str_nat e1 ++ String "." s1 = str_nat e2 ++ String "." s2 -> e1 = e2 /\ s1 = s2.
Proof.
  intros H. apply first_split in H as [H ->]; try apply str_nat_no_dot.
  split; [|reflexivity]. now apply str_nat_inj.
Qed.

Lemma metric_path_epochs (out : string) (e1 e2 : nat) (k1 k2 : string) :
  metric_path out e1 k1 = metric_path out e2 k2 -> e1 = e2 /\ k1 = k2.
Proof.
  unfold metric_path. intros H%os_path_join_inj; try apply str_nat_not_absolute.
  apply export_name_split in H as [-> H]. split; [reflexivity|].
  apply (append_inv_head "model.predict.") in H. now apply append_inv_tail in H.
Qed.

Lemma predictions_path_epochs (out : string) (e1 e2 : nat) :
  predictions_path out e1 = predictions_path out e2 -> e1 = e2.
Proof.
  unfold predictions_path. intros H%os_path_join_inj; try apply str_nat_not_absolute.
  now apply export_name_split in H as [-> _].
Qed.

Lemma metric_path_not_predictions_epochs (out : string) (e1 e2 : nat) (k : string) :
  metric_path out e1 k <> predictions_path out e2.
Proof.
  unfold metric_path, predictions_path.
  intros H%os_path_join_inj; try apply str_nat_not_absolute.
  apply export_name_split in H as [_ H].
  apply (append_inv_head "model.predict.") in H.
  apply (f_equal String.length) in H. rewrite length_append in H. cbn in H. lia.
Qed.

Lemma export_not_checkpoint (out : string) (e : nat) (s : string) :
  os_path_join out (str_nat e ++ s) <> os_path_join out "model.pkl".
Proof.
  intros H%os_path_join_inj; [|apply str_nat_not_absolute|reflexivity].
  revert H. unfold str_nat, NilZero.string_of_uint.
  destruct (Nat.to_uint e); discriminate.
Qed.

Lemma export_paths_checkpoint (out : string) (e : nat) (ms : list (string * list Z)) :
  ~ In (os_path_join out "model.pkl") (export_paths out e ms).
Proof.
  intros [H|(k & H & _)%in_map_iff]; revert H;
    unfold predictions_path, metric_path; apply export_not_checkpoint.
Qed.

Lemma export_paths_epochs (out : string) (e e' : nat) (ms ms' : list (string * list Z))
  (p : string) :
  e' <> e -> In p (export_paths out e' ms') -> ~ In p (export_paths out e ms).
Proof.
  intros Hne [<-|(k' & <- & _)%in_map_iff] [H|(k & H & _)%in_map_iff].
  - apply predictions_path_epochs in H. congruence.
  - now apply metric_path_not_predictions_epochs in H.
  - symmetry in H. now apply metric_path_not_predictions_epochs in H.
  - apply metric_path_epochs in H as [H _]. congruence.
Qed.

(** X12: the exported files have names of their own: two metric files
    coincide only for the same epoch, metric name and cutoff, two prediction
    files only for the same epoch, and no metric file is a prediction file
    or the checkpoint. *)
Theorem export_paths_distinct (out : string) (e1 e2 : nat) (n1 n2 : string) (a1 a2 : Z) :
  (metric_path out e1 (format_metric n1 a1) = metric_path out e2 (format_metric n2 a2)
   <-> e1 = e2 /\ n1 = n2 /\ a1 = a2) /\
  (predictions_path out e1 = predictions_path out e2 <-> e1 = e2) /\
  metric_path out e1 (format_metric n1 a1) <> predictions_path out e2 /\
  metric_path out e1 (format_metric n1 a1) <> os_path_join out "model.pkl" /\
  predictions_path out e1 <> os_path_join out "model.pkl".
Proof.
  split; [split|split; [split|]].
  - intros [-> [-> ->]%format_metric_inj]%metric_path_epochs. auto.
  - now intros (-> & -> & ->).
  - apply predictions_path_epochs.
  - now intros ->.
  - split; [apply metric_path_not_predictions_epochs|].
    split; apply export_not_checkpoint.
Qed.

(** X13: the export of one epoch leaves the files of every other epoch as
    they were, whatever metrics those were written for, and the checkpoint
    too; this holds whether [compute_test] returns or raises. *)
Theorem compute_test_keeps_other_exports `{C : Collaborators}
  ms ms' model dl out e e' w p :
  e' <> e ->
  In p (os_path_join out "model.pkl" :: export_paths out e' ms') ->
  w_fs (compute_test ms model dl out e w).2 !! p = w_fs w !! p.
Proof.
  intros Hne Hp.
  destruct (compute_test_untouched ms model dl out e w) as (_ & _ & _ & Hf).
  apply Hf. destruct Hp as [<-|Hp].
  - apply export_paths_checkpoint.
  - now apply (export_paths_epochs out e e' ms ms').
Qed.

Lemma compute_test_keeps_other_exports_witness :
  w_fs (compute_test (C := Toy.collaborators) (metrics (Toy.cfg "")) 1%float Toy.valid_dl
          "out" 1
          (with_fs {["out/0.model.predict.txt" := [Line 7]]} (Toy.world0 None))).2
    !! "out/0.model.predict.txt" = Some [Line 7].
Proof.
  rewrite (compute_test_keeps_other_exports (C := Toy.collaborators) _ [] _ _ "out" 1 0);
    [reflexivity|lia|right; left; reflexivity].
Defined.

(** ** A turn of the loop of fit, step by step *)

Section EpochSteps.
Context `{C : Collaborators}.

Lemma step_scheduler_world cfg (val_metrics : gmap string float) w :
  w_model (step_scheduler cfg val_metrics w).2 = w_model w /\
  w_fs (step_scheduler cfg val_metrics w).2 = w_fs w /\
  (is_ok (step_scheduler cfg val_metrics w).1 = true ->
   w_trace (step_scheduler cfg val_metrics w).2
   = (w_trace w ++ scheduler_events cfg val_metrics (w_scheduler w))%list).
Proof.
  unfold step_scheduler, scheduler_events. destruct w as [m o sc fs t].
  destruct sc as [s|]; mrun.
  - destruct (sched_is_plateau s); mrun.
    + destruct (val_metrics !! val_metric cfg) as [v|]; mrun.
      * repeat split.
      * repeat split. discriminate.
    + repeat split.
  - repeat split. now rewrite app_nil_r.
Qed.

(** The tail of a turn, by the outcome of its steps. *)
Lemma epoch_tail_unfold cfg out va es e tl vl tm vm w :
  epoch_tail cfg out va es e tl vl tm vm w =
  let w1 := emitted [EvTensorboardSave
                       (tensorboard_metrics_dict tl vl tm vm
                          (get_current_lr (w_optimizer w))) e;
                     EvLog (LogSummary e tl vl tm vm)] w in
  let v := vm !! val_metric cfg in
  let es' := es_step es v e in
  let fr := {| fr_epoch := e; fr_train_loss := tl; fr_val_loss := vl;
               fr_train_metrics := tm; fr_val_metrics := vm |} in
  match step_scheduler cfg vm w1 with
  | (Raise x, w2) => (Raise x, w2)
  | (Ok _, w2) =>
      match compute_test (metrics cfg) (w_model w2) va out e w2 with
      | (Raise x, w3) => (Raise x, w3)
      | (Ok _, w3) =>
          (Ok (fr, es', es_stop_training es' e),
           emitted (EvEarlyStopStep v e ::
                    if es_stop_training es' e
                    then [EvLog (LogEarlyStop e (val_metric cfg) (es_best_epoch es')
                                   (es_best_value es') v)]
                    else []) w3)
      end
  end.
Proof.
  unfold epoch_tail. mrun. rewrite <- app_assoc. cbn [app].
  fold (emitted [EvTensorboardSave
                   (tensorboard_metrics_dict tl vl tm vm (get_current_lr (w_optimizer w))) e;
                 EvLog (LogSummary e tl vl tm vm)] w).
  destruct (step_scheduler cfg vm _) as [[[]|x] w2]; [|reflexivity].
  destruct (compute_test (metrics cfg) (w_model w2) va out e w2) as [[d|x] w3];
    [|reflexivity].
  cbn [w_model w_optimizer w_scheduler w_fs w_trace].
  destruct (es_stop_training _ e); unfold emitted;
    cbn [w_model w_optimizer w_scheduler w_fs w_trace]; rewrite <- ?app_assoc; reflexivity.
Qed.

Lemma epoch_tail_files cfg out va es e tl vl tm vm w p :
  ~ In p (export_paths out e (metrics cfg)) ->
  w_fs (epoch_tail cfg out va es e tl vl tm vm w).2 !! p = w_fs w !! p.
Proof.
  intros Hp. rewrite epoch_tail_unfold. cbv zeta.
  match goal with |- context [step_scheduler cfg vm ?w0] =>
    destruct (step_scheduler_world cfg vm w0) as (_ & Hfs & _);
    destruct (step_scheduler cfg vm w0) as [[[]|x] w2] end;
    cbn [snd] in *; [|now rewrite Hfs].
  destruct (compute_test_untouched (metrics cfg) (w_model w2) va out e w2)
    as (_ & _ & _ & Hf).
  destruct (compute_test (metrics cfg) (w_model w2) va out e w2) as [[d|x] w3];
    cbn [snd emitted w_fs] in *; rewrite (Hf p Hp), Hfs; reflexivity.
Qed.

(** A turn writes the export files of its epoch and no other file,
    whether it returns or raises. *)
Lemma fit_epoch_files cfg g out tr va es e w p :
  ~ In p (export_paths out e (metrics cfg)) ->
  w_fs (fit_epoch cfg g out tr va es e w).2 !! p = w_fs w !! p.
Proof.
  intros Hp. rewrite fit_epoch_unfold. cbv zeta.
  destruct (batches tr); [reflexivity|].
  destruct (compute_metrics (metrics cfg) _ tr); [|reflexivity].
  destruct (batches va); [reflexivity|].
  destruct (compute_metrics (metrics cfg) _ va); [|reflexivity].
  now rewrite epoch_tail_files.
Qed.

Lemma fit_loop_files cfg g out tr va p : forall todo fr es w,
  (forall e, In e todo -> ~ In p (export_paths out e (metrics cfg))) ->
  w_fs (fit_loop cfg g out tr va todo fr es w).2 !! p = w_fs w !! p.
Proof.
  induction todo as [|e todo IH]; intros fr es w Hp; [reflexivity|].
  cbn [fit_loop]. unfold mbind, M_bind, bind.
  pose proof (fit_epoch_files cfg g out tr va es e w p (Hp e (or_introl eq_refl))) as He.
  destruct (fit_epoch cfg g out tr va es e w) as [[[[fr' es'] [|]]|x] w1];
    cbn [snd] in *; try exact He.
  rewrite IH; [exact He|]. intros e' He'. apply Hp. now right.
Qed.

(** The steps of the tail of a returning turn. *)
Lemma epoch_tail_steps cfg out va es e tl vl tm vm w r w' :
  epoch_tail cfg out va es e tl vl tm vm w = (Ok r, w') ->
  exists w2 d w3,
    step_scheduler cfg vm
      (emitted [EvTensorboardSave
                  (tensorboard_metrics_dict tl vl tm vm (get_current_lr (w_optimizer w))) e;
                EvLog (LogSummary e tl vl tm vm)] w) = (Ok tt, w2) /\
    compute_test (metrics cfg) (w_model w2) va out e w2 = (Ok d, w3) /\
    w' = emitted (EvEarlyStopStep (vm !! val_metric cfg) e ::
                  if r.2
                  then [EvLog (LogEarlyStop e (val_metric cfg) (es_best_epoch r.1.2)
                                 (es_best_value r.1.2) (vm !! val_metric cfg))]
                  else []) w3.
Proof.
  rewrite epoch_tail_unfold. cbv zeta.
  destruct (step_scheduler cfg vm _) as [[[]|x] w2] eqn:Hs; [|discriminate].
  destruct (compute_test (metrics cfg) (w_model w2) va out e w2) as [[d|x] w3] eqn:Hc;
    [|discriminate].
  intros [= <- <-]. exists w2, d, w3. auto.
Qed.

(** A returning turn, as its tail run from the world that the two passes
    leave. *)
Lemma fit_epoch_tail cfg g out tr va es e w r w' :
  fit_epoch cfg g out tr va es e w = (Ok r, w') ->
  let w3 := eval_start (after_batches g true (batches tr) (train_start w)) in
  epoch_tail cfg out va es e (fr_train_loss r.1.1) (fr_val_loss r.1.1)
             (fr_train_metrics r.1.1) (fr_val_metrics r.1.1) w3 = (Ok r, w').
Proof.
  rewrite fit_epoch_unfold. cbv zeta.
  destruct (batches tr) eqn:Htr; [discriminate|]. rewrite <- Htr.
  destruct (compute_metrics (metrics cfg) _ tr); [|discriminate].
  destruct (batches va) eqn:Hva; [discriminate|]. rewrite <- Hva.
  destruct (compute_metrics (metrics cfg) _ va); [|discriminate].
  intros H. pose proof (epoch_tail_ok _ _ _ _ _ _ _ _ _ _ _ _ H) as ->. exact H.
Qed.

End EpochSteps.

(** X14: the calls that an observer sees in a returning turn of the loop of
    [fit], in order: the learning-rate log and the switch to training mode;
    per training batch backward, clipping if the norm is truthy, optimizer
    step and zero_grad; the switch to evaluation mode, after which the
    validation batches add no call; the telemetry record, with the learning
    rate as the training pass left it, and the summary log; the scheduler
    step if there is a scheduler; one scoring per validation query; the
    early-stopping step; and the early-stopping log exactly when the turn
    stops the loop. *)
Theorem fit_epoch_calls `{C : Collaborators} cfg g out tr va es e w fr es' stop w' :
  fit_epoch cfg g out tr va es e w = (Ok (fr, es', stop), w') ->
  let o := (batch_run g true (batches tr) (model_train (w_model w)) (w_optimizer w)).2.2 in
  let v := fr_val_metrics fr !! val_metric cfg in
  w_trace w' =
    (w_trace w
     ++ [EvLog (LogLr (get_current_lr (w_optimizer w))); EvModelTrain]
     ++ concat (map (fun _ => batch_events g true) (batches tr))
     ++ [EvModelEval;
         EvTensorboardSave
           (tensorboard_metrics_dict (fr_train_loss fr) (fr_val_loss fr)
              (fr_train_metrics fr) (fr_val_metrics fr) (get_current_lr o)) e;
         EvLog (LogSummary e (fr_train_loss fr) (fr_val_loss fr)
                  (fr_train_metrics fr) (fr_val_metrics fr))]
     ++ scheduler_events cfg (fr_val_metrics fr) (w_scheduler w)
     ++ map (fun x => EvScoreQuery (nan_to_zero [x])) (X_by_qid va)
     ++ EvEarlyStopStep v e
        :: (if stop
            then [EvLog (LogEarlyStop e (val_metric cfg) (es_best_epoch es')
                           (es_best_value es') v)]
            else []))%list.
Proof.
  intros H. apply fit_epoch_tail in H. cbn [fst snd] in H.
  apply epoch_tail_steps in H as (w2 & d & w3 & Hs & Hc & ->). cbn [fst snd].
  destruct (step_scheduler_world cfg (fr_val_metrics fr)
              (emitted [EvTensorboardSave
                  (tensorboard_metrics_dict (fr_train_loss fr) (fr_val_loss fr)
                     (fr_train_metrics fr) (fr_val_metrics fr)
                     (get_current_lr (w_optimizer
                        (eval_start (after_batches g true (batches tr) (train_start w)))))) e;
                EvLog (LogSummary e (fr_train_loss fr) (fr_val_loss fr)
                         (fr_train_metrics fr) (fr_val_metrics fr))]
                 (eval_start (after_batches g true (batches tr) (train_start w)))))
    as (_ & _ & Ht).
  rewrite Hs in Ht. specialize (Ht eq_refl). cbn [snd] in Ht.
  destruct (compute_test_trace (metrics cfg) (w_model w2) va out e w2)
    as (k & _ & Hk & Htc).
  rewrite Hc in Hk, Htc. cbn [fst snd] in Hk, Htc. rewrite (Hk eq_refl) in Htc.
  rewrite firstn_all in Htc.
  cbn [emitted w_trace]. rewrite Htc, Ht.
  cbn [emitted eval_start after_batches train_start w_trace w_scheduler w_model
         w_optimizer].
  rewrite <- !app_assoc. reflexivity.
Qed.

Lemma fit_epoch_calls_witness :
  exists r w',
    fit_epoch (C := Toy.collaborators) (Toy.cfg "ndcg_1") (PyFloat 2) "out"
              Toy.train_dl Toy.valid_dl (SpecEarlyStop.new (PyInt 3)) 0 (Toy.world0 None)
      = (Ok r, w') /\
    exists lr t,
      w_trace w' = EvLog (LogLr lr) :: EvModelTrain :: EvBackward
                     :: EvClipGradNorm (PyFloat 2) :: EvOptStep :: EvZeroGrad :: t.
Proof.
  assert (B : is_ok (fit_epoch (C := Toy.collaborators) (Toy.cfg "ndcg_1") (PyFloat 2) "out"
                       Toy.train_dl Toy.valid_dl (SpecEarlyStop.new (PyInt 3)) 0
                       (Toy.world0 None)).1 = true)
    by (vm_compute; reflexivity).
  remember (fit_epoch (C := Toy.collaborators) (Toy.cfg "ndcg_1") (PyFloat 2) "out"
              Toy.train_dl Toy.valid_dl (SpecEarlyStop.new (PyInt 3)) 0
              (Toy.world0 None)) as R eqn:H.
  destruct R as [[[[fr es'] stop]|x] w']; [|discriminate B].
  symmetry in H. exists (fr, es', stop), w'. split; [reflexivity|].
  rewrite (fit_epoch_calls _ _ _ _ _ _ _ _ _ _ _ _ H).
  eexists _, _. reflexivity.
Defined.

(** ** The files that fit leaves *)

Section FitFiles.
Context `{C : Collaborators}.

(** A returning turn leaves, in the prediction file of its epoch, the
    validation scores of the model as the turn leaves it. *)
Lemma fit_epoch_predictions cfg g out tr va es e w r w' :
  fit_epoch cfg g out tr va es e w = (Ok r, w') ->
  fr_epoch r.1.1 = e /\
  w_fs w' !! predictions_path out e
  = Some (map Line (concat (flat_map (query_scores (w_model w')) (queries va)))).
Proof.
  intros H. destruct r as [[fr es'] stop].
  pose proof (fit_epoch_ok _ _ _ _ _ _ _ _ _ _ _ _ H) as (_ & _ & _ & _ & He & _).
  split; [exact He|].
  apply fit_epoch_tail in H. apply epoch_tail_steps in H as (w2 & d & w3 & _ & Hc & ->).
  destruct (compute_test_untouched (metrics cfg) (w_model w2) va out e w2) as (Hm & _).
  rewrite Hc in Hm. cbn [snd] in Hm. cbn [emitted w_fs w_model]. rewrite Hm.
  exact (compute_test_predictions _ _ _ _ _ _ _ _ Hc).
Qed.

Lemma fit_loop_predictions cfg g out tr va : forall todo fr0 es w fr w',
  fit_loop cfg g out tr va todo fr0 es w = (Ok (Some fr), w') ->
  (fr0 = Some fr /\ w' = w) \/
  (In (fr_epoch fr) todo /\
   w_fs w' !! predictions_path out (fr_epoch fr)
   = Some (map Line (concat (flat_map (query_scores (w_model w')) (queries va))))).
Proof.
  induction todo as [|e todo IH]; intros fr0 es w fr w' H.
  - injection H as -> <-. now left.
  - right. cbn [fit_loop] in H.
    apply bind_inv_ok in H as ([[fr1 es1] stop] & w1 & H1 & H).
    apply fit_epoch_predictions in H1 as [He Hf]. cbn [fst] in He.
    destruct stop.
    + injection H as <- <-. rewrite He. split; [now left|exact Hf].
    + apply IH in H as [[[= <-] ->]|[Hin Hf']].
      * rewrite He. split; [now left|exact Hf].
      * split; [now right|exact Hf'].
Qed.

End FitFiles.

(** X15: [fit] writes the checkpoint and the export files of the epochs
    below [epochs], and leaves every other file as it was, whether it
    returns or raises. *)
Theorem fit_touches_only_its_files `{C : Collaborators}
  epochs cfg g patience out tb tr va w p :
  p <> os_path_join out "model.pkl" ->
  (forall e, Z.of_nat e < epochs -> ~ In p (export_paths out e (metrics cfg))) ->
  w_fs (fit epochs cfg g patience out tb tr va w).2 !! p = w_fs w !! p.
Proof.
  intros Hck Hp. rewrite fit_unfold.
  pose proof (fit_loop_files cfg g out tr va p (seq 0 (Z.to_nat epochs)) None
                (es_new patience) (fit_start tb w)) as Hl.
  cbn [fit_start w_fs] in Hl.
  destruct (fit_loop _ _ _ _ _ _ _ _ _) as [[[fr|]|x] w1];
    cbn [snd fit_finish w_fs] in *; rewrite ?lookup_insert_ne by congruence;
    apply Hl; intros e He%in_seq; apply Hp; lia.
Qed.

Lemma fit_touches_only_its_files_witness :
  w_fs (fit (C := Toy.collaborators) 1 (Toy.cfg "ndcg_1") PyNone (PyInt 3) "out" "tb"
          Toy.train_dl Toy.valid_dl
          (with_fs {["out/notes.txt" := [Line 7]]} (Toy.world0 None))).2
    !! "out/notes.txt" = Some [Line 7].
Proof.
  rewrite (fit_touches_only_its_files (C := Toy.collaborators)); [reflexivity|discriminate|].
  intros e He. assert (e = 0%nat) as -> by lia.
  vm_compute. intuition discriminate.
Defined.

(** X16: when [fit] returns, the epoch it reports is one of its epochs, the
    checkpoint holds the state of the model as [fit] leaves it, and the
    prediction file of the reported epoch holds the validation scores of that
    same model: nothing trains the model between the last export and the
    checkpoint. *)
Theorem fit_last_export_matches_checkpoint `{C : Collaborators}
  epochs cfg g patience out tb tr va w (d : gmap string retval) w' :
  fit epochs cfg g patience out tb tr va w = (Ok d, w') ->
  exists e,
    d !! "epochs" = Some (RInt (Z.of_nat e)) /\ 0 <= Z.of_nat e < epochs /\
    w_fs w' !! os_path_join out "model.pkl" = Some [StateDict (w_model w')] /\
    w_fs w' !! predictions_path out e
    = Some (map Line (concat (flat_map (query_scores (w_model w')) (queries va)))).
Proof.
  rewrite fit_unfold.
  destruct (fit_loop _ _ _ _ _ _ _ _ _) as [[[fr|]|x] w1] eqn:Hl; try discriminate.
  intros [= <- <-]. exists (fr_epoch fr).
  apply fit_loop_predictions in Hl as [[[=] _]|[Hin%in_seq Hf]].
  split; [reflexivity|]. split; [lia|].
  cbn [fit_finish w_fs w_model]. split; [apply lookup_insert_eq|].
  rewrite lookup_insert_ne; [exact Hf|].
  intros H. symmetry in H. revert H. unfold predictions_path. apply export_not_checkpoint.
Qed.

Lemma fit_last_export_matches_checkpoint_witness :
  exists d w',
    fit (C := Toy.collaborators) 2 (Toy.cfg "ndcg_1") PyNone (PyInt 3) "out" "tb"
        Toy.train_dl Toy.valid_dl (Toy.world0 None) = (Ok d, w') /\
    exists e, w_fs w' !! predictions_path "out" e
              = Some (map Line (concat (flat_map (query_scores (w_model w'))
                                                 (queries Toy.valid_dl)))).
Proof.
  assert (B : is_ok (fit (C := Toy.collaborators) 2 (Toy.cfg "ndcg_1") PyNone (PyInt 3)
                       "out" "tb" Toy.train_dl Toy.valid_dl (Toy.world0 None)).1 = true)
    by (vm_compute; reflexivity).
  remember (fit (C := Toy.collaborators) 2 (Toy.cfg "ndcg_1") PyNone (PyInt 3)
              "out" "tb" Toy.train_dl Toy.valid_dl (Toy.world0 None)) as R eqn:H.
  destruct R as [[d|x] w']; [|discriminate B].
  symmetry in H. exists d, w'. split; [reflexivity|].
  destruct (fit_last_export_matches_checkpoint _ _ _ _ _ _ _ _ _ _ _ H)
    as (e & _ & _ & _ & Hf).
  exists e. exact Hf.
Defined.

(** ** The telemetry record *)

Lemma format_metric_has_underscore (metric_name : string) (at_ : Z) :
  str_has "_" (format_metric metric_name at_) = true.
Proof.
  unfold format_metric. rewrite str_has_append. cbn. apply orb_true_r.
Qed.

(** No key of [compute_metrics] is the name of a loss. *)
Lemma compute_metrics_no_loss `{C : Collaborators} ms model dl (d : gmap string float) :
  compute_metrics ms model dl = Ok d -> d !! "loss" = None.
Proof.
  intros H. destruct (d !! "loss") as [v|] eqn:Hv; [|reflexivity].
  destruct (compute_metrics_from_dom _ _ _ _ _ "loss" H) as [Hin|Hacc].
  - rewrite Hv. eauto.
  - apply in_flat_map in Hin as ([metric_name ats] & _ & (a & Hk & _)%in_map_iff).
    pose proof (format_metric_has_underscore metric_name a) as Hu.
    cbn [fst] in Hk. rewrite Hk in Hu. discriminate Hu.
  - rewrite lookup_empty in Hacc. now destruct Hacc.
Qed.

Lemma kmap_pair_other (s s' k : string) (m : gmap string pyval) :
  s' <> s -> (kmap (M2 := gmap (string * string)) (pair s) m) !! (s', k) = None.
Proof.
  intros Hne. apply lookup_kmap_None; [apply _|]. intros i [= ? _]. congruence.
Qed.

(** X17: the telemetry record of an epoch, for metrics that
    [compute_metrics] returned: it holds the training and the validation
    loss, which no metric key displaces, the learning rate, and every metric
    under its split; it holds nothing else under a split. *)
Theorem telemetry_record `{C : Collaborators}
  ms m1 m2 tr va (tm vm : gmap string float) tl vl lr :
  compute_metrics ms m1 tr = Ok tm ->
  compute_metrics ms m2 va = Ok vm ->
  let d := tensorboard_metrics_dict tl vl tm vm lr in
  d !! ("train", "loss") = Some (PyFloat tl) /\
  d !! ("val", "loss") = Some (PyFloat vl) /\
  d !! ("train", "lr") = Some (lr_value lr) /\
  (forall k, k <> "loss" -> k <> "lr" -> d !! ("train", k) = PyFloat <$> tm !! k) /\
  (forall k, k <> "loss" -> d !! ("val", k) = PyFloat <$> vm !! k).
Proof.
  intros Ht%compute_metrics_no_loss Hv%compute_metrics_no_loss d. subst d.
  unfold tensorboard_metrics_dict.
  assert (Hk : forall (s k : string) (m : gmap string float),
             (kmap (M2 := gmap (string * string)) (pair s) (PyFloat <$> m)) !! (s, k)
             = PyFloat <$> m !! k).
  { intros s k m. rewrite (lookup_kmap (pair s)), lookup_fmap. reflexivity. }
  split; [|split; [|split; [|split]]].
  - rewrite lookup_insert_ne by discriminate.
    rewrite lookup_union_r by now apply kmap_pair_other.
    rewrite lookup_union_r by now rewrite Hk, Ht.
    rewrite lookup_insert_ne by discriminate. apply lookup_singleton_eq.
  - rewrite lookup_insert_ne by discriminate.
    rewrite lookup_union_r by now rewrite Hk, Hv.
    rewrite lookup_union_r by now apply kmap_pair_other.
    apply lookup_insert_eq.
  - apply lookup_insert_eq.
  - intros k Hl Hr. rewrite lookup_insert_ne by congruence.
    rewrite lookup_union_r by now apply kmap_pair_other.
    rewrite lookup_union, Hk.
    rewrite lookup_insert_ne by discriminate.
    rewrite lookup_singleton_ne by congruence.
    now destruct (tm !! k).
  - intros k Hl. rewrite lookup_insert_ne by discriminate.
    rewrite lookup_union, Hk.
    rewrite lookup_union_r by now apply kmap_pair_other.
    rewrite lookup_insert_ne by congruence.
    rewrite lookup_singleton_ne by discriminate.
    now destruct (vm !! k).
Qed.

Lemma telemetry_record_witness :
  exists tm vm,
    compute_metrics (C := Toy.collaborators) (metrics (Toy.cfg "")) 1%float Toy.train_dl
      = Ok tm /\
    compute_metrics (C := Toy.collaborators) (metrics (Toy.cfg "")) 1%float Toy.valid_dl
      = Ok vm /\
    tensorboard_metrics_dict 3 4 tm vm None !! ("val", "loss") = Some (PyFloat 4).
Proof.
  assert (B : is_ok (compute_metrics (C := Toy.collaborators) (metrics (Toy.cfg ""))
                       1%float Toy.train_dl) = true) by (vm_compute; reflexivity).
  assert (B' : is_ok (compute_metrics (C := Toy.collaborators) (metrics (Toy.cfg ""))
                        1%float Toy.valid_dl) = true) by (vm_compute; reflexivity).
  remember (compute_metrics (C := Toy.collaborators) (metrics (Toy.cfg "")) 1%float
              Toy.train_dl) as R eqn:H.
  remember (compute_metrics (C := Toy.collaborators) (metrics (Toy.cfg "")) 1%float
              Toy.valid_dl) as R' eqn:H'.
  destruct R as [tm|x]; [|discriminate B]. destruct R' as [vm|x]; [|discriminate B'].
  exists tm, vm. split; [reflexivity|]. split; [reflexivity|].
  symmetry in H, H'.
  exact (proj1 (proj2 (telemetry_record (C := Toy.collaborators) _ _ _ _ _ _ _ 3%float
                         4%float None H H'))).
Defined.

(** X18: on a dataset without queries [compute_test] returns without a
    call of the model: the prediction file and every metric file are left
    empty, and every key of a metric whose name contains "ndcg" is reported
    with NaN, the mean of no values. *)
Theorem compute_test_no_queries `{C : Collaborators} ms model dl out e w :
  X_by_qid dl = [] ->
  exists (d : gmap string float) w',
    compute_test ms model dl out e w = (Ok d, w') /\
    w_trace w' = w_trace w /\
    w_fs w' !! predictions_path out e = Some [] /\
    forall metric_name ats at_,
      In (metric_name, ats) ms -> In at_ ats ->
      w_fs w' !! metric_path out e (format_metric metric_name at_) = Some [] /\
      d !! format_metric metric_name at_
      = if str_contains "ndcg" metric_name then Some nan else None.
Proof.
  intros HX. unfold compute_test. rewrite HX. cbn [length seq foldM].
  unfold mbind, M_bind, bind. cbn [open_w set_fs].
  destruct (create_metric_files ms out e _) as [[arm|x] w1] eqn:Hc.
  - pose proof (create_metric_files_nil out e _ _ _ _ Hc) as Hnil.
    unfold create_metric_files in Hc. rewrite create_metric_files_from in Hc.
    injection Hc as Harm <-. eexists _, _. split; [reflexivity|].
    split; [reflexivity|]. split.
    + cbn [w_fs with_fs]. rewrite fold_truncate_other; [apply lookup_insert_eq|].
      intros (k & Hk & _)%in_map_iff. now apply metric_path_not_predictions in Hk.
    + intros metric_name ats a Hin Ha.
      assert (Hkey : In (format_metric metric_name a) (metric_keys ms)).
      { apply in_flat_map. exists (metric_name, ats). split; [exact Hin|].
        now apply in_map. }
      split.
      * cbn [w_fs with_fs]. apply fold_truncate_lookup. now left.
      * rewrite map_lookup_imap, (Hnil _ Hkey). cbn.
        rewrite str_contains_ndcg_format.
        destruct (str_contains "ndcg" metric_name); reflexivity.
  - unfold create_metric_files in Hc. rewrite create_metric_files_from in Hc.
    discriminate.
Qed.

Lemma compute_test_no_queries_witness :
  exists d w',
    compute_test (C := Toy.collaborators) (metrics (Toy.cfg "")) 1%float Toy.empty_dl
                 "out" 0 (Toy.world0 None) = (Ok d, w') /\
    d !! "ndcg_5" = Some nan /\ d !! "mrr_1" = None.
Proof.
  destruct (compute_test_no_queries (C := Toy.collaborators) (metrics (Toy.cfg ""))
              1%float Toy.empty_dl "out" 0 (Toy.world0 None) eq_refl)
    as (d & w' & H & _ & _ & Hk).
  exists d, w'. split; [exact H|]. split.
  - exact (proj2 (Hk "ndcg" [1; 5] 5 ltac:(now left) ltac:(right; now left))).
  - exact (proj2 (Hk "mrr" [1] 1 ltac:(right; now left) ltac:(now left))).
Defined.

(** ** The model through a turn *)

(** X19: in a returning turn of the loop of [fit], the training metrics
    are computed on the model as the training pass leaves it, still in
    training mode; the validation metrics on that model switched to
    evaluation mode; and this is the model that the turn leaves: neither the
    validation pass, nor the scheduler, nor the export changes it. *)
Theorem fit_epoch_model `{C : Collaborators} cfg g out tr va es e w fr es' stop w' :
  fit_epoch cfg g out tr va es e w = (Ok (fr, es', stop), w') ->
  let trained :=
    (batch_run g true (batches tr) (model_train (w_model w)) (w_optimizer w)).2.1 in
  compute_metrics (metrics cfg) trained tr = Ok (fr_train_metrics fr) /\
  compute_metrics (metrics cfg) (model_eval trained) va = Ok (fr_val_metrics fr) /\
  w_model w' = model_eval trained.
Proof.
  intros H trained.
  pose proof (fit_epoch_ok _ _ _ _ _ _ _ _ _ _ _ _ H) as (_ & _ & Htm & Hvm & _).
  split; [exact Htm|]. split; [exact Hvm|].
  apply fit_epoch_tail in H. cbn [fst snd] in H.
  apply epoch_tail_steps in H as (w2 & d & w3 & Hs & Hc & ->).
  destruct (compute_test_untouched (metrics cfg) (w_model w2) va out e w2) as (Hm & _).
  rewrite Hc in Hm. cbn [snd] in Hm.
  match type of Hs with step_scheduler _ _ ?w0 = _ =>
    destruct (step_scheduler_world cfg (fr_val_metrics fr) w0) as (Hm2 & _) end.
  rewrite Hs in Hm2. cbn [snd] in Hm2.
  cbn [emitted w_model]. rewrite Hm, Hm2. reflexivity.
Qed.

Lemma fit_epoch_model_witness :
  exists r w',
    fit_epoch (C := Toy.collaborators) (Toy.cfg "ndcg_1") (PyFloat 2) "out"
              Toy.train_dl Toy.valid_dl (SpecEarlyStop.new (PyInt 3)) 0 (Toy.world0 None)
      = (Ok r, w') /\
    w_model w'
    = model_eval (batch_run (PyFloat 2) true (batches Toy.train_dl)
                    (model_train (w_model (Toy.world0 None)))
                    (w_optimizer (Toy.world0 None))).2.1.
Proof.
  assert (B : is_ok (fit_epoch (C := Toy.collaborators) (Toy.cfg "ndcg_1") (PyFloat 2) "out"
                       Toy.train_dl Toy.valid_dl (SpecEarlyStop.new (PyInt 3)) 0
                       (Toy.world0 None)).1 = true)
    by (vm_compute; reflexivity).
  remember (fit_epoch (C := Toy.collaborators) (Toy.cfg "ndcg_1") (PyFloat 2) "out"
              Toy.train_dl Toy.valid_dl (SpecEarlyStop.new (PyInt 3)) 0
              (Toy.world0 None)) as R eqn:H.
  destruct R as [[[[fr es'] stop]|x] w']; [|discriminate B].
  symmetry in H. exists (fr, es', stop), w'. split; [reflexivity|].
  exact (proj2 (proj2 (fit_epoch_model _ _ _ _ _ _ _ _ _ _ _ _ H))).
Defined.
